(** * Fraud-detection pipeline: feature engineering, candidate selection and
    result merging

    A shallow embedding of [src/App.tsx] ([processFeatures],
    [topRiskyTransactions], [scatterData]) and of the scorer service
    ([analyzeFraudWithGemini]), together with the JavaScript built-ins they
    call.

    Modelling conventions.
    - A JavaScript [number] that holds an amount, a sum, an average, a ratio
      or a score is a binary64 value: Rocq's primitive [float], whose
      operations are specified by [SpecFloat] through [FloatAxioms].
    - A [number] that is an array index or a counter incremented by one per
      row is an integer ([Z] for identifiers, [N] for counters): such values
      stay far below 2^53 (an array has fewer than 2^32 elements), where
      binary64 arithmetic on integers is exact. The identifier of a score
      result is an integer too: one that is not matches no record.
    - A string is a [string] that holds the UTF-8 encoding of the JavaScript
      string, as the decoder of the uploaded file produces it. What the
      program does with strings (testing for emptiness, removing commas,
      [parseFloat], using them as keys) reads the same on the encoding.
    - A plain object used as a dictionary is a [gmap string _] of its own
      properties, read through [Js.get]: a key that names a member of
      [Object.prototype] finds that member when the object has no own
      property of that name.
    - A field that may be [undefined] is an [option]. *)

From Stdlib Require Import ZArith NArith Lia Bool List Ascii String.
From Stdlib Require Import Floats Permutation Sorted.
From stdpp Require Import gmap strings sorting.

Local Open Scope Z_scope.

(** ** JavaScript built-ins *)

Module Js.

(** [ToBoolean] on a number: [+0], [-0] and [NaN] are falsy. *)
Definition truthy (x : float) : bool :=
  negb (PrimFloat.is_zero x || PrimFloat.is_nan x).

(** [x || d] on numbers. *)
Definition or_else (x d : float) : float :=
  if truthy x then x else d.

(** [x > y] and [x === 0] on numbers. *)
Definition gt (x y : float) : bool := PrimFloat.ltb y x.
Definition is_zero (x : float) : bool := PrimFloat.eqb x PrimFloat.zero.

(** [ToBoolean] on a possibly undefined string: [undefined] and the empty
    string are falsy. *)
Definition truthy_str (s : option string) : bool :=
  match s with
  | Some (String _ _) => true
  | _ => false
  end.

(** [s.replace(/,/g, '')]: every comma is removed. *)
Fixpoint remove_commas (s : string) : string :=
  match s with
  | EmptyString => EmptyString
  | String c r =>
      if Ascii.eqb c "," then remove_commas r
      else String c (remove_commas r)
  end.

(** *** [parseFloat] *)

(** [StrWhiteSpaceChar] (white space and line terminators) in UTF-8. One
    byte: TAB, LF, VT, FF, CR and SP. *)
Definition is_space (c : ascii) : bool :=
  let n := N_of_ascii c in
  ((9 <=? n) && (n <=? 13) || (n =? 32))%N.

(** Two bytes: NBSP (U+00A0). *)
Definition is_space2 (c1 c2 : ascii) : bool :=
  ((N_of_ascii c1 =? 194) && (N_of_ascii c2 =? 160))%N.

(** Three bytes: U+1680, U+2000 to U+200A, U+2028, U+2029, U+202F, U+205F,
    U+3000 and U+FEFF. *)
Definition is_space3 (c1 c2 c3 : ascii) : bool :=
  let n1 := N_of_ascii c1 in
  let n2 := N_of_ascii c2 in
  let n3 := N_of_ascii c3 in
  ((n1 =? 225) && (n2 =? 154) && (n3 =? 128)
   || (n1 =? 226) && (n2 =? 128)
      && ((128 <=? n3) && (n3 <=? 138) || (n3 =? 168) || (n3 =? 169)
          || (n3 =? 175))
   || (n1 =? 226) && (n2 =? 129) && (n3 =? 159)
   || (n1 =? 227) && (n2 =? 128) && (n3 =? 128)
   || (n1 =? 239) && (n2 =? 187) && (n3 =? 191))%N.

Fixpoint trim_start (s : string) : string :=
  match s with
  | String c1 r1 =>
      if is_space c1 then trim_start r1
      else
        match r1 with
        | String c2 r2 =>
            if is_space2 c1 c2 then trim_start r2
            else
              match r2 with
              | String c3 r3 =>
                  if is_space3 c1 c2 c3 then trim_start r3 else s
              | EmptyString => s
              end
        | EmptyString => s
        end
  | EmptyString => s
  end.

Definition digit_of (c : ascii) : option Z :=
  let n := N_of_ascii c in
  if ((48 <=? n) && (n <=? 57))%N then Some (Z.of_N n - 48) else None.

(** The longest run of decimal digits at the head of [s]: how many there
    are, the integer they spell after [acc], and the rest of [s]. *)
Fixpoint take_digits (s : string) (len : Z) (acc : Z) : Z * Z * string :=
  match s with
  | String c r =>
      match digit_of c with
      | Some d => take_digits r (len + 1) (10 * acc + d)
      | None => (len, acc, s)
      end
  | EmptyString => (len, acc, s)
  end.

(** An optional [+] or [-]: [true] for [-]. *)
Definition take_sign (s : string) : bool * string :=
  match s with
  | String "-" r => (true, r)
  | String "+" r => (false, r)
  | _ => (false, s)
  end.

(** [ExponentPart], when one is there: [e] or [E], an optional sign and at
    least one digit. Without a digit nothing is consumed and the exponent
    is 0. *)
Definition take_exponent (s : string) : Z :=
  match s with
  | String c r =>
      if Ascii.eqb c "e" || Ascii.eqb c "E" then
        let '(neg, r') := take_sign r in
        let '(len, e, _) := take_digits r' 0 0 in
        if 0 <? len then (if neg then - e else e) else 0
      else 0
  | EmptyString => 0
  end.

(** The binary64 value nearest to [m * 10^e] (ties to even), for [0 < m]. *)
Definition round_decimal (m : positive) (e : Z) : spec_float :=
  match e with
  | Zneg p =>
      SFdiv prec emax (S754_finite false m 0)
            (S754_finite false (Pos.pow 10 p) 0)
  | _ => binary_normalize prec emax (Zpos m * 10 ^ e) 0 false
  end.

Definition number_of_decimal (neg : bool) (m e : Z) : float :=
  let x :=
    match m with
    | Zpos p => SF2Prim (round_decimal p e)
    | _ => PrimFloat.zero
    end in
  if neg then PrimFloat.opp x else x.

(** A decimal point at the head of [s]: what follows it. *)
Definition take_point (s : string) : option string :=
  match s with
  | String "." f => Some f
  | _ => None
  end.

(** [StrUnsignedDecimalLiteral] without its sign: [Infinity], or digits
    with an optional fraction and exponent; [None] when no prefix of [s]
    is one. *)
Definition parse_unsigned (neg : bool) (s : string) : option float :=
  if String.prefix "Infinity" s then
    Some (if neg then PrimFloat.neg_infinity else PrimFloat.infinity)
  else
    let '(ilen, ival, r) := take_digits s 0 0 in
    let '(flen, mval, r') :=
      match take_point r with
      | Some f => take_digits f 0 ival
      | None => (0, ival, r)
      end in
    if (ilen =? 0) && (flen =? 0) then None
    else Some (number_of_decimal neg mval (take_exponent r' - flen)).

(** [parseFloat(s)]: leading white space is skipped, the longest prefix
    that is a [StrDecimalLiteral] is converted, and [NaN] is returned when
    there is none. *)
Definition parseFloat (s : string) : float :=
  let '(neg, r) := take_sign (trim_start s) in
  match parse_unsigned neg r with
  | Some x => x
  | None => PrimFloat.nan
  end.

(** *** Counters *)

(** The binary64 value of a counter (exact below 2^53). *)
Definition number_of_N (n : N) : float :=
  SF2Prim (binary_normalize prec emax (Z.of_N n) 0 false).

(** *** Plain objects used as dictionaries *)

(** The names [Object.prototype] defines, in a realm that nobody has
    changed. Each holds a function, but [__proto__]: an accessor that reads
    [Object.prototype] itself and, given a value that is not an object,
    ignores the assignment. All twelve read as truthy values. *)
Definition prototype_members : list string :=
  ["constructor"; "hasOwnProperty"; "isPrototypeOf"; "propertyIsEnumerable";
   "toLocaleString"; "toString"; "valueOf"; "__proto__"; "__defineGetter__";
   "__defineSetter__"; "__lookupGetter__"; "__lookupSetter__"].

Definition inherited (key : string) : bool :=
  existsb (String.eqb key) prototype_members.

(** What [o[key]] reads from an object made by [{}]: its own property, or
    else the member of [Object.prototype] of that name, or else
    [undefined]. *)
Inductive Property (V : Type) :=
| Own (v : V)
| Inherited
| Undefined.
Arguments Own {V} v.
Arguments Inherited {V}.
Arguments Undefined {V}.

Definition get {V} (o : gmap string V) (key : string) : Property V :=
  match o !! key with
  | Some v => Own v
  | None => if inherited key then Inherited else Undefined
  end.

(** [o[key] = v], for a [v] that is not an object or for a [key] that is not
    [__proto__]: an own property is made or overwritten, but for
    [__proto__], where the accessor takes the value and drops it. *)
Definition set {V} (o : gmap string V) (key : string) (v : V)
  : gmap string V :=
  if String.eqb key "__proto__" then o else <[key := v]> o.

(** What a counter cell made by [(cell || 0) + 1] holds, and what a record
    carries as its count. Under a key that names a member of
    [Object.prototype] the first read finds that member, and [+ 1] makes
    text of it: the member as a string (the source text of a function, or
    [[object Object]]) followed by "1"; every later [+ 1] appends one more
    "1". *)
Inductive Counter :=
| Count (n : N)
| Text (member : string) (ones : N)
| Member (name : string).

(** [cell[key]], [undefined] being [None]. *)
Definition read (cell : gmap string Counter) (key : string)
  : option Counter :=
  match get cell key with
  | Own c => Some c
  | Inherited => Some (Member key)
  | Undefined => None
  end.

(** [v || 0]: [undefined] is falsy, and so is the number 0, which [0]
    replaces; the text, which is never empty, a function and an object are
    truthy. *)
Definition counter_or_zero (v : option Counter) : Counter :=
  match v with
  | Some c => c
  | None => Count 0
  end.

(** [c + 1]: addition on a number, concatenation on the rest. *)
Definition counter_succ (c : Counter) : Counter :=
  match c with
  | Count n => Count (n + 1)
  | Text member ones => Text member (ones + 1)
  | Member name => Text name 1
  end.

(** [v > n]: [undefined], and text or an object that does not spell a
    number, compare as [NaN], which is above nothing. *)
Definition counter_gt (v : option Counter) (n : N) : bool :=
  match v with
  | Some (Count c) => (n <? c)%N
  | _ => false
  end.

(** *** Arrays *)

(** [SortCompare]: the comparator's result, with [NaN] read as [+0]. Only
    its sign matters; [sort_gt] says that it is positive, that is, that
    the second argument is to come first. *)
Definition sort_gt {A} (comparefn : A -> A -> float) (x y : A) : bool :=
  PrimFloat.ltb PrimFloat.zero (comparefn x y).

(** [Array.prototype.sort] is stable: an element moves behind a later one
    only when the comparator says so. With a consistent comparator the
    order it produces is the one built here, by inserting each element, from
    the last to the first, into the sorted rest. *)
Fixpoint sort_insert {A} (comparefn : A -> A -> float) (x : A) (l : list A)
  : list A :=
  match l with
  | [] => [x]
  | y :: r =>
      if sort_gt comparefn x y then y :: sort_insert comparefn x r
      else x :: l
  end.

Fixpoint sort {A} (comparefn : A -> A -> float) (l : list A) : list A :=
  match l with
  | [] => []
  | x :: r => sort_insert comparefn x (sort comparefn r)
  end.

(** [a.slice(0, n)]. *)
Definition slice0 {A} (n : nat) (l : list A) : list A := firstn n l.

(** [a.forEach((x, index) => ...)] over a state [S] that the callback
    updates. *)
Fixpoint forEach_from {A S} (f : S -> A -> Z -> S) (index : Z) (l : list A)
  (s : S) : S :=
  match l with
  | [] => s
  | x :: r => forEach_from f (index + 1) r (f s x index)
  end.

Definition forEach {A S} (f : S -> A -> Z -> S) (l : list A) (s : S) : S :=
  forEach_from f 0 l s.

(** [a.filter(item => item !== null)] on an array of records or [null]. *)
Fixpoint filter_non_null {A} (l : list (option A)) : list A :=
  match l with
  | [] => []
  | Some x :: r => x :: filter_non_null r
  | None :: r => filter_non_null r
  end.

End Js.

(** ** Data model ([types.ts]) *)

Module RawTransaction.
Record t := mk {
  BA : option string;
  monthly : option string;
  actCode : option string;
  amount : option string
}.
End RawTransaction.

Module ProcessedTransaction.
Record t := mk {
  id : Z;
  BA : string;
  monthly : option string;
  actCode : string;
  amount : float;
  baTransactionCount : Js.Counter;
  actCodeAvgAmount : float;
  deviationFromAvg : float;
  isSuspiciousCandidate : bool
}.
End ProcessedTransaction.

Module ActCodeStat.
Record t := mk {
  totalAmount : float;
  count : N;
  average : float
}.
End ActCodeStat.

Module AIAnalysisResult.
Record t := mk {
  id : Z;
  fraudScore : float;
  reason : string
}.
End AIAnalysisResult.

(** [ProcessedTransaction & AIAnalysisResult]: what [{...original, ...res}]
    builds. The three fields of [res] come last and win. *)
Module ScoredTransaction.
Record t := mk {
  id : Z;
  BA : string;
  monthly : option string;
  actCode : string;
  amount : float;
  baTransactionCount : Js.Counter;
  actCodeAvgAmount : float;
  deviationFromAvg : float;
  isSuspiciousCandidate : bool;
  fraudScore : float;
  reason : string
}.
End ScoredTransaction.

Abbreviation ActCodeStats := (gmap string ActCodeStat.t).
Abbreviation BAStats := (gmap string Js.Counter).

(** ** The application ([App.tsx]) *)

Module App.

(** [row.amount ? row.amount.replace(/,/g, '') : "0"], then
    [parseFloat(amountStr) || 0]. *)
Definition amountStr (row : RawTransaction.t) : string :=
  match RawTransaction.amount row with
  | Some (String c r) => Js.remove_commas (String c r)
  | _ => "0"
  end.

Definition parseAmount (row : RawTransaction.t) : float :=
  Js.or_else (Js.parseFloat (amountStr row)) 0.

(** [!actCode || !ba]: the keys of a row that is kept, [None] for a row
    that is skipped. *)
Definition keys (row : RawTransaction.t) : option (string * string) :=
  match RawTransaction.actCode row, RawTransaction.BA row with
  | Some (String c r), Some (String c' r') =>
      Some (String c r, String c' r')
  | _, _ => None
  end.

(** [stat.totalAmount += amount; stat.count += 1]. *)
Definition addAmount (stat : ActCodeStat.t) (amount : float) : ActCodeStat.t :=
  ActCodeStat.mk (ActCodeStat.totalAmount stat + amount)
    (ActCodeStat.count stat + 1) (ActCodeStat.average stat).

(** First pass, one row.

    [if (!actCodeStats[actCode])] makes the entry only when the read finds
    nothing: an entry is an object and an inherited member is a function or
    an object, and both are truthy. The two [+=] that follow update the own
    entry; under an [actCode] that names a member of [Object.prototype]
    there is none, and they put [totalAmount] and [count] on that member,
    outside the dictionary, where both become [NaN] ([undefined + amount])
    and where the program never reads them: [NaN] is falsy, as [undefined]
    is, in the two tests that could meet it. *)
Definition aggregate (st : ActCodeStats * BAStats) (row : RawTransaction.t)
  (index : Z) : ActCodeStats * BAStats :=
  let '(actCodeStats, baStats) := st in
  let amount := parseAmount row in
  match keys row with
  | None => st
  | Some (actCode, ba) =>
      let actCodeStats :=
        match Js.get actCodeStats actCode with
        | Js.Undefined => Js.set actCodeStats actCode (ActCodeStat.mk 0 0 0)
        | _ => actCodeStats
        end in
      let actCodeStats :=
        match Js.get actCodeStats actCode with
        | Js.Own stat => <[actCode := addAmount stat amount]> actCodeStats
        | _ => actCodeStats
        end in
      let baStats :=
        Js.set baStats ba
          (Js.counter_succ (Js.counter_or_zero (Js.read baStats ba))) in
      (actCodeStats, baStats)
  end.

(** [Object.keys(actCodeStats).forEach(...)]: every entry gets its average;
    each step touches its own entry only. *)
Definition setAverage (stat : ActCodeStat.t) : ActCodeStat.t :=
  ActCodeStat.mk (ActCodeStat.totalAmount stat) (ActCodeStat.count stat)
    (ActCodeStat.totalAmount stat
     / Js.number_of_N (ActCodeStat.count stat)).

Definition calculateAverages (actCodeStats : ActCodeStats) : ActCodeStats :=
  setAverage <$> actCodeStats.

(** [actCodeStats[code]?.average || 0]: a member of [Object.prototype] has
    no [average], and [undefined?.average] is [undefined]. *)
Definition lookupAverage (actCodeStats : ActCodeStats) (code : string)
  : float :=
  match Js.get actCodeStats code with
  | Js.Own s => Js.or_else (ActCodeStat.average s) 0
  | Js.Inherited => 0
  | Js.Undefined => 0
  end.

(** Second pass, one row. *)
Definition materialize (actCodeStats : ActCodeStats) (baStats : BAStats)
  (processed : list ProcessedTransaction.t) (row : RawTransaction.t)
  (index : Z) : list ProcessedTransaction.t :=
  let amount := parseAmount row in
  match keys row with
  | None => processed
  | Some (actCode, ba) =>
      let avg := lookupAverage actCodeStats actCode in
      let deviation :=
        if Js.is_zero avg then 0%float else (amount / avg)%float in
      let isSuspicious :=
        Js.gt deviation 3
        || (Js.counter_gt (Js.read baStats ba) 100 && Js.gt deviation 2) in
      processed ++
        [ProcessedTransaction.mk index ba (RawTransaction.monthly row)
           actCode amount (Js.counter_or_zero (Js.read baStats ba)) avg
           deviation isSuspicious]
  end.

(** The aggregates after the first pass and the averages. *)
Definition aggregates (data : list RawTransaction.t)
  : ActCodeStats * BAStats :=
  let '(actCodeStats, baStats) := Js.forEach aggregate data (∅, ∅) in
  (calculateAverages actCodeStats, baStats).

(** [processFeatures]: the array handed to [setProcessedData]. *)
Definition processFeatures (data : list RawTransaction.t)
  : list ProcessedTransaction.t :=
  let '(actCodeStats, baStats) := aggregates data in
  Js.forEach (materialize actCodeStats baStats) data [].

(** The two arrays React keeps in state. They are objects:
    [Array.prototype.sort] sorts in place, so a stage that sorts one leaves
    its new order behind for every later reader. *)
Record State := mkState {
  processedData : list ProcessedTransaction.t;
  analysisResults : list AIAnalysisResult.t
}.

(** [{ ...original, ...res }]. *)
Definition spread (original : ProcessedTransaction.t)
  (res : AIAnalysisResult.t) : ScoredTransaction.t :=
  ScoredTransaction.mk
    (AIAnalysisResult.id res)
    (ProcessedTransaction.BA original)
    (ProcessedTransaction.monthly original)
    (ProcessedTransaction.actCode original)
    (ProcessedTransaction.amount original)
    (ProcessedTransaction.baTransactionCount original)
    (ProcessedTransaction.actCodeAvgAmount original)
    (ProcessedTransaction.deviationFromAvg original)
    (ProcessedTransaction.isSuspiciousCandidate original)
    (AIAnalysisResult.fraudScore res)
    (AIAnalysisResult.reason res).

(** [(a, b) => b.fraudScore - a.fraudScore]. *)
Definition byFraudScore (a b : AIAnalysisResult.t) : float :=
  (AIAnalysisResult.fraudScore b - AIAnalysisResult.fraudScore a)%float.

(** The callback of [.map] in [topRiskyTransactions]. *)
Definition joinOriginal (processedData : list ProcessedTransaction.t)
  (res : AIAnalysisResult.t) : option ScoredTransaction.t :=
  match
    List.find (fun p => ProcessedTransaction.id p =? AIAnalysisResult.id res)
      processedData
  with
  | Some original => Some (spread original res)
  | None => None
  end.

(** [topRiskyTransactions]: the state it leaves and the array it returns. *)
Definition topRiskyTransactions (st : State)
  : State * list ScoredTransaction.t :=
  if (length (analysisResults st) =? 0)%nat then (st, [])
  else
    let sorted := Js.sort byFraudScore (analysisResults st) in
    (mkState (processedData st) sorted,
     Js.filter_non_null (List.map (joinOriginal (processedData st)) sorted)).

(** A point of the scatter chart. *)
Record Point := mkPoint {
  name : string;
  x : string;
  y : float;
  z : float;
  risk : string
}.

(** [(a, b) => b.amount - a.amount]. *)
Definition byAmount (a b : ProcessedTransaction.t) : float :=
  (ProcessedTransaction.amount b - ProcessedTransaction.amount a)%float.

Definition toPoint (d : ProcessedTransaction.t) : Point :=
  mkPoint (ProcessedTransaction.BA d) (ProcessedTransaction.actCode d)
    (ProcessedTransaction.amount d) (ProcessedTransaction.deviationFromAvg d)
    (if ProcessedTransaction.isSuspiciousCandidate d then "High"
     else "Normal").

(** [scatterData]: the state it leaves and the array it returns. *)
Definition scatterData (st : State) : State * list Point :=
  let sorted := Js.sort byAmount (processedData st) in
  (mkState sorted (analysisResults st),
   List.map toPoint (Js.slice0 500 sorted)).

End App.

(** ** The scorer service ([services/geminiService.ts]) *)

Module GeminiService.

(** One element of the JSON array put into the prompt. *)
Record Payload := mkPayload {
  id : Z;
  BA : string;
  actCode : string;
  amount : float;
  avgAmountForCode : float;
  deviationRatio : float
}.

(** A thrown value. *)
Inductive Exn := Error (message : string).

(** What the service does to the outside, in order. *)
Inductive Event :=
| ConsoleError (message : string)
| GenerateContent (model : string) (input : list Payload).

(** The promise settles: resolved with a value, or rejected. *)
Inductive Settled (A : Type) :=
| Resolved (a : A)
| Rejected (e : Exn).
Arguments Resolved {A} a.
Arguments Rejected {A} e.

(** [(a, b) => b.deviationFromAvg - a.deviationFromAvg]. *)
Definition byDeviation (a b : ProcessedTransaction.t) : float :=
  (ProcessedTransaction.deviationFromAvg b
   - ProcessedTransaction.deviationFromAvg a)%float.

(** The candidates: [filter], [sort], [slice(0, 30)]. [filter] builds a new
    array, so the caller's array is not sorted. *)
Definition candidates (transactions : list ProcessedTransaction.t)
  : list ProcessedTransaction.t :=
  Js.slice0 30
    (Js.sort byDeviation
       (List.filter ProcessedTransaction.isSuspiciousCandidate transactions)).

Definition toPayload (c : ProcessedTransaction.t) : Payload :=
  mkPayload (ProcessedTransaction.id c) (ProcessedTransaction.BA c)
    (ProcessedTransaction.actCode c) (ProcessedTransaction.amount c)
    (ProcessedTransaction.actCodeAvgAmount c)
    (ProcessedTransaction.deviationFromAvg c).

Section Service.

(** [process.env.API_KEY]. *)
Variable API_KEY : option string.
(** The remote model: for the candidates in the prompt, the call rejects
    or answers with [response.text]. *)
Variable generateContent : list Payload -> Exn + option string.
(** [JSON.parse], cast to [AIAnalysisResult[]]. *)
Variable JSON_parse : string -> Exn + list AIAnalysisResult.t.

Definition analyzeFraudWithGemini
  (transactions : list ProcessedTransaction.t)
  : list Event * Settled (list AIAnalysisResult.t) :=
  let candidates := candidates transactions in
  if (length candidates =? 0)%nat then ([], Resolved [])
  else if negb (Js.truthy_str API_KEY) then
    ([ConsoleError "API_KEY is missing in environment variables."],
     Rejected
       (Error "API Key not found. Please configure environment variables."))
  else
    let input := List.map toPayload candidates in
    let call := GenerateContent "gemini-2.5-flash" input in
    match generateContent input with
    | inl error => ([call; ConsoleError "Gemini API Error:"], Rejected error)
    | inr text =>
        if Js.truthy_str text then
          match JSON_parse (default "" text) with
          | inl error =>
              ([call; ConsoleError "Gemini API Error:"], Rejected error)
          | inr results => ([call], Resolved results)
          end
        else ([call], Resolved [])
    end.

End Service.

End GeminiService.

(** ** The persistence service ([services/supabaseService.ts]) *)

Module SupabaseService.

(** The variables one environment object holds. *)
Record Vars := mkVars {
  VITE_SUPABASE_URL : option string;
  VITE_SUPABASE_ANON_KEY : option string
}.

(** [x || y] on strings that may be undefined. *)
Definition or_str (x y : option string) : option string :=
  if Js.truthy_str x then x else y.

(** [process.env.NAME || import.meta.env?.NAME]; [import.meta.env] may be
    absent. *)
Definition supabaseUrl (process_env : Vars) (import_meta_env : option Vars)
  : option string :=
  or_str (VITE_SUPABASE_URL process_env)
    (match import_meta_env with
     | Some env => VITE_SUPABASE_URL env
     | None => None
     end).

Definition supabaseKey (process_env : Vars) (import_meta_env : option Vars)
  : option string :=
  or_str (VITE_SUPABASE_ANON_KEY process_env)
    (match import_meta_env with
     | Some env => VITE_SUPABASE_ANON_KEY env
     | None => None
     end).

(** A client of the datastore, known by the URL and the key it was made
    for. *)
Record Client := mkClient {
  url : string;
  key : string
}.

Section Loading.

(** [createClient] belongs to the library: for a URL and a key it returns a
    client, or it throws (as it does for a URL that is not an HTTP or HTTPS
    URL). *)
Variable createClient : string -> string -> GeminiService.Exn + Client.

(** [(supabaseUrl && supabaseKey) ? createClient(...) : null], evaluated
    once, when the module is loaded: [inr] holds the constant [supabase];
    with [inl] the module, and the application that imports it, fails to
    load with that exception. *)
Definition supabase (process_env : Vars) (import_meta_env : option Vars)
  : GeminiService.Exn + option Client :=
  match supabaseUrl process_env import_meta_env,
        supabaseKey process_env import_meta_env with
  | Some (String c u), Some (String c' k) =>
      match createClient (String c u) (String c' k) with
      | inl e => inl e
      | inr client => inr (Some client)
      end
  | _, _ => inr None
  end.

End Loading.

(** A row of the table [fraud_detections]. *)
Record Row := mkRow {
  ba : string;
  monthly : option string;
  act_code : string;
  amount : float;
  fraud_score : float;
  deviation_ratio : float;
  ai_reason : string;
  is_flagged : bool
}.

(** [t.aiReasoning]: the objects [{ ...original, ...res }] have no such
    property. *)
Definition aiReasoning (t : ScoredTransaction.t) : option string := None.

(** The callback of [.map] in [saveFraudAnalysisResults];
    [t.aiReasoning || t.reason]. *)
Definition toRow (t : ScoredTransaction.t) : Row :=
  mkRow (ScoredTransaction.BA t) (ScoredTransaction.monthly t)
    (ScoredTransaction.actCode t) (ScoredTransaction.amount t)
    (ScoredTransaction.fraudScore t) (ScoredTransaction.deviationFromAvg t)
    (match aiReasoning t with
     | Some (String c r) => String c r
     | _ => ScoredTransaction.reason t
     end)
    true.

(** What the service does to the outside, in order. *)
Inductive Event :=
| ConsoleError (message : string)
| Insert (client : Client) (table : string) (rows : list Row).

(** [{ data, error }], as [insert(...).select()] answers. *)
Record Reply := mkReply {
  data : option (list Row);
  error : option GeminiService.Exn
}.

Section Service.

(** The client made when the module is loaded, or [null]. *)
Variable supabase : option Client.
(** The remote table. *)
Variable insert : Client -> string -> list Row -> Reply.

Definition saveFraudAnalysisResults (transactions : list ScoredTransaction.t)
  : list Event * GeminiService.Settled (option (list Row)) :=
  match supabase with
  | None =>
      ([],
       GeminiService.Rejected
         (GeminiService.Error
            "Supabase client not initialized. Missing Environment Variables."))
  | Some client =>
      let recordsToInsert := List.map toRow transactions in
      let call := Insert client "fraud_detections" recordsToInsert in
      let reply := insert client "fraud_detections" recordsToInsert in
      match error reply with
      | Some e =>
          ([call; ConsoleError "Supabase Insert Error:"],
           GeminiService.Rejected e)
      | None => ([call], GeminiService.Resolved (data reply))
      end
  end.

End Service.

End SupabaseService.

(** ** The component ([App.tsx]): its state, its handlers and what it shows *)

Module SaveStatus.
Inductive t := idle | success | error.
End SaveStatus.

Module Component.

(** The eight cells of [useState]. *)
Record t := mk {
  rawData : list RawTransaction.t;
  processedData : list ProcessedTransaction.t;
  isProcessing : bool;
  isAnalyzing : bool;
  isSaving : bool;
  saveStatus : SaveStatus.t;
  error : option string;
  analysisResults : list AIAnalysisResult.t
}.

Definition initial : t :=
  mk [] [] false false false SaveStatus.idle None [].

Definition setRawData (v : list RawTransaction.t) (ui : t) : t :=
  mk v (processedData ui) (isProcessing ui) (isAnalyzing ui) (isSaving ui)
    (saveStatus ui) (error ui) (analysisResults ui).

Definition setProcessedData (v : list ProcessedTransaction.t) (ui : t) : t :=
  mk (rawData ui) v (isProcessing ui) (isAnalyzing ui) (isSaving ui)
    (saveStatus ui) (error ui) (analysisResults ui).

Definition setIsProcessing (v : bool) (ui : t) : t :=
  mk (rawData ui) (processedData ui) v (isAnalyzing ui) (isSaving ui)
    (saveStatus ui) (error ui) (analysisResults ui).

Definition setIsAnalyzing (v : bool) (ui : t) : t :=
  mk (rawData ui) (processedData ui) (isProcessing ui) v (isSaving ui)
    (saveStatus ui) (error ui) (analysisResults ui).

Definition setIsSaving (v : bool) (ui : t) : t :=
  mk (rawData ui) (processedData ui) (isProcessing ui) (isAnalyzing ui) v
    (saveStatus ui) (error ui) (analysisResults ui).

Definition setSaveStatus (v : SaveStatus.t) (ui : t) : t :=
  mk (rawData ui) (processedData ui) (isProcessing ui) (isAnalyzing ui)
    (isSaving ui) v (error ui) (analysisResults ui).

Definition setError (v : option string) (ui : t) : t :=
  mk (rawData ui) (processedData ui) (isProcessing ui) (isAnalyzing ui)
    (isSaving ui) (saveStatus ui) v (analysisResults ui).

Definition setAnalysisResults (v : list AIAnalysisResult.t) (ui : t) : t :=
  mk (rawData ui) (processedData ui) (isProcessing ui) (isAnalyzing ui)
    (isSaving ui) (saveStatus ui) (error ui) v.

(** The messages put into the error cell. *)
Definition noDataMessage : string :=
  "ไม่พบข้อมูลในไฟล์ CSV หรือรูปแบบไม่ถูกต้อง".
Definition featureMessage : string :=
  "เกิดข้อผิดพลาดในการประมวลผลข้อมูล Feature Engineering".
Definition nothingFoundMessage : string :=
  "ไม่พบรายการที่เข้าข่ายน่าสงสัยอย่างมีนัยสำคัญ หรือ API ไม่ตอบกลับข้อมูล".
Definition geminiMessage : string :=
  "เกิดข้อผิดพลาดในการเชื่อมต่อกับ Gemini API: ตรวจสอบ API Key ใน Environment Variable".
Definition supabaseMessage : string :=
  "เกิดข้อผิดพลาดในการบันทึกข้อมูลลง Supabase: ตรวจสอบ URL และ Key".

(** What a handler does to the outside, in order: the events of the two
    services and its own [console.error(err)]. *)
Inductive Effect :=
| Gemini (e : GeminiService.Event)
| Supabase (e : SupabaseService.Event)
| ConsoleError (err : GeminiService.Exn).

(** *** Upload *)

(** What [Papa.parse] reports: [complete(results)], where [results.data] may
    be missing, or [error(err)] with [err.message]. *)
Inductive ParseResult :=
| Complete (data : option (list RawTransaction.t))
| ParseError (message : string).

(** [processFeatures(data)] as the component runs it. Nothing in its [try]
    block throws on rows of strings, so the [catch] branch, which would put
    [featureMessage] into the error cell, is never entered. *)
Definition processFeatures (data : list RawTransaction.t) (ui : t) : t :=
  let processed := App.processFeatures data in
  let ui := setProcessedData processed ui in
  setIsProcessing false ui.

(** [handleFileUpload] up to the call of [Papa.parse]. *)
Definition uploadStart (ui : t) : t :=
  let ui := setIsProcessing true ui in
  let ui := setError None ui in
  let ui := setProcessedData [] ui in
  let ui := setAnalysisResults [] ui in
  setSaveStatus SaveStatus.idle ui.

(** The callbacks [complete] and [error] given to [Papa.parse]. *)
Definition uploadDone (result : ParseResult) (ui : t) : t :=
  match result with
  | Complete (Some (row :: rest)) =>
      let ui := setRawData (row :: rest) ui in
      processFeatures (row :: rest) ui
  | Complete _ =>
      let ui := setError (Some noDataMessage) ui in
      setIsProcessing false ui
  | ParseError message =>
      let ui := setError (Some ("Error parsing CSV: " ++ message)%string) ui in
      setIsProcessing false ui
  end.

(** [handleFileUpload]: [file] is [event.target.files?.[0]], and [parse] is
    what [Papa.parse] reports for a file. *)
Definition handleFileUpload {File : Type} (parse : File -> ParseResult)
  (file : option File) (ui : t) : t :=
  match file with
  | None => ui
  | Some f => uploadDone (parse f) (uploadStart ui)
  end.

(** *** Analysis *)

(** [runAIAnalysis] up to the [await]. *)
Definition analysisStart (ui : t) : t :=
  let ui := setIsAnalyzing true ui in
  let ui := setError None ui in
  setSaveStatus SaveStatus.idle ui.

(** [runAIAnalysis] after the [await]: the rest of [try], or [catch], and
    [finally]. What the service resolves with is an array of results, as
    its signature ([Promise<AIAnalysisResult[]>]) and [JSON_parse] above
    have it; a reply of the model that is no array is not covered here. *)
Definition analysisDone
  (outcome : GeminiService.Settled (list AIAnalysisResult.t)) (ui : t)
  : list Effect * t :=
  match outcome with
  | GeminiService.Resolved results =>
      let ui := setAnalysisResults results ui in
      let ui :=
        if (length results =? 0)%nat then
          setError (Some nothingFoundMessage) ui
        else ui in
      ([], setIsAnalyzing false ui)
  | GeminiService.Rejected err =>
      let ui := setError (Some geminiMessage) ui in
      ([ConsoleError err], setIsAnalyzing false ui)
  end.

Section Handlers.

Variable API_KEY : option string.
Variable generateContent
  : list GeminiService.Payload -> GeminiService.Exn + option string.
Variable JSON_parse
  : string -> GeminiService.Exn + list AIAnalysisResult.t.
Variable supabase : option SupabaseService.Client.
Variable insert
  : SupabaseService.Client -> string -> list SupabaseService.Row ->
    SupabaseService.Reply.

Definition runAIAnalysis (ui : t) : list Effect * t :=
  if (length (processedData ui) =? 0)%nat then ([], ui)
  else
    let started := analysisStart ui in
    let '(events, outcome) :=
      GeminiService.analyzeFraudWithGemini API_KEY generateContent JSON_parse
        (processedData ui) in
    let '(logged, done) := analysisDone outcome started in
    (List.map Gemini events ++ logged, done).

(** *** Saving *)

(** The memo [topRiskyTransactions] as a handler reads it. *)
Definition topRiskyTransactions (ui : t) : list ScoredTransaction.t :=
  snd (App.topRiskyTransactions
         (App.mkState (processedData ui) (analysisResults ui))).

Definition handleSaveToDatabase (ui : t) : list Effect * t :=
  let top := topRiskyTransactions ui in
  if (length top =? 0)%nat then ([], ui)
  else
    let saving := setIsSaving true ui in
    match SupabaseService.saveFraudAnalysisResults supabase insert top with
    | (events, GeminiService.Resolved _) =>
        let ui := setSaveStatus SaveStatus.success saving in
        (List.map Supabase events, setIsSaving false ui)
    | (events, GeminiService.Rejected err) =>
        let ui := setError (Some supabaseMessage) saving in
        let ui := setSaveStatus SaveStatus.error ui in
        (List.map Supabase events ++ [ConsoleError err], setIsSaving false ui)
    end.

End Handlers.

(** *** What is shown *)

Inductive Color := red | orange | yellow.

(** The colour of a row of the table:
    [(item.fraudScore || 0) > 0.8 ? red : (item.fraudScore || 0) > 0.5 ?
    orange : yellow]. *)
#[warnings="-inexact-float"]
Definition scoreColor (fraudScore : float) : Color :=
  if Js.gt (Js.or_else fraudScore 0) 0.8 then red
  else if Js.gt (Js.or_else fraudScore 0) 0.5 then orange
  else yellow.

(** [analysisResults.filter(r => r.fraudScore > 0.7).length]. *)
#[warnings="-inexact-float"]
Definition confirmedHighRisk (analysisResults : list AIAnalysisResult.t)
  : nat :=
  length
    (List.filter (fun r => Js.gt (AIAnalysisResult.fraudScore r) 0.7)
       analysisResults).

(** [processedData.filter(d => d.isSuspiciousCandidate).length]. *)
Definition suspiciousCandidates (processedData : list ProcessedTransaction.t)
  : nat :=
  length
    (List.filter ProcessedTransaction.isSuspiciousCandidate processedData).

(** What one render shows and enables. *)
Record View := mkView {
  runDisabled : bool;
  saveShown : bool;
  saveDisabled : bool;
  loaded : option nat;
  chart : option (list App.Point);
  totalTransactions : nat;
  suspicious : nat;
  highRisk : nat;
  table : option (list (ScoredTransaction.t * Color))
}.

(** One render: the two memos run, [topRiskyTransactions] first, each
    sorting its array of the state, and the view is built from the state. *)
Definition render (ui : t) : t * View :=
  let '(st, top) :=
    App.topRiskyTransactions
      (App.mkState (processedData ui) (analysisResults ui)) in
  let '(st, points) := App.scatterData st in
  let ui := setAnalysisResults (App.analysisResults st) ui in
  let ui := setProcessedData (App.processedData st) ui in
  let shown := (0 <? length (processedData ui))%nat in
  (ui,
   mkView
     ((length (processedData ui) =? 0)%nat || isAnalyzing ui)
     (0 <? length (analysisResults ui))%nat
     (isSaving ui
      || match saveStatus ui with SaveStatus.success => true | _ => false end)
     (if negb (isProcessing ui) && shown
      then Some (length (processedData ui)) else None)
     (if shown then Some points else None)
     (length (processedData ui))
     (suspiciousCandidates (processedData ui))
     (confirmedHighRisk (analysisResults ui))
     (if (0 <? length (analysisResults ui))%nat
      then Some (List.map
                   (fun item => (item, scoreColor (ScoredTransaction.fraudScore item)))
                   top)
      else None)).

End Component.

(** ** Definitions used in the statements *)

(** The sign of a float that is neither zero nor [NaN]. *)
Definition sf_signed (s : bool) (f : spec_float) : Prop :=
  match f with
  | S754_finite s' _ _ | S754_infinity s' => s' = s
  | _ => False
  end.

(** The sign of a difference is what comparing the operands says. *)
Definition sub_agrees (c : option comparison) (d : spec_float) : Prop :=
  match c with
  | Some Lt => sf_signed false d
  | Some Gt => sf_signed true d
  | Some Eq => SFltb (S754_zero false) d = false
  | None => True
  end.

(** [a] may stand before [b] in an order that descends by [key]. *)
Definition descending {A} (key : A -> float) (a b : A) : Prop :=
  PrimFloat.leb (key b) (key a) = true.

(** The [key] of [a] is a number: it is not [NaN]. *)
Definition has_number {A} (key : A -> float) (a : A) : Prop :=
  PrimFloat.is_nan (key a) = false.

(** Some processed record has the identifier [i]. *)
Definition processed_id (processedData : list ProcessedTransaction.t) (i : Z)
  : bool :=
  existsb (fun p => ProcessedTransaction.id p =? i) processedData.

(** The records the second pass appends, row by row, from [index] on. *)
Fixpoint materialized (actCodeStats : ActCodeStats) (baStats : BAStats)
  (index : Z) (data : list RawTransaction.t) : list ProcessedTransaction.t :=
  match data with
  | [] => []
  | row :: rest =>
      App.materialize actCodeStats baStats [] row index
      ++ materialized actCodeStats baStats (index + 1) rest
  end.

(** The counter cell of the business area [ba] after [k] more of its rows,
    from the cell [o]: [(cell || 0) + 1], [k] times. Under [__proto__] the
    assignment is dropped and the cell stays as it is; under another name
    that [Object.prototype] defines the first addition makes text of the
    member found there. *)
Definition cell_after (ba : string) (o : option Js.Counter) (k : N)
  : option Js.Counter :=
  if (k =? 0)%N then o
  else if String.eqb ba "__proto__" then o
  else
    Some match o with
         | Some (Js.Count n) => Js.Count (n + k)
         | Some (Js.Text member ones) => Js.Text member (ones + k)
         | Some (Js.Member name) => Js.Text name k
         | None => if Js.inherited ba then Js.Text ba k else Js.Count k
         end.

(** What a record carries as the count of a business area with [k] kept
    rows: [k], but under a name that [Object.prototype] defines, where it is
    the member itself for [__proto__] and text that ends in [k] times "1"
    for the others. *)
Definition frequency_of (ba : string) (k : N) : Js.Counter :=
  if String.eqb ba "__proto__" then Js.Member ba
  else if Js.inherited ba then Js.Text ba k
  else Js.Count k.

(** The rows that are kept and belong to the category [code], or to the
    business area [ba]. *)
Definition in_category (code : string) (row : RawTransaction.t) : bool :=
  match App.keys row with
  | Some (c, _) => String.eqb c code
  | None => false
  end.

Definition in_area (ba : string) (row : RawTransaction.t) : bool :=
  match App.keys row with
  | Some (_, b) => String.eqb b ba
  | None => false
  end.

(** The amounts of [rows] added one by one to [total], in row order. *)
Definition add_amounts (total : float) (rows : list RawTransaction.t)
  : float :=
  fold_left (fun t row => (t + App.parseAmount row)%float) rows total.

(** [p] is the record the second pass builds from [row], found at [index],
    with the dictionaries of the first pass. *)
Definition built_from (actCodeStats : ActCodeStats) (baStats : BAStats)
  (row : RawTransaction.t) (index : Z) (p : ProcessedTransaction.t) : Prop :=
  let avg := App.lookupAverage actCodeStats (ProcessedTransaction.actCode p) in
  App.keys row
  = Some (ProcessedTransaction.actCode p, ProcessedTransaction.BA p)
  /\ ProcessedTransaction.id p = index
  /\ ProcessedTransaction.monthly p = RawTransaction.monthly row
  /\ ProcessedTransaction.amount p = App.parseAmount row
  /\ ProcessedTransaction.baTransactionCount p
     = Js.counter_or_zero (Js.read baStats (ProcessedTransaction.BA p))
  /\ ProcessedTransaction.actCodeAvgAmount p = avg
  /\ ProcessedTransaction.deviationFromAvg p
     = (if Js.is_zero avg then 0 else ProcessedTransaction.amount p / avg)%float
  /\ ProcessedTransaction.isSuspiciousCandidate p
     = Js.gt (ProcessedTransaction.deviationFromAvg p) 3
       || (Js.counter_gt (Js.read baStats (ProcessedTransaction.BA p)) 100
           && Js.gt (ProcessedTransaction.deviationFromAvg p) 2).

(** The grammar of numeric strings in ECMAScript ([StringNumericLiteral]),
    as far as [parseFloat] uses it. *)
Fixpoint all_digits (s : string) : bool :=
  match s with
  | EmptyString => true
  | String c r =>
      match Js.digit_of c with
      | Some _ => all_digits r
      | None => false
      end
  end.

(** [DecimalDigits]: one decimal digit or more. *)
Definition DecimalDigits (s : string) : Prop :=
  s <> EmptyString /\ all_digits s = true.

(** [ExponentPart]: [e] or [E], an optional sign, digits. *)
Inductive ExponentPart : string -> Prop :=
| exponent_part (indicator sign ds : string) :
    indicator = "e" \/ indicator = "E" ->
    sign = "" \/ sign = "+" \/ sign = "-" ->
    DecimalDigits ds ->
    ExponentPart (indicator ++ sign ++ ds).

Definition optional (P : string -> Prop) (s : string) : Prop :=
  s = EmptyString \/ P s.

(** [StrUnsignedDecimalLiteral]. *)
Inductive StrUnsignedDecimalLiteral : string -> Prop :=
| literal_Infinity : StrUnsignedDecimalLiteral "Infinity"
| literal_point (i f e : string) :
    DecimalDigits i -> optional DecimalDigits f -> optional ExponentPart e ->
    StrUnsignedDecimalLiteral (i ++ "." ++ f ++ e)
| literal_fraction (f e : string) :
    DecimalDigits f -> optional ExponentPart e ->
    StrUnsignedDecimalLiteral ("." ++ f ++ e)
| literal_integer (i e : string) :
    DecimalDigits i -> optional ExponentPart e ->
    StrUnsignedDecimalLiteral (i ++ e).

(** [StrDecimalLiteral]: an optional sign and an unsigned literal. *)
Inductive StrDecimalLiteral : string -> Prop :=
| literal_unsigned (u : string) :
    StrUnsignedDecimalLiteral u -> StrDecimalLiteral u
| literal_plus (u : string) :
    StrUnsignedDecimalLiteral u -> StrDecimalLiteral ("+" ++ u)
| literal_minus (u : string) :
    StrUnsignedDecimalLiteral u -> StrDecimalLiteral ("-" ++ u).

(** The string of the bytes [bytes]. *)
Definition utf8 (bytes : list N) : string :=
  string_of_list_ascii (List.map ascii_of_N bytes).

(** [StrWhiteSpaceChar]: the white space and the line terminators of
    ECMAScript, each in UTF-8. TAB, LF, VT, FF, CR and SP; NBSP; U+1680;
    U+2000 to U+200A; U+2028 and U+2029; U+202F; U+205F; U+3000; U+FEFF. *)
Definition white_space : list string :=
  List.map utf8
    [[9]; [10]; [11]; [12]; [13]; [32]; [194; 160]; [225; 154; 128];
     [226; 128; 128]; [226; 128; 129]; [226; 128; 130]; [226; 128; 131];
     [226; 128; 132]; [226; 128; 133]; [226; 128; 134]; [226; 128; 135];
     [226; 128; 136]; [226; 128; 137]; [226; 128; 138]; [226; 128; 168];
     [226; 128; 169]; [226; 128; 175]; [226; 129; 159]; [227; 128; 128];
     [239; 187; 191]]%N.

(** A run of white space. *)
Inductive spaces : string -> Prop :=
| spaces_nil : spaces ""
| spaces_cons (w ws : string) :
    In w white_space -> spaces ws -> spaces (w ++ ws).

(** [text] does not start, after white space, with a decimal literal:
    [parseFloat] has nothing to convert. *)
Definition unparsable (text : string) : Prop :=
  ~ exists ws literal rest,
      text = (ws ++ literal ++ rest)%string
      /\ spaces ws /\ StrDecimalLiteral literal.









(** [selected] is the first 30 of the flagged records of [transactions] in
    descending order of the ratio. *)
Definition first_30_flagged
  (transactions selected : list ProcessedTransaction.t) : Prop :=
  let flagged :=
    List.filter ProcessedTransaction.isSuspiciousCandidate transactions in
  length selected = Nat.min 30 (length flagged)
  /\ (length selected <= 30)%nat
  /\ Forall (fun t => ProcessedTransaction.isSuspiciousCandidate t = true
                      /\ In t transactions) selected
  /\ StronglySorted (descending ProcessedTransaction.deviationFromAvg) selected
  /\ exists rest,
       Permutation (selected ++ rest) flagged
       /\ StronglySorted (descending ProcessedTransaction.deviationFromAvg)
            (selected ++ rest).

(** A record whose flag is what the suspicion rule says of its own ratio and
    frequency: what the Feature Engine builds. *)
Definition flagged_by_rule (t : ProcessedTransaction.t) : Prop :=
  ProcessedTransaction.isSuspiciousCandidate t =
  Js.gt (ProcessedTransaction.deviationFromAvg t) 3
  || (Js.counter_gt (Some (ProcessedTransaction.baTransactionCount t)) 100
      && Js.gt (ProcessedTransaction.deviationFromAvg t) 2).

(** What the claim on the Result Merger says of a state: one final record
    for each identifier that is among the results and among the records, the
    final records in descending order of the score, and no more of them than
    results. *)
Definition one_record_per_id (st : App.State) : Prop :=
  let final := snd (App.topRiskyTransactions st) in
  (forall i,
     In i (List.map AIAnalysisResult.id (App.analysisResults st)) ->
     In i (List.map ProcessedTransaction.id (App.processedData st)) ->
     count_occ Z.eq_dec (List.map ScoredTransaction.id final) i = 1%nat)
  /\ StronglySorted (descending ScoredTransaction.fraudScore) final
  /\ (length final <= length (App.analysisResults st))%nat.

(** What the claim on ratios says of the records of [data], the average
    being the one of the entry of the record's category: the ratio is 0 when
    that average is zero, and the amount divided by it when it is not. *)
Definition ratio_by_entry (data : list RawTransaction.t) : Prop :=
  forall p s,
    In p (App.processFeatures data) ->
    (App.aggregates data).1 !! ProcessedTransaction.actCode p = Some s ->
    (Js.is_zero (ActCodeStat.average s) = true ->
     ProcessedTransaction.deviationFromAvg p = 0%float)
    /\ (Js.is_zero (ActCodeStat.average s) = false ->
        ProcessedTransaction.deviationFromAvg p
        = (ProcessedTransaction.amount p / ActCodeStat.average s)%float).

(** The count is a number, and it is above [n]. *)
Definition exceeds (frequency : Js.Counter) (n : N) : Prop :=
  exists c, frequency = Js.Count c /\ (n < c)%N.

(** The row is kept: it has an activity code and a business area. *)
Definition is_kept (row : RawTransaction.t) : bool :=
  match App.keys row with
  | Some _ => true
  | None => false
  end.

(** The record with its identifier put to 0. *)
Definition without_id (p : ProcessedTransaction.t) : ProcessedTransaction.t :=
  ProcessedTransaction.mk 0 (ProcessedTransaction.BA p)
    (ProcessedTransaction.monthly p) (ProcessedTransaction.actCode p)
    (ProcessedTransaction.amount p)
    (ProcessedTransaction.baTransactionCount p)
    (ProcessedTransaction.actCodeAvgAmount p)
    (ProcessedTransaction.deviationFromAvg p)
    (ProcessedTransaction.isSuspiciousCandidate p).

(** The event is a request to the model. *)
Definition is_request (e : GeminiService.Event) : bool :=
  match e with
  | GeminiService.GenerateContent _ _ => true
  | GeminiService.ConsoleError _ => false
  end.

(** The colour is red. *)
Definition is_red (c : Component.Color) : bool :=
  match c with
  | Component.red => true
  | _ => false
  end.

(** The number of red rows of the table a view shows. *)
Definition red_rows (v : Component.View) : nat :=
  match Component.table v with
  | Some rows => length (List.filter (fun r => is_red (snd r)) rows)
  | None => 0%nat
  end.

(** The event is an insertion into the table. *)
Definition is_insert (e : SupabaseService.Event) : bool :=
  match e with
  | SupabaseService.Insert _ _ _ => true
  | SupabaseService.ConsoleError _ => false
  end.

(** The row holds what the final record holds, marked as flagged, with the
    reason of the score as its reason. *)
Definition row_of (t : ScoredTransaction.t) (r : SupabaseService.Row) : Prop :=
  SupabaseService.ba r = ScoredTransaction.BA t
  /\ SupabaseService.monthly r = ScoredTransaction.monthly t
  /\ SupabaseService.act_code r = ScoredTransaction.actCode t
  /\ SupabaseService.amount r = ScoredTransaction.amount t
  /\ SupabaseService.fraud_score r = ScoredTransaction.fraudScore t
  /\ SupabaseService.deviation_ratio r = ScoredTransaction.deviationFromAvg t
  /\ SupabaseService.ai_reason r = ScoredTransaction.reason t
  /\ SupabaseService.is_flagged r = true.

(** The variable of [import.meta.env], when there is such an object. *)
Definition meta_var (get : SupabaseService.Vars -> option string)
  (import_meta_env : option SupabaseService.Vars) : option string :=
  match import_meta_env with
  | Some env => get env
  | None => None
  end.

(** ** Sample inputs *)

(** A raw row with all four fields. *)
Definition row (ba code amt : string) : RawTransaction.t :=
  RawTransaction.mk (Some ba) (Some "2024-01") (Some code) (Some amt).

(** Five rows; the third has no business area. *)
Definition rows_example : list RawTransaction.t :=
  [row "A" "X" "100"; row "A" "X" "1,000";
   RawTransaction.mk None (Some "2024-01") (Some "X") (Some "5");
   row "B" "Y" "abc"; row "B" "X" "10,000"].

(** Category X has the average 200, so that 600 is exactly three times it. *)
Definition rows_at_three : list RawTransaction.t :=
  [row "A" "X" "600"; row "A" "X" "100"; row "A" "X" "100";
   row "A" "X" "100"; row "A" "X" "100"].

(** A business area with 102 rows; category Q has the average 100, so that
    200 is exactly twice it. *)
Definition rows_at_two : list RawTransaction.t :=
  [row "Z" "Q" "200"; row "Z" "Q" "0"] ++ List.repeat (row "Z" "R" "1") 100.

(** The same business area with 103 rows; category Q has the average 200, so
    that 600 is exactly three times it. *)
Definition rows_busy_at_three : list RawTransaction.t :=
  [row "Z" "Q" "600"; row "Z" "Q" "0"; row "Z" "Q" "0"]
  ++ List.repeat (row "Z" "R" "1") 100.

(** A business area named [constructor], with 104 rows; category Q has the
    average 40, so that 100 is two and a half times it. *)
Definition rows_constructor : list RawTransaction.t :=
  [row "constructor" "Q" "100"; row "constructor" "Q" "20";
   row "constructor" "Q" "20"; row "constructor" "Q" "20"]
  ++ List.repeat (row "constructor" "R" "1") 100.

(** The amount parsed from a row whose amount field is [text]. *)
Definition amount_of (text : string) : float :=
  App.parseAmount (RawTransaction.mk (Some "A") None (Some "X") (Some text)).

(** A processed record with the ratio [deviation], flagged when it is above
    3. *)
Definition sample (id : Z) (deviation : float) : ProcessedTransaction.t :=
  ProcessedTransaction.mk id "A" None "X" 0 (Js.Count 1) 1 deviation
    (Js.gt deviation 3).

(** A processed record with the amount [amount]. *)
Definition paid (id : Z) (amount : float) : ProcessedTransaction.t :=
  ProcessedTransaction.mk id "A" None "X" amount (Js.Count 1) 1 1 false.

(** A score result. *)
Definition scored (id : Z) (score : float) : AIAnalysisResult.t :=
  AIAnalysisResult.mk id score "outlier".

(** A model that answers every request with one score. *)
Definition scorer_stub (input : list GeminiService.Payload)
  : GeminiService.Exn + option string :=
  inr (Some "[{...}]").

Definition parse_stub (text : string)
  : GeminiService.Exn + list AIAnalysisResult.t :=
  inr [AIAnalysisResult.mk 0 1 "outlier"].

(** A table that takes every row and answers with the rows. *)
Definition table_stub (client : SupabaseService.Client) (table : string)
  (rows : list SupabaseService.Row) : SupabaseService.Reply :=
  SupabaseService.mkReply (Some rows) None.

(** A table that refuses every row. *)
Definition table_down (client : SupabaseService.Client) (table : string)
  (rows : list SupabaseService.Row) : SupabaseService.Reply :=
  SupabaseService.mkReply None (Some (GeminiService.Error "permission denied")).

Definition client_stub : SupabaseService.Client :=
  SupabaseService.mkClient "https://db.example" "anon".

(** Five rows of one category, the last with an amount far above the
    average. *)
Definition rows_outlier : list RawTransaction.t :=
  [row "A" "X" "1"; row "A" "X" "1"; row "A" "X" "1"; row "A" "X" "1";
   row "A" "X" "1000"].

Definition parse_stub_outlier (file : string) : Component.ParseResult :=
  Component.Complete (Some rows_outlier).

(** [Papa.parse] reporting the five sample rows for any file. *)
Definition parse_stub_rows (file : string) : Component.ParseResult :=
  Component.Complete (Some rows_example).


(** * Properties *)

(** ** Binary64 arithmetic

    What the sort comparators [(a, b) => b.k - a.k] need: on numbers (no
    [NaN]) the rounded difference [y - x] is positive exactly when [x < y],
    and [<=] is a total preorder. The proofs go through [SpecFloat]. *)

Lemma digits2_pos_bounds (p : positive) :
  2 ^ (Zpos (digits2_pos p) - 1) <= Zpos p < 2 ^ Zpos (digits2_pos p).
Proof.
  induction p as [p IH | p IH |]; simpl digits2_pos.
  - rewrite Pos2Z.inj_succ.
    replace (Z.succ (Zpos (digits2_pos p)) - 1) with (Z.succ (Zpos (digits2_pos p) - 1)) by lia.
    rewrite !Z.pow_succ_r by lia. lia.
  - rewrite Pos2Z.inj_succ.
    replace (Z.succ (Zpos (digits2_pos p)) - 1) with (Z.succ (Zpos (digits2_pos p) - 1)) by lia.
    rewrite !Z.pow_succ_r by lia. lia.
  - simpl. lia.
Qed.

Lemma iter_xO_value (d m : positive) :
  Zpos (Pos.iter xO m d) = Zpos m * 2 ^ Zpos d.
Proof.
  revert m. induction d as [| d IH] using Pos.peano_ind; intros m.
  - simpl. lia.
  - rewrite Pos.iter_succ, Pos2Z.inj_succ, Z.pow_succ_r by lia.
    rewrite Pos2Z.inj_xO, IH. lia.
Qed.

Lemma shl_align_value (m : positive) (e ez : Z) :
  ez <= e -> Zpos (fst (shl_align m e ez)) = Zpos m * 2 ^ (e - ez).
Proof.
  intros H. unfold shl_align.
  destruct (ez - e) as [| d | d] eqn:E; simpl fst.
  - replace (e - ez) with 0 by lia. simpl. lia.
  - lia.
  - rewrite iter_xO_value. f_equal. f_equal. lia.
Qed.

Lemma shl_align_exponent (m : positive) (e e' : Z) :
  snd (shl_align m e e') = Z.min e e'.
Proof.
  unfold shl_align. destruct (e' - e) eqn:E; simpl; lia.
Qed.

Lemma shr_1_value (mrs : shr_record) :
  0 <= shr_m mrs -> shr_m (shr_1 mrs) = shr_m mrs / 2.
Proof.
  destruct mrs as [m r s]; simpl. intros H.
  destruct m as [| p | p]; [reflexivity | | lia].
  destruct p as [p | p |]; simpl.
  - rewrite Pos2Z.inj_xI. apply Z.div_unique with 1; lia.
  - rewrite Pos2Z.inj_xO. apply Z.div_unique with 0; lia.
  - reflexivity.
Qed.

Lemma iter_shr_1_value (n : positive) (mrs : shr_record) :
  0 <= shr_m mrs ->
  shr_m (SpecFloat.iter_pos shr_1 n mrs) = shr_m mrs / 2 ^ Zpos n.
Proof.
  revert mrs. induction n as [n IH | n IH |]; intros mrs H; simpl SpecFloat.iter_pos.
  - assert (H1 : 0 <= shr_m (shr_1 mrs)).
    { rewrite shr_1_value by assumption. apply Z.div_pos; lia. }
    assert (H2 : 0 <= shr_m (SpecFloat.iter_pos shr_1 n (shr_1 mrs))).
    { rewrite IH by assumption. apply Z.div_pos; lia. }
    rewrite IH, IH, shr_1_value by assumption.
    rewrite !Z.div_div by lia.
    f_equal.
    assert (E : Zpos n~1 = 1 + Zpos n + Zpos n) by lia.
    rewrite E, !Z.pow_add_r by lia. rewrite Z.pow_1_r. lia.
  - assert (H2 : 0 <= shr_m (SpecFloat.iter_pos shr_1 n mrs)).
    { rewrite IH by assumption. apply Z.div_pos; lia. }
    rewrite IH, IH by assumption.
    rewrite Z.div_div by lia.
    f_equal.
    assert (E : Zpos n~0 = Zpos n + Zpos n) by lia.
    rewrite E, Z.pow_add_r by lia. reflexivity.
  - rewrite shr_1_value by assumption. reflexivity.
Qed.

Lemma shr_m_of_loc (m : Z) (l : location) : shr_m (shr_record_of_loc m l) = m.
Proof. destruct l as [| []]; reflexivity. Qed.

Lemma fexp_value (k : Z) : fexp prec emax k = Z.max (k - 53) (-1074).
Proof. reflexivity. Qed.

Lemma shr_fexp_pos (p : positive) (e : Z) (l : location) :
  -1074 <= e ->
  0 < shr_m (fst (shr_fexp prec emax (Zpos p) e l))
  /\ -1074 <= snd (shr_fexp prec emax (Zpos p) e l).
Proof.
  intros He. unfold shr_fexp, shr. rewrite fexp_value. simpl Zdigits2.
  pose proof (digits2_pos_bounds p) as [Hlo _].
  set (d := Zpos (digits2_pos p)) in *.
  destruct (Z.max (d + e - 53) (-1074) - e) as [| k | k] eqn:E; simpl fst; simpl snd.
  - rewrite shr_m_of_loc. lia.
  - rewrite iter_shr_1_value by (rewrite shr_m_of_loc; lia).
    rewrite shr_m_of_loc. split; [| lia].
    apply Z.div_str_pos. split; [apply Z.pow_pos_nonneg; lia |].
    apply Z.le_trans with (2 ^ (d - 1)); [| assumption].
    apply Z.pow_le_mono_r; lia.
  - rewrite shr_m_of_loc. lia.
Qed.

Lemma round_nearest_even_ge (m : Z) (l : location) :
  m <= round_nearest_even m l.
Proof.
  destruct l as [| []]; simpl; try lia. destruct (Z.even m); lia.
Qed.

Lemma binary_round_aux_signed (sx : bool) (p : positive) (e : Z) (l : location) :
  -1074 <= e -> sf_signed sx (binary_round_aux prec emax sx (Zpos p) e l).
Proof.
  intros He. unfold binary_round_aux.
  destruct (shr_fexp_pos p e l He) as [H1 H2].
  destruct (shr_fexp prec emax (Zpos p) e l) as [mrs' e'].
  simpl fst in H1; simpl snd in H2.
  pose proof (round_nearest_even_ge (shr_m mrs') (loc_of_shr_record mrs')) as Hr.
  destruct (round_nearest_even (shr_m mrs') (loc_of_shr_record mrs')) as [| q | q];
    try lia.
  destruct (shr_fexp_pos q e' loc_Exact H2) as [H3 H4].
  destruct (shr_fexp prec emax (Zpos q) e' loc_Exact) as [mrs'' e''].
  simpl fst in H3. destruct (shr_m mrs'') as [| m | m]; try lia.
  destruct (e'' <=? emax - prec); reflexivity.
Qed.

Lemma binary_round_signed (sx : bool) (p : positive) (e : Z) :
  -1074 <= e -> sf_signed sx (binary_round prec emax sx p e).
Proof.
  intros He. unfold binary_round.
  pose proof (shl_align_exponent p e (fexp prec emax (Zpos (digits2_pos p) + e))) as Hs.
  destruct (shl_align p e _) as [mz ez]. simpl snd in Hs.
  apply binary_round_aux_signed. rewrite fexp_value in Hs. lia.
Qed.

Lemma binary_normalize_pos (m e : Z) :
  -1074 <= e -> 0 < m -> sf_signed false (binary_normalize prec emax m e false).
Proof.
  intros He Hm. destruct m as [| p | p]; try lia.
  apply binary_round_signed; assumption.
Qed.

Lemma binary_normalize_neg (m e : Z) :
  -1074 <= e -> m < 0 -> sf_signed true (binary_normalize prec emax m e false).
Proof.
  intros He Hm. destruct m as [| p | p]; try lia.
  apply binary_round_signed; assumption.
Qed.

Lemma bounded_inv (m : positive) (e : Z) :
  bounded prec emax m e = true ->
  -1074 <= e /\ Zpos m < 2 ^ 53 /\ (-1074 < e -> 2 ^ 52 <= Zpos m).
Proof.
  unfold bounded, canonical_mantissa. rewrite andb_true_iff, Z.eqb_eq, fexp_value.
  intros [Hc _]. pose proof (digits2_pos_bounds m) as [Hlo Hhi].
  set (d := Zpos (digits2_pos m)) in *.
  split; [lia |]. split.
  - apply Z.lt_le_trans with (2 ^ d); [assumption |].
    apply Z.pow_le_mono_r; lia.
  - intros He. replace d with 53 in Hlo by lia. exact Hlo.
Qed.

(** Two canonical mantissas brought to the smaller exponent compare as the
    exponents do. *)
Lemma aligned_lt (m1 m2 : positive) (e1 e2 : Z) :
  bounded prec emax m1 e1 = true -> bounded prec emax m2 e2 = true ->
  e1 < e2 ->
  Zpos m1 * 2 ^ (e1 - e1) < Zpos m2 * 2 ^ (e2 - e1).
Proof.
  intros H1 H2 Hlt.
  destruct (bounded_inv _ _ H1) as (He1 & Hm1 & _).
  destruct (bounded_inv _ _ H2) as (_ & _ & Hm2).
  rewrite Z.sub_diag, Z.pow_0_r, Z.mul_1_r.
  assert (Hp : 2 ^ 1 <= 2 ^ (e2 - e1)) by (apply Z.pow_le_mono_r; lia).
  change (2 ^ 1) with 2 in Hp.
  specialize (Hm2 ltac:(lia)).
  change (2 ^ 53) with (2 ^ 52 * 2) in Hm1.
  assert (2 ^ 52 * 2 <= Zpos m2 * 2 ^ (e2 - e1)) by (apply Z.mul_le_mono_nonneg; lia).
  lia.
Qed.

Lemma SFsub_finite (sx sy : bool) (mx my : positive) (ex ey : Z) :
  SF64sub (S754_finite sy my ey) (S754_finite sx mx ex) =
  binary_normalize prec emax
    (cond_Zopp sy (Zpos my * 2 ^ (ey - Z.min ey ex))
     - cond_Zopp sx (Zpos mx * 2 ^ (ex - Z.min ey ex)))
    (Z.min ey ex) false.
Proof.
  unfold SF64sub, SFsub. rewrite !shl_align_value by lia. reflexivity.
Qed.

Lemma binary_normalize_zero (e : Z) :
  binary_normalize prec emax 0 e false = S754_zero false.
Proof. reflexivity. Qed.

Lemma SFsub_compare_finite (sx sy : bool) (mx my : positive) (ex ey : Z) :
  bounded prec emax mx ex = true -> bounded prec emax my ey = true ->
  sub_agrees (SFcompare (S754_finite sx mx ex) (S754_finite sy my ey))
    (SF64sub (S754_finite sy my ey) (S754_finite sx mx ex)).
Proof.
  intros Hx Hy. rewrite SFsub_finite.
  destruct (bounded_inv _ _ Hx) as (Hex & _ & _).
  destruct (bounded_inv _ _ Hy) as (Hey & _ & _).
  assert (HX : 0 < Zpos mx * 2 ^ (ex - Z.min ey ex))
    by (apply Z.mul_pos_pos; [lia | apply Z.pow_pos_nonneg; lia]).
  assert (HY : 0 < Zpos my * 2 ^ (ey - Z.min ey ex))
    by (apply Z.mul_pos_pos; [lia | apply Z.pow_pos_nonneg; lia]).
  assert (Hlt : ex < ey ->
            Zpos mx * 2 ^ (ex - Z.min ey ex) < Zpos my * 2 ^ (ey - Z.min ey ex)).
  { intros H. replace (Z.min ey ex) with ex by lia. apply aligned_lt; assumption. }
  assert (Hgt : ey < ex ->
            Zpos my * 2 ^ (ey - Z.min ey ex) < Zpos mx * 2 ^ (ex - Z.min ey ex)).
  { intros H. replace (Z.min ey ex) with ey by lia. apply aligned_lt; assumption. }
  assert (Heq : ex = ey ->
            Zpos mx * 2 ^ (ex - Z.min ey ex) = Zpos mx /\
            Zpos my * 2 ^ (ey - Z.min ey ex) = Zpos my).
  { intros H. subst ey. rewrite Z.min_id, Z.sub_diag, Z.pow_0_r. lia. }
  assert (Hmin : -1074 <= Z.min ey ex) by lia.
  set (X := Zpos mx * 2 ^ (ex - Z.min ey ex)) in *.
  set (Y := Zpos my * 2 ^ (ey - Z.min ey ex)) in *.
  unfold SFcompare, sub_agrees.
  change (Pos.compare_cont Eq mx my) with (Pos.compare mx my).
  destruct sx, sy; simpl cond_Zopp;
    try (apply binary_normalize_pos; [assumption | lia]);
    try (apply binary_normalize_neg; [assumption | lia]);
    destruct (Z.compare_spec ex ey) as [E | E | E];
    try (apply binary_normalize_pos; [assumption | lia]);
    try (apply binary_normalize_neg; [assumption | lia]);
    destruct (Heq E) as [EX EY];
    destruct (Pos.compare_spec mx my) as [E' | E' | E']; simpl CompOpp; cbv iota;
    try (apply binary_normalize_pos; [assumption | lia]);
    try (apply binary_normalize_neg; [assumption | lia]);
    replace (- Y - - X) with 0 by lia; replace (Y - X) with 0 by lia;
    reflexivity.
Qed.

Lemma SFsub_compare (x y : spec_float) :
  valid_binary x = true -> valid_binary y = true ->
  sub_agrees (SFcompare x y) (SF64sub y x).
Proof.
  destruct x as [sx | sx | | sx mx ex], y as [sy | sy | | sy my ey];
    try (intros _ _; try destruct sx; try destruct sy; simpl; auto; fail).
  apply SFsub_compare_finite.
Qed.

Lemma SFltb_zero_signed (d : spec_float) (s : bool) :
  sf_signed s d -> SFltb (S754_zero false) d = negb s.
Proof. destruct d as [| s' | | s' m e]; simpl; try tauto; intros ->; destruct s; reflexivity. Qed.

(** [0 < y - x] exactly when [x < y]. *)
Lemma SFsub_pos (x y : spec_float) :
  valid_binary x = true -> valid_binary y = true ->
  x <> S754_nan -> y <> S754_nan ->
  SFltb (S754_zero false) (SF64sub y x) = SFltb x y.
Proof.
  intros Hx Hy Nx Ny. pose proof (SFsub_compare x y Hx Hy) as H.
  unfold SFltb at 2. destruct (SFcompare x y) as [[| |] |] eqn:E; simpl in H.
  - exact H.
  - rewrite (SFltb_zero_signed _ _ H). reflexivity.
  - rewrite (SFltb_zero_signed _ _ H). reflexivity.
  - destruct x, y; try congruence; discriminate.
Qed.

Lemma SFcompare_refl (x : spec_float) :
  x <> S754_nan -> SFcompare x x = Some Eq.
Proof.
  destruct x as [s | s | | s m e]; try congruence; intros _; simpl.
  - reflexivity.
  - destruct s; reflexivity.
  - change (Pos.compare_cont Eq m m) with (Pos.compare m m).
    rewrite Z.compare_refl, Pos.compare_refl. destruct s; reflexivity.
Qed.

Lemma SFcompare_antisym (x y : spec_float) :
  SFcompare y x = option_map CompOpp (SFcompare x y).
Proof.
  destruct x as [sx | sx | | sx mx ex], y as [sy | sy | | sy my ey];
    try (try destruct sx; try destruct sy; reflexivity).
  simpl. change (Pos.compare_cont Eq my mx) with (Pos.compare my mx).
  change (Pos.compare_cont Eq mx my) with (Pos.compare mx my).
  rewrite (Z.compare_antisym ex ey), (Pos.compare_antisym mx my).
  destruct sx, sy; try reflexivity;
    destruct (ex ?= ey); try reflexivity; simpl; destruct (mx ?= my)%positive; reflexivity.
Qed.

(** Among numbers, what is not below is at least. *)
Lemma SFltb_false_leb (x y : spec_float) :
  x <> S754_nan -> y <> S754_nan -> SFltb x y = false -> SFleb y x = true.
Proof.
  intros Nx Ny. unfold SFltb, SFleb. rewrite (SFcompare_antisym x y).
  destruct (SFcompare x y) as [[| |] |] eqn:E; simpl; try congruence.
  destruct x, y; try congruence; discriminate.
Qed.

Lemma SFltb_not_leb (x y : spec_float) :
  SFltb x y = true -> SFleb y x = false.
Proof.
  unfold SFltb, SFleb. rewrite (SFcompare_antisym x y).
  destruct (SFcompare x y) as [[| |] |]; simpl; congruence.
Qed.

Lemma SFltb_leb (x y : spec_float) : SFltb x y = true -> SFleb x y = true.
Proof. unfold SFltb, SFleb. destruct (SFcompare x y) as [[| |] |]; congruence. Qed.

Lemma SFleb_trans (x y z : spec_float) :
  SFleb x y = true -> SFleb y z = true -> SFleb x z = true.
Proof.
  unfold SFleb.
  destruct x as [sx | sx | | sx mx ex], y as [sy | sy | | sy my ey],
    z as [sz | sz | | sz mz ez]; simpl;
    try destruct sx; try destruct sy; try destruct sz; simpl; try congruence;
    change (Pos.compare_cont Eq mx my) with (Pos.compare mx my);
    change (Pos.compare_cont Eq my mz) with (Pos.compare my mz);
    change (Pos.compare_cont Eq mx mz) with (Pos.compare mx mz);
    destruct (Z.compare_spec ex ey); try congruence;
    destruct (Z.compare_spec ey ez); try congruence;
    destruct (Z.compare_spec ex ez); try congruence; try lia;
    destruct (Pos.compare_spec mx my); simpl; try congruence;
    destruct (Pos.compare_spec my mz); simpl; try congruence;
    destruct (Pos.compare_spec mx mz); simpl; try congruence; lia.
Qed.

Lemma is_nan_false (x : float) :
  PrimFloat.is_nan x = false <-> Prim2SF x <> S754_nan.
Proof.
  unfold PrimFloat.is_nan. rewrite FloatAxioms.eqb_spec. unfold SFeqb. split.
  - intros H E. rewrite E in H. discriminate.
  - intros H. rewrite SFcompare_refl by assumption. reflexivity.
Qed.

Lemma Prim2SF_zero : Prim2SF PrimFloat.zero = S754_zero false.
Proof. reflexivity. Qed.

Lemma ltb_zero_sub (x y : float) :
  PrimFloat.is_nan x = false -> PrimFloat.is_nan y = false ->
  PrimFloat.ltb PrimFloat.zero (y - x) = PrimFloat.ltb x y.
Proof.
  rewrite !is_nan_false. intros Nx Ny.
  rewrite !FloatAxioms.ltb_spec, FloatAxioms.sub_spec, Prim2SF_zero.
  apply SFsub_pos; auto using Prim2SF_valid.
Qed.

Lemma ltb_false_leb (x y : float) :
  PrimFloat.is_nan x = false -> PrimFloat.is_nan y = false ->
  PrimFloat.ltb x y = false -> PrimFloat.leb y x = true.
Proof.
  rewrite !is_nan_false, FloatAxioms.ltb_spec, FloatAxioms.leb_spec. apply SFltb_false_leb.
Qed.

Lemma ltb_not_leb (x y : float) :
  PrimFloat.ltb x y = true -> PrimFloat.leb y x = false.
Proof.
  rewrite FloatAxioms.ltb_spec, FloatAxioms.leb_spec. apply SFltb_not_leb.
Qed.

Lemma ltb_leb (x y : float) :
  PrimFloat.ltb x y = true -> PrimFloat.leb x y = true.
Proof. rewrite FloatAxioms.ltb_spec, FloatAxioms.leb_spec. apply SFltb_leb. Qed.

Lemma leb_trans (x y z : float) :
  PrimFloat.leb x y = true -> PrimFloat.leb y z = true -> PrimFloat.leb x z = true.
Proof. rewrite !FloatAxioms.leb_spec. apply SFleb_trans. Qed.

Lemma ltb_not_nan (x y : float) :
  PrimFloat.ltb x y = true -> PrimFloat.is_nan x = false /\ PrimFloat.is_nan y = false.
Proof.
  rewrite !is_nan_false, FloatAxioms.ltb_spec. unfold SFltb.
  destruct (Prim2SF x), (Prim2SF y); simpl; split; congruence.
Qed.

(** ** Sorting *)

Section Sorting.

Context {A : Type} (comparefn : A -> A -> float).

Lemma sort_insert_Permutation (x : A) (l : list A) :
  Permutation (Js.sort_insert comparefn x l) (x :: l).
Proof.
  induction l as [| y r IH]; simpl; [reflexivity |].
  destruct (Js.sort_gt comparefn x y); [| reflexivity].
  rewrite IH. apply perm_swap.
Qed.

Lemma sort_Permutation (l : list A) : Permutation (Js.sort comparefn l) l.
Proof.
  induction l as [| x r IH]; simpl; [reflexivity |].
  rewrite sort_insert_Permutation. now constructor.
Qed.

Lemma sort_length (l : list A) : length (Js.sort comparefn l) = length l.
Proof. apply Permutation_length, sort_Permutation. Qed.

Lemma sort_In (l : list A) (a : A) : In a (Js.sort comparefn l) <-> In a l.
Proof.
  split; apply Permutation_in;
    [apply sort_Permutation | symmetry; apply sort_Permutation].
Qed.

Lemma sort_Forall (P : A -> Prop) (l : list A) :
  Forall P l -> Forall P (Js.sort comparefn l).
Proof. rewrite !List.Forall_forall. intros H a Ha. apply H, sort_In, Ha. Qed.

(** The comparator of every sort in the program: [(a, b) => b.k - a.k]. *)
Variable key : A -> float.
Hypothesis comparefn_key : forall a b, comparefn a b = (key b - key a)%float.

Abbreviation number := (has_number key).

Lemma sort_gt_key (a b : A) :
  number a -> number b ->
  Js.sort_gt comparefn a b = PrimFloat.ltb (key a) (key b).
Proof.
  intros Ha Hb. unfold Js.sort_gt. rewrite comparefn_key.
  now apply ltb_zero_sub.
Qed.

Lemma descending_trans (a b c : A) :
  descending key a b -> descending key b c -> descending key a c.
Proof. unfold descending. intros H1 H2. exact (leb_trans _ _ _ H2 H1). Qed.

Lemma sort_insert_sorted (x : A) (l : list A) :
  number x -> Forall number l ->
  StronglySorted (descending key) l ->
  StronglySorted (descending key) (Js.sort_insert comparefn x l).
Proof.
  intros Hx Hl Hs. induction Hs as [| y r Hr IH Hy]; simpl.
  - repeat constructor.
  - inversion Hl as [| ? ? Ny Nr]; subst.
    rewrite sort_gt_key by assumption.
    destruct (PrimFloat.ltb (key x) (key y)) eqn:E.
    + constructor; [now apply IH |].
      rewrite List.Forall_forall. intros a Ha.
      apply (Permutation_in _ (sort_insert_Permutation x r)) in Ha.
      destruct Ha as [<- | Ha].
      * apply ltb_leb, E.
      * rewrite List.Forall_forall in Hy. now apply Hy.
    + assert (Hxy : descending key x y) by now apply ltb_false_leb.
      constructor; [now constructor |].
      constructor; [exact Hxy |].
      eapply List.Forall_impl; [| exact Hy].
      intros a Ha. now apply descending_trans with y.
Qed.

Lemma sort_sorted (l : list A) :
  Forall number l -> StronglySorted (descending key) (Js.sort comparefn l).
Proof.
  induction l as [| x r IH]; simpl; intros H; [constructor |].
  inversion H; subst.
  apply sort_insert_sorted; [assumption | now apply sort_Forall | now apply IH].
Qed.

(** An array that already descends is left as it is: nothing is moved
    without need. *)
Lemma sort_descending_id (l : list A) :
  Forall number l -> StronglySorted (descending key) l ->
  Js.sort comparefn l = l.
Proof.
  intros Hn Hs. induction Hs as [| x r Hr IH Hx]; simpl; [reflexivity |].
  inversion Hn as [| ? ? Nx Nr]; subst. rewrite (IH Nr).
  destruct r as [| y r']; simpl; [reflexivity |].
  inversion Nr; subst. inversion Hx as [| ? ? Hxy _]; subst.
  rewrite sort_gt_key by assumption.
  destruct (PrimFloat.ltb (key x) (key y)) eqn:E; [| reflexivity].
  apply ltb_not_leb in E. unfold descending in Hxy. congruence.
Qed.

End Sorting.

Lemma slice0_sorted {A} (R : A -> A -> Prop) (n : nat) (l : list A) :
  StronglySorted R l -> StronglySorted R (Js.slice0 n l).
Proof.
  intros H. unfold Js.slice0. rewrite <- (firstn_skipn n l) in H.
  now apply StronglySorted_app_1_l in H.
Qed.

Lemma slice0_In {A} (n : nat) (l : list A) (a : A) :
  In a (Js.slice0 n l) -> In a l.
Proof.
  intros H. rewrite <- (firstn_skipn n l). apply in_or_app. now left.
Qed.

(** ** Amount parsing *)

Lemma or_else_number (x : float) :
  PrimFloat.is_nan (Js.or_else x 0) = false.
Proof.
  unfold Js.or_else, Js.truthy.
  destruct (PrimFloat.is_zero x || PrimFloat.is_nan x) eqn:E; simpl.
  - reflexivity.
  - now apply orb_false_elim in E.
Qed.

Lemma prefix_split (p s : string) :
  String.prefix p s = true <-> exists rest, s = (p ++ rest)%string.
Proof.
  revert s. induction p as [| c p IH]; intros s; simpl.
  - split; [intros _; now exists s | intros _; now destruct s].
  - destruct s as [| c' s]; [split; [discriminate | intros [r Hr]; discriminate] |].
    simpl. destruct (Ascii.ascii_dec c c') as [E | Hne].
    + subst c'. rewrite IH. split; intros [r Hr]; exists r.
      * now rewrite Hr.
      * change (String c s = String c (p ++ r)%string) in Hr. now injection Hr.
    + split; [discriminate |].
      intros [r Hr]. change (String c' s = String c (p ++ r)%string) in Hr.
      congruence.
Qed.

Lemma take_digits_split (s : string) (len acc : Z) :
  exists ds rest acc',
    Js.take_digits s len acc = (len + Z.of_nat (String.length ds), acc', rest)
    /\ s = (ds ++ rest)%string
    /\ all_digits ds = true
    /\ match rest with
       | String c _ => Js.digit_of c = None
       | EmptyString => True
       end.
Proof.
  revert len acc. induction s as [| c r IH]; intros len acc; simpl.
  - exists EmptyString, EmptyString, acc. simpl. rewrite Z.add_0_r. auto.
  - destruct (Js.digit_of c) as [d |] eqn:E.
    + destruct (IH (len + 1) (10 * acc + d)) as (ds & rest & acc' & H1 & H2 & H3 & H4).
      exists (String c ds), rest, acc'. split; [| split; [| split]].
      * rewrite H1. do 2 f_equal. simpl String.length. lia.
      * change (String c r = String c (ds ++ rest)%string). now rewrite H2.
      * simpl. now rewrite E.
      * exact H4.
    + exists EmptyString, (String c r), acc. simpl. rewrite Z.add_0_r. auto.
Qed.

Lemma append_cons (c : ascii) (s r : string) :
  (String c s ++ r)%string = String c (s ++ r)%string.
Proof. reflexivity. Qed.

Lemma append_nil_r (s : string) : (s ++ "")%string = s.
Proof. induction s as [| c s IH]; [reflexivity |]. now rewrite append_cons, IH. Qed.

Lemma append_assoc (s r t : string) :
  ((s ++ r) ++ t)%string = (s ++ r ++ t)%string.
Proof.
  induction s as [| c s IH]; [reflexivity |]. now rewrite !append_cons, IH.
Qed.

Lemma take_point_spec (s f : string) :
  Js.take_point s = Some f <-> s = String "." f.
Proof.
  destruct s as [| [[] [] [] [] [] [] [] []] s]; simpl; split; congruence.
Qed.

Lemma take_sign_spec (s : string) :
  (exists r, s = String "-" r /\ Js.take_sign s = (true, r))
  \/ (exists r, s = String "+" r /\ Js.take_sign s = (false, r))
  \/ (Js.take_sign s = (false, s)
      /\ forall r, s <> String "-" r /\ s <> String "+" r).
Proof.
  destruct s as [| [[] [] [] [] [] [] [] []] s]; simpl;
    first [ left; eexists; split; reflexivity
          | right; left; eexists; split; reflexivity
          | right; right; split; [reflexivity | intros r; split; congruence] ].
Qed.

Lemma take_digits_length (s : string) (len acc : Z) :
  len <= (Js.take_digits s len acc).1.1.
Proof.
  revert len acc. induction s as [| c r IH]; intros len acc; simpl; [lia |].
  destruct (Js.digit_of c); simpl; [| lia].
  specialize (IH (len + 1) (10 * acc + z)). lia.
Qed.

Lemma take_digits_app (ds s : string) (len acc : Z) :
  all_digits ds = true ->
  len + Z.of_nat (String.length ds) <= (Js.take_digits (ds ++ s) len acc).1.1.
Proof.
  revert len acc. induction ds as [| c ds IH]; intros len acc Hd.
  - simpl String.length. rewrite Z.add_0_r. apply take_digits_length.
  - rewrite append_cons. simpl in *. destruct (Js.digit_of c) as [d |];
      [| discriminate].
    specialize (IH (len + 1) (10 * acc + d) Hd). lia.
Qed.

Lemma digits_length (ds : string) : DecimalDigits ds -> (0 < String.length ds)%nat.
Proof. intros [Hne _]. destruct ds; [congruence | simpl; lia]. Qed.

(** What [parse_unsigned] accepts has a literal at its head. *)
Lemma parse_unsigned_literal (neg : bool) (r : string) (x : float) :
  Js.parse_unsigned neg r = Some x ->
  exists literal rest,
    r = (literal ++ rest)%string /\ StrUnsignedDecimalLiteral literal.
Proof.
  unfold Js.parse_unsigned.
  destruct (String.prefix "Infinity" r) eqn:EI.
  { intros _. apply prefix_split in EI as [rest ->].
    exists "Infinity", rest. split; [reflexivity | constructor]. }
  destruct (take_digits_split r 0 0) as (ds & r1 & ival & H1 & -> & Hds & _).
  rewrite H1.
  destruct (Js.take_point r1) as [f |] eqn:EP.
  - apply take_point_spec in EP as ->.
    destruct (take_digits_split f 0 ival) as (fs & r2 & mval & H2 & -> & Hfs & _).
    rewrite H2. destruct ds as [| c ds].
    + destruct fs as [| c' fs]; [discriminate |]. intros _.
      exists ("." ++ String c' fs ++ "")%string, r2.
      split; [now rewrite append_nil_r |].
      apply literal_fraction; [split; [discriminate | exact Hfs] | now left].
    + intros _.
      exists (String c ds ++ "." ++ fs ++ "")%string, r2. split.
      * now rewrite append_nil_r, !append_assoc.
      * apply literal_point; [split; [discriminate | exact Hds] | | now left].
        destruct fs; [now left | right; split; [discriminate | exact Hfs]].
  - destruct ds as [| c ds]; [discriminate |]. intros _.
    exists (String c ds ++ "")%string, r1. split; [now rewrite append_nil_r |].
    apply literal_integer; [split; [discriminate | exact Hds] | now left].
Qed.

(** A literal at the head is accepted by [parse_unsigned]. *)
Lemma literal_parse_unsigned (neg : bool) (literal rest : string) :
  StrUnsignedDecimalLiteral literal ->
  exists x, Js.parse_unsigned neg (literal ++ rest) = Some x.
Proof.
  intros H. unfold Js.parse_unsigned.
  destruct (String.prefix "Infinity" (literal ++ rest)) eqn:EI; [eauto |].
  assert (Hint : forall i s, DecimalDigits i ->
            exists x,
              (let '(ilen, ival, r) := Js.take_digits (i ++ s) 0 0 in
               let '(flen, mval, r') :=
                 match Js.take_point r with
                 | Some f => Js.take_digits f 0 ival
                 | None => (0, ival, r)
                 end in
               if (ilen =? 0) && (flen =? 0) then None
               else Some (Js.number_of_decimal neg mval
                            (Js.take_exponent r' - flen))) = Some x).
  { intros i s Hi. pose proof (take_digits_app i s 0 0 (proj2 Hi)) as Hlen.
    pose proof (digits_length i Hi) as Hpos.
    destruct (Js.take_digits (i ++ s) 0 0) as [[ilen ival] r]. simpl in Hlen.
    destruct (match Js.take_point r with
              | Some f => Js.take_digits f 0 ival
              | None => (0, ival, r)
              end) as [[flen mval] r'].
    replace (ilen =? 0) with false by (symmetry; apply Z.eqb_neq; lia).
    simpl. eauto. }
  destruct H as [| i f e Hi Hf He | f e Hf He | i e Hi He].
  - assert (E : String.prefix "Infinity" ("Infinity" ++ rest) = true)
      by (apply prefix_split; eauto).
    congruence.
  - rewrite append_assoc. now apply Hint.
  - assert (E : (("." ++ f ++ e) ++ rest)%string
                = String "." (f ++ e ++ rest)%string)
      by (rewrite !append_assoc; reflexivity).
    rewrite E. simpl.
    pose proof (take_digits_app f (e ++ rest) 0 0 (proj2 Hf)) as Hlen.
    pose proof (digits_length f Hf) as Hpos.
    destruct (Js.take_digits (f ++ e ++ rest) 0 0) as [[flen mval] r'].
    simpl in Hlen.
    replace (flen =? 0) with false by (symmetry; apply Z.eqb_neq; lia).
    simpl. eauto.
  - rewrite append_assoc. now apply Hint.
Qed.

Lemma literal_head (u : string) :
  StrUnsignedDecimalLiteral u ->
  forall rest r, (u ++ rest)%string <> String "-" r
                 /\ (u ++ rest)%string <> String "+" r.
Proof.
  assert (Hd : forall i s rest r, DecimalDigits i ->
            ((i ++ s) ++ rest)%string <> String "-" r
            /\ ((i ++ s) ++ rest)%string <> String "+" r).
  { intros i s rest r [Hne Hall]. destruct i as [| c i]; [congruence |].
    rewrite !append_cons. simpl in Hall.
    split; intros [= -> _]; discriminate. }
  intros H rest r. destruct H as [| i f e Hi _ _ | f e _ _ | i e Hi _].
  - split; discriminate.
  - now apply Hd.
  - split; discriminate.
  - now apply Hd.
Qed.

(** [trim_start] skips each white space character. *)
Lemma trim_start_space (w t : string) :
  In w white_space -> Js.trim_start (w ++ t) = Js.trim_start t.
Proof.
  intros H. vm_compute in H.
  repeat (destruct H as [<- | H]; [reflexivity |]). contradiction.
Qed.

Lemma trim_start_spaces (ws t : string) :
  spaces ws -> Js.trim_start (ws ++ t) = Js.trim_start t.
Proof.
  induction 1 as [| w ws Hw _ IH]; [reflexivity |].
  now rewrite append_assoc, trim_start_space.
Qed.

Lemma is_space_white (c : ascii) :
  Js.is_space c = true -> In (String c "") white_space.
Proof.
  unfold Js.is_space. intros H.
  rewrite <- (ascii_N_embedding c).
  set (n := N_of_ascii c) in *. clearbody n.
  assert (E : (n = 9 \/ n = 10 \/ n = 11 \/ n = 12 \/ n = 13 \/ n = 32)%N).
  { apply orb_true_iff in H as [H | H].
    - apply andb_true_iff in H as [H1 H2].
      apply N.leb_le in H1. apply N.leb_le in H2. lia.
    - apply N.eqb_eq in H. lia. }
  destruct E as [-> | [-> | [-> | [-> | [-> | ->]]]]]; vm_compute; tauto.
Qed.

Lemma is_space2_white (c1 c2 : ascii) :
  Js.is_space2 c1 c2 = true -> In (String c1 (String c2 "")) white_space.
Proof.
  unfold Js.is_space2. intros H. apply andb_true_iff in H as [H1 H2].
  apply N.eqb_eq in H1. apply N.eqb_eq in H2.
  rewrite <- (ascii_N_embedding c1), <- (ascii_N_embedding c2), H1, H2.
  vm_compute. tauto.
Qed.

Lemma is_space3_white (c1 c2 c3 : ascii) :
  Js.is_space3 c1 c2 c3 = true ->
  In (String c1 (String c2 (String c3 ""))) white_space.
Proof.
  unfold Js.is_space3. intros H.
  rewrite <- (ascii_N_embedding c1), <- (ascii_N_embedding c2),
    <- (ascii_N_embedding c3).
  set (n1 := N_of_ascii c1) in *. set (n2 := N_of_ascii c2) in *.
  set (n3 := N_of_ascii c3) in *. clearbody n1 n2 n3.
  repeat match type of H with
         | (_ || _)%bool = true => apply orb_true_iff in H as [H | H]
         end;
    repeat match goal with
           | H : (_ && _)%bool = true |- _ =>
               apply andb_true_iff in H as [? H]
           | H : (_ || _)%bool = true |- _ =>
               apply orb_true_iff in H as [H | H]
           | H : (_ =? _)%N = true |- _ => apply N.eqb_eq in H; subst
           end;
    try (vm_compute; tauto).
  match goal with
  | H1 : (128 <=? n3)%N = true, H2 : (n3 <=? 138)%N = true |- _ =>
      apply N.leb_le in H1; apply N.leb_le in H2
  end.
  assert (E : (n3 = 128 \/ n3 = 129 \/ n3 = 130 \/ n3 = 131 \/ n3 = 132
               \/ n3 = 133 \/ n3 = 134 \/ n3 = 135 \/ n3 = 136 \/ n3 = 137
               \/ n3 = 138)%N) by lia.
  repeat (destruct E as [-> | E]; [vm_compute; tauto |]).
  subst. vm_compute. tauto.
Qed.

(** What [trim_start] removes is a run of white space. *)
Lemma trim_start_prefix (s : string) :
  exists ws, spaces ws /\ s = (ws ++ Js.trim_start s)%string.
Proof.
  assert (H : forall n s, (String.length s <= n)%nat ->
            exists ws, spaces ws /\ s = (ws ++ Js.trim_start s)%string).
  { clear s. induction n as [| n IH]; intros s Hn.
    - destruct s; [| simpl in Hn; lia].
      exists ""%string. split; [constructor | reflexivity].
    - destruct s as [| c1 r1];
        [exists ""%string; split; [constructor | reflexivity] |].
      simpl in Hn. simpl Js.trim_start.
      destruct (Js.is_space c1) eqn:E1.
      { destruct (IH r1 ltac:(lia)) as (ws & Hws & Hr).
        exists (String c1 "" ++ ws)%string. split.
        - constructor; [now apply is_space_white | exact Hws].
        - rewrite append_assoc.
          change (String c1 r1 = String c1 (ws ++ Js.trim_start r1)).
          now rewrite <- Hr. }
      destruct r1 as [| c2 r2];
        [exists ""%string; split; [constructor | reflexivity] |].
      simpl in Hn.
      destruct (Js.is_space2 c1 c2) eqn:E2.
      { destruct (IH r2 ltac:(lia)) as (ws & Hws & Hr).
        exists (String c1 (String c2 "") ++ ws)%string. split.
        - constructor; [now apply is_space2_white | exact Hws].
        - rewrite append_assoc.
          change (String c1 (String c2 r2)
                  = String c1 (String c2 (ws ++ Js.trim_start r2))).
          now rewrite <- Hr. }
      destruct r2 as [| c3 r3];
        [exists ""%string; split; [constructor | reflexivity] |].
      simpl in Hn.
      destruct (Js.is_space3 c1 c2 c3) eqn:E3.
      { destruct (IH r3 ltac:(lia)) as (ws & Hws & Hr).
        exists (String c1 (String c2 (String c3 "")) ++ ws)%string. split.
        - constructor; [now apply is_space3_white | exact Hws].
        - rewrite append_assoc.
          change (String c1 (String c2 (String c3 r3))
                  = String c1
                      (String c2 (String c3 (ws ++ Js.trim_start r3)))).
          now rewrite <- Hr. }
      exists ""%string. split; [constructor | reflexivity]. }
  apply (H (String.length s)). lia.
Qed.

(** A text that starts with a character below 128 that is no white space
    has no white space to skip. *)
Lemma trim_start_plain (c : ascii) (r : string) :
  (N_of_ascii c < 128)%N -> Js.is_space c = false ->
  Js.trim_start (String c r) = String c r.
Proof.
  intros Hc Hs. simpl. rewrite Hs.
  assert (H2 : forall c2, Js.is_space2 c c2 = false).
  { intros c2. unfold Js.is_space2.
    replace (N_of_ascii c =? 194)%N with false; [reflexivity |].
    symmetry. apply N.eqb_neq. lia. }
  assert (H3 : forall c2 c3, Js.is_space3 c c2 c3 = false).
  { intros c2 c3. unfold Js.is_space3.
    replace (N_of_ascii c =? 225)%N with false
      by (symmetry; apply N.eqb_neq; lia).
    replace (N_of_ascii c =? 226)%N with false
      by (symmetry; apply N.eqb_neq; lia).
    replace (N_of_ascii c =? 227)%N with false
      by (symmetry; apply N.eqb_neq; lia).
    replace (N_of_ascii c =? 239)%N with false
      by (symmetry; apply N.eqb_neq; lia).
    reflexivity. }
  destruct r as [| c2 r2]; [reflexivity |]. rewrite H2.
  destruct r2 as [| c3 r3]; [reflexivity |]. now rewrite H3.
Qed.

(** Digits are no white space. *)
Lemma trim_start_digits (ds rest : string) :
  DecimalDigits ds -> Js.trim_start (ds ++ rest) = (ds ++ rest)%string.
Proof.
  intros [Hne Hall]. destruct ds as [| c ds]; [congruence |].
  rewrite append_cons. simpl in Hall. unfold Js.digit_of in Hall.
  destruct ((48 <=? N_of_ascii c) && (N_of_ascii c <=? 57))%N eqn:E;
    [| discriminate].
  apply andb_true_iff in E as [E1 E2].
  apply N.leb_le in E1. apply N.leb_le in E2.
  apply trim_start_plain; [lia |]. unfold Js.is_space.
  apply orb_false_iff. split.
  - apply andb_false_iff. right. apply N.leb_gt. lia.
  - apply N.eqb_neq. lia.
Qed.

(** Neither does a decimal literal start with white space. *)
Lemma trim_start_literal (literal rest : string) :
  StrDecimalLiteral literal ->
  Js.trim_start (literal ++ rest) = (literal ++ rest)%string.
Proof.
  assert (Hu : forall u, StrUnsignedDecimalLiteral u ->
                         Js.trim_start (u ++ rest) = (u ++ rest)%string).
  { intros u [| i f e Hi _ _ | f e _ _ | i e Hi _].
    - reflexivity.
    - rewrite append_assoc. now apply trim_start_digits.
    - rewrite append_assoc. rewrite append_cons.
      now apply trim_start_plain.
    - rewrite append_assoc. now apply trim_start_digits. }
  intros [u H | u H | u H]; [now apply Hu | |];
    rewrite append_assoc, append_cons; now apply trim_start_plain.
Qed.

(** White space and then a literal: [trim_start] leaves the text from the
    literal on, and what it leaves starts with a literal only then. *)
Lemma literal_after_spaces (text : string) :
  (exists ws literal rest,
     text = (ws ++ literal ++ rest)%string
     /\ spaces ws /\ StrDecimalLiteral literal)
  <->
  (exists literal rest,
     Js.trim_start text = (literal ++ rest)%string
     /\ StrDecimalLiteral literal).
Proof.
  split.
  - intros (ws & literal & rest & -> & Hws & Hl). exists literal, rest.
    split; [| exact Hl].
    now rewrite (trim_start_spaces ws _ Hws), trim_start_literal.
  - intros (literal & rest & Ht & Hl).
    destruct (trim_start_prefix text) as (ws & Hws & E).
    exists ws, literal, rest. rewrite <- Ht. now split.
Qed.

(** [parseFloat] finds nothing to convert exactly when the text does not
    start, after white space, with a [StrDecimalLiteral]. *)
Lemma unparsable_parse (text : string) :
  unparsable text <->
  (let '(neg, r) := Js.take_sign (Js.trim_start text) in
   Js.parse_unsigned neg r = None).
Proof.
  unfold unparsable. rewrite literal_after_spaces.
  set (s := Js.trim_start text). split.
  - intros Hno.
    destruct (Js.take_sign s) as [neg r] eqn:Es.
    destruct (Js.parse_unsigned neg r) as [x |] eqn:Ep; [| reflexivity].
    exfalso. apply Hno.
    apply parse_unsigned_literal in Ep as (u & rest & Hr & Hu).
    destruct (take_sign_spec s) as [(r' & Hs & Ht) | [(r' & Hs & Ht) | [Ht _]]];
      rewrite Ht in Es; injection Es as Hneg Hr'.
    + exists ("-" ++ u)%string, rest. split; [| now constructor].
      rewrite Hs, Hr', Hr. reflexivity.
    + exists ("+" ++ u)%string, rest. split; [| now constructor].
      rewrite Hs, Hr', Hr. reflexivity.
    + exists u, rest. split; [congruence | now constructor].
  - intros Hp (literal & rest & Hs & Hl).
    destruct Hl as [u Hu | u Hu | u Hu].
    + destruct (take_sign_spec s) as [(r' & Hs' & _) | [(r' & Hs' & _) | [Ht _]]].
      * rewrite Hs in Hs'. now apply (literal_head u Hu rest r') in Hs'.
      * rewrite Hs in Hs'. now apply (literal_head u Hu rest r') in Hs'.
      * rewrite Ht, Hs in Hp.
        destruct (literal_parse_unsigned false u rest Hu) as [x Hx]. congruence.
    + rewrite Hs in Hp.
      change (("+" ++ u) ++ rest)%string with (String "+" (u ++ rest)) in Hp.
      simpl in Hp.
      destruct (literal_parse_unsigned false u rest Hu) as [x Hx]. congruence.
    + rewrite Hs in Hp.
      change (("-" ++ u) ++ rest)%string with (String "-" (u ++ rest)) in Hp.
      simpl in Hp.
      destruct (literal_parse_unsigned true u rest Hu) as [x Hx]. congruence.
Qed.



(** *** Integers are parsed exactly *)

















Example letters_unparsable : unparsable "abc".
Proof. apply unparsable_parse. reflexivity. Qed.

Example sign_alone_unparsable : unparsable "  -".
Proof. apply unparsable_parse. reflexivity. Qed.

Example amount_grouped : amount_of "1,234,567.5" = 1234567.5%float.
Proof. reflexivity. Qed.
Example amount_negative : amount_of " -12.5e1" = (-125)%float.
Proof. reflexivity. Qed.
Example amount_fraction : amount_of ".5" = 0.5%float.
Proof. reflexivity. Qed.
Example amount_text : amount_of "abc" = 0%float.
Proof. reflexivity. Qed.
Example amount_commas_only : amount_of ",," = 0%float.
Proof. reflexivity. Qed.
Example amount_empty : amount_of "" = 0%float.
Proof. reflexivity. Qed.
Example amount_missing :
  App.parseAmount (RawTransaction.mk (Some "A") None (Some "X") None) = 0%float.
Proof. reflexivity. Qed.
Example amount_negative_zero : amount_of "-0" = 0%float.
Proof. reflexivity. Qed.
(** White space of more than one byte is skipped as well: an ideographic
    space (U+3000), a no-break space (U+00A0) and a byte order mark (U+FEFF)
    before the digits. *)
Example amount_wide_space : amount_of "　 ﻿12" = 12%float.
Proof. reflexivity. Qed.
(** A number followed by other text is parsed up to that text. *)
Example amount_prefix : amount_of "12abc" = 12%float.
Proof. reflexivity. Qed.
Example amount_overflow : amount_of "1e400" = PrimFloat.infinity.
Proof. reflexivity. Qed.
Example amount_underflow : amount_of "1e-400" = 0%float.
Proof. reflexivity. Qed.
Example amount_nearest :
  amount_of "9007199254740993" = 9007199254740992%float.
Proof. reflexivity. Qed.

(** ** Feature Engine: the first pass *)

Lemma inherited_proto (key : string) :
  String.eqb key "__proto__" = true -> Js.inherited key = true.
Proof. intros H. apply String.eqb_eq in H as ->. reflexivity. Qed.

Lemma set_lookup_eq {V} (o : gmap string V) (key : string) (v : V) :
  Js.inherited key = false -> Js.set o key v !! key = Some v.
Proof.
  intros H. unfold Js.set. destruct (String.eqb key "__proto__") eqn:E.
  - apply inherited_proto in E. congruence.
  - apply lookup_insert_eq.
Qed.

Lemma set_lookup_ne {V} (o : gmap string V) (key key' : string) (v : V) :
  key <> key' -> Js.set o key v !! key' = o !! key'.
Proof.
  intros H. unfold Js.set. destruct (String.eqb key "__proto__");
    [reflexivity | now apply lookup_insert_ne].
Qed.

(** The dictionaries [processFeatures] reads in its second pass. *)
Lemma aggregates_lookup (data : list RawTransaction.t) :
  let first := Js.forEach App.aggregate data (∅, ∅) in
  (forall code, (App.aggregates data).1 !! code
                = App.setAverage <$> first.1 !! code)
  /\ (App.aggregates data).2 = first.2.
Proof.
  unfold App.aggregates. destruct (Js.forEach App.aggregate data (∅, ∅)).
  simpl. split; [| reflexivity].
  intros code. unfold App.calculateAverages. apply lookup_fmap.
Qed.

(** *** What the dictionaries hold *)

(** One row of the first pass, seen from one category: an entry is updated,
    or made when the name is free; under a name that [Object.prototype]
    defines none is made. *)
Lemma aggregate_category (st : ActCodeStats * BAStats)
  (row : RawTransaction.t) (index : Z) (code : string) :
  (App.aggregate st row index).1 !! code
  = if in_category code row then
      match st.1 !! code with
      | Some stat => Some (App.addAmount stat (App.parseAmount row))
      | None =>
          if Js.inherited code then None
          else Some (App.addAmount (ActCodeStat.mk 0 0 0)
                       (App.parseAmount row))
      end
    else st.1 !! code.
Proof.
  destruct st as [acs bas]. unfold App.aggregate, in_category.
  destruct (App.keys row) as [[c b] |]; [| reflexivity]. cbn [fst snd].
  destruct (String.eqb_spec c code) as [-> | Hne].
  - destruct (acs !! code) as [stat |] eqn:E.
    + assert (G : Js.get acs code = Js.Own stat)
        by (unfold Js.get; now rewrite E).
      rewrite G. cbv beta iota. rewrite G. apply lookup_insert_eq.
    + destruct (Js.inherited code) eqn:Ei.
      * assert (G : Js.get acs code = Js.Inherited)
          by (unfold Js.get; now rewrite E, Ei).
        rewrite G. cbv beta iota. rewrite G. exact E.
      * assert (G : Js.get acs code = Js.Undefined)
          by (unfold Js.get; now rewrite E, Ei).
        rewrite G. cbv beta iota.
        assert (G' : Js.get (Js.set acs code (ActCodeStat.mk 0 0 0)) code
                     = Js.Own (ActCodeStat.mk 0 0 0))
          by (unfold Js.get; now rewrite (set_lookup_eq _ _ _ Ei)).
        rewrite G'. apply lookup_insert_eq.
  - set (acs1 := match Js.get acs c with
                 | Js.Undefined => Js.set acs c (ActCodeStat.mk 0 0 0)
                 | _ => acs
                 end).
    assert (H1 : acs1 !! code = acs !! code).
    { unfold acs1. destruct (Js.get acs c); try reflexivity.
      now apply set_lookup_ne. }
    destruct (Js.get acs1 c); try exact H1.
    now rewrite lookup_insert_ne.
Qed.

(** What [k] more rows of a business area make of its counter cell. *)
Lemma aggregate_area (st : ActCodeStats * BAStats) (row : RawTransaction.t)
  (index : Z) (ba : string) :
  (App.aggregate st row index).2 !! ba
  = if in_area ba row then cell_after ba (st.2 !! ba) 1
    else st.2 !! ba.
Proof.
  destruct st as [acs bas]. unfold App.aggregate, in_area.
  destruct (App.keys row) as [[c b] |]; [| reflexivity]. cbn [fst snd].
  destruct (String.eqb_spec b ba) as [-> | Hne].
  - unfold cell_after, Js.set, Js.read, Js.get. simpl N.eqb. cbv iota.
    destruct (String.eqb ba "__proto__") eqn:Ep; [reflexivity |].
    rewrite lookup_insert_eq.
    destruct (bas !! ba) as [[n | m j | m] |]; simpl; try reflexivity.
    destruct (Js.inherited ba); reflexivity.
  - now apply set_lookup_ne.
Qed.

Lemma cell_after_after (ba : string) (o : option Js.Counter) (k : N) :
  cell_after ba (cell_after ba o 1) k = cell_after ba o (1 + k).
Proof.
  unfold cell_after. destruct (N.eqb_spec k 0) as [-> | Hk].
  - reflexivity.
  - destruct (N.eqb_spec (1 + k) 0) as [H | _]; [lia |]. simpl N.eqb. cbv iota.
    destruct (String.eqb ba "__proto__"); [reflexivity |].
    destruct o as [[n | m j | m] |]; simpl; try (do 2 f_equal; lia).
    destruct (Js.inherited ba); simpl; do 2 f_equal; lia.
Qed.

Lemma first_pass_category (data : list RawTransaction.t) (index : Z)
  (st : ActCodeStats * BAStats) (code : string) :
  (Js.forEach_from App.aggregate index data st).1 !! code
  = match List.filter (in_category code) data, st.1 !! code with
    | [], o => o
    | rows, Some stat =>
        Some (ActCodeStat.mk
                (add_amounts (ActCodeStat.totalAmount stat) rows)
                (ActCodeStat.count stat + N.of_nat (length rows))
                (ActCodeStat.average stat))
    | rows, None =>
        if Js.inherited code then None
        else Some (ActCodeStat.mk (add_amounts 0 rows)
                     (N.of_nat (length rows)) 0)
    end.
Proof.
  revert index st. induction data as [| row rest IH]; intros index st; simpl.
  - reflexivity.
  - rewrite IH, aggregate_category.
    destruct (in_category code row); simpl; [| reflexivity].
    destruct (st.1 !! code) as [stat |].
    + destruct (List.filter (in_category code) rest) as [| r rows]; simpl.
      * reflexivity.
      * f_equal. f_equal. lia.
    + destruct (Js.inherited code).
      * now destruct (List.filter (in_category code) rest).
      * destruct (List.filter (in_category code) rest) as [| r rows]; simpl.
        -- reflexivity.
        -- f_equal. f_equal. lia.
Qed.

Lemma first_pass_area (data : list RawTransaction.t) (index : Z)
  (st : ActCodeStats * BAStats) (ba : string) :
  (Js.forEach_from App.aggregate index data st).2 !! ba
  = cell_after ba (st.2 !! ba)
      (N.of_nat (length (List.filter (in_area ba) data))).
Proof.
  revert index st. induction data as [| row rest IH]; intros index st; simpl.
  - reflexivity.
  - rewrite IH, aggregate_area.
    destruct (in_area ba row); [| reflexivity].
    rewrite cell_after_after. f_equal. simpl length. lia.
Qed.

(** A category is in the dictionary when some kept row has it and
    [Object.prototype] defines no member of that name; its total is the sum
    of the amounts of these rows, taken in row order from 0, its count is
    their number and its average is the one divided by the other. *)
Lemma category_aggregate (data : list RawTransaction.t) (code : string) :
  (App.aggregates data).1 !! code
  = match List.filter (in_category code) data with
    | [] => None
    | rows =>
        if Js.inherited code then None
        else
          Some (ActCodeStat.mk (add_amounts 0 rows) (N.of_nat (length rows))
                  (add_amounts 0 rows
                   / Js.number_of_N (N.of_nat (length rows))))
    end.
Proof.
  destruct (aggregates_lookup data) as [-> _]. unfold Js.forEach.
  rewrite first_pass_category. simpl. rewrite lookup_empty.
  destruct (List.filter (in_category code) data); [reflexivity |].
  now destruct (Js.inherited code).
Qed.

(** The counter cell of a business area after the first pass: none when no
    kept row has the area, and none under [__proto__]; the number of the
    kept rows of the area, or, under a name that [Object.prototype] defines,
    text that ends in as many "1". *)
Lemma area_frequency (data : list RawTransaction.t) (ba : string) :
  (App.aggregates data).2 !! ba
  = cell_after ba None (N.of_nat (length (List.filter (in_area ba) data))).
Proof.
  destruct (aggregates_lookup data) as [_ ->]. unfold Js.forEach.
  rewrite first_pass_area. simpl. now rewrite lookup_empty.
Qed.

(** What the second pass reads for the business area of a kept row. *)
Lemma area_read (data : list RawTransaction.t) (ba : string) :
  List.filter (in_area ba) data <> [] ->
  Js.read (App.aggregates data).2 ba
  = Some (frequency_of ba
            (N.of_nat (length (List.filter (in_area ba) data)))).
Proof.
  intros Hne. unfold Js.read, Js.get. rewrite area_frequency.
  unfold cell_after, frequency_of.
  destruct (N.eqb_spec (N.of_nat (length (List.filter (in_area ba) data))) 0)
    as [H0 | _].
  { destruct (List.filter (in_area ba) data); [congruence | simpl in H0; lia]. }
  destruct (String.eqb ba "__proto__") eqn:Ep.
  - now rewrite (inherited_proto _ Ep).
  - now destruct (Js.inherited ba).
Qed.

(** ** Feature Engine: the second pass *)

Lemma materialize_app (actCodeStats : ActCodeStats) (baStats : BAStats)
  (processed : list ProcessedTransaction.t) (row : RawTransaction.t)
  (index : Z) :
  App.materialize actCodeStats baStats processed row index
  = processed ++ App.materialize actCodeStats baStats [] row index.
Proof.
  unfold App.materialize. destruct (App.keys row) as [[code ba] |]; simpl.
  - reflexivity.
  - now rewrite List.app_nil_r.
Qed.

Lemma second_pass_appends (actCodeStats : ActCodeStats) (baStats : BAStats)
  (data : list RawTransaction.t) (index : Z)
  (processed : list ProcessedTransaction.t) :
  Js.forEach_from (App.materialize actCodeStats baStats) index data processed
  = processed ++ materialized actCodeStats baStats index data.
Proof.
  revert index processed.
  induction data as [| row rest IH]; intros index processed; simpl.
  - now rewrite List.app_nil_r.
  - rewrite IH, materialize_app. now rewrite <- List.app_assoc.
Qed.

Lemma processFeatures_materialized (data : list RawTransaction.t) :
  App.processFeatures data
  = materialized (App.aggregates data).1 (App.aggregates data).2 0 data.
Proof.
  unfold App.processFeatures. destruct (App.aggregates data) as [acs bas].
  unfold Js.forEach. now rewrite second_pass_appends.
Qed.

Lemma materialize_built (actCodeStats : ActCodeStats) (baStats : BAStats)
  (row : RawTransaction.t) (index : Z) (p : ProcessedTransaction.t) :
  In p (App.materialize actCodeStats baStats [] row index) ->
  built_from actCodeStats baStats row index p.
Proof.
  unfold App.materialize, built_from.
  destruct (App.keys row) as [[code ba] |]; simpl; [| contradiction].
  intros [<- | []]. simpl. repeat split; reflexivity.
Qed.

Lemma materialize_kept (actCodeStats : ActCodeStats) (baStats : BAStats)
  (row : RawTransaction.t) (index : Z) :
  App.keys row <> None ->
  exists p, App.materialize actCodeStats baStats [] row index = [p]
            /\ ProcessedTransaction.id p = index.
Proof.
  unfold App.materialize.
  destruct (App.keys row) as [[code ba] |]; [| congruence].
  intros _. eexists. split; reflexivity.
Qed.

Lemma materialized_built (actCodeStats : ActCodeStats) (baStats : BAStats)
  (data : list RawTransaction.t) (index : Z) (p : ProcessedTransaction.t) :
  In p (materialized actCodeStats baStats index data) ->
  exists (k : nat) (row : RawTransaction.t),
    nth_error data k = Some row
    /\ built_from actCodeStats baStats row (index + Z.of_nat k) p.
Proof.
  revert index. induction data as [| row rest IH]; intros index; simpl;
    [contradiction |].
  intros H. apply List.in_app_or in H as [H | H].
  - exists 0%nat, row. split; [reflexivity |].
    rewrite Z.add_0_r. now apply materialize_built.
  - apply IH in H as (k & row' & Hk & Hb). exists (S k), row'.
    split; [exact Hk |].
    replace (index + Z.of_nat (S k)) with (index + 1 + Z.of_nat k) by lia.
    exact Hb.
Qed.

Lemma materialized_kept (actCodeStats : ActCodeStats) (baStats : BAStats)
  (data : list RawTransaction.t) (index : Z) (k : nat)
  (row : RawTransaction.t) :
  nth_error data k = Some row -> App.keys row <> None ->
  In (index + Z.of_nat k)
    (List.map ProcessedTransaction.id
       (materialized actCodeStats baStats index data)).
Proof.
  revert index k. induction data as [| row' rest IH]; intros index k Hk Hkeys.
  - destruct k; discriminate.
  - simpl. rewrite List.map_app. apply List.in_or_app. destruct k as [| k].
    + injection Hk as ->. left.
      destruct (materialize_kept actCodeStats baStats row index Hkeys)
        as (p & -> & Hid).
      simpl. left. lia.
    + right. replace (index + Z.of_nat (S k)) with (index + 1 + Z.of_nat k)
        by lia.
      now apply IH.
Qed.

Lemma materialized_ids_ascend (actCodeStats : ActCodeStats)
  (baStats : BAStats) (data : list RawTransaction.t) (index : Z) :
  StronglySorted Z.lt
    (List.map ProcessedTransaction.id
       (materialized actCodeStats baStats index data))
  /\ Forall (fun i => index <= i)
       (List.map ProcessedTransaction.id
          (materialized actCodeStats baStats index data)).
Proof.
  revert index. induction data as [| row rest IH]; intros index; simpl.
  - split; constructor.
  - destruct (IH (index + 1)) as [IHs IHb].
    assert (Hb' : Forall (fun i => index < i)
              (List.map ProcessedTransaction.id
                 (materialized actCodeStats baStats (index + 1) rest))).
    { eapply List.Forall_impl; [| exact IHb]. simpl. intros; lia. }
    unfold App.materialize.
    destruct (App.keys row) as [[code ba] |]; simpl.
    + split; constructor; try assumption; try lia.
      eapply List.Forall_impl; [| exact Hb']. simpl. intros; lia.
    + split; [exact IHs |].
      eapply List.Forall_impl; [| exact Hb']. simpl. intros; lia.
Qed.

Lemma processFeatures_built (data : list RawTransaction.t)
  (p : ProcessedTransaction.t) :
  In p (App.processFeatures data) ->
  exists (k : nat) (row : RawTransaction.t),
    nth_error data k = Some row
    /\ built_from (App.aggregates data).1 (App.aggregates data).2 row
         (Z.of_nat k) p.
Proof.
  rewrite processFeatures_materialized. intros H.
  apply materialized_built in H as (k & row & Hk & Hb). now exists k, row.
Qed.

(** [v > n] reads the same on [v || 0]. *)
Lemma counter_gt_or_zero (v : option Js.Counter) (n : N) :
  Js.counter_gt v n = Js.counter_gt (Some (Js.counter_or_zero v)) n.
Proof.
  destruct v as [c |]; [reflexivity |]. simpl. symmetry. apply N.ltb_ge. lia.
Qed.

Lemma built_flagged (actCodeStats : ActCodeStats) (baStats : BAStats)
  (row : RawTransaction.t) (index : Z) (p : ProcessedTransaction.t) :
  built_from actCodeStats baStats row index p -> flagged_by_rule p.
Proof.
  unfold built_from, flagged_by_rule.
  intros (_ & _ & _ & _ & Hc & _ & _ & ->). rewrite Hc.
  now rewrite <- counter_gt_or_zero.
Qed.

Lemma processFeatures_flagged (data : list RawTransaction.t) :
  Forall flagged_by_rule (App.processFeatures data).
Proof.
  rewrite List.Forall_forall. intros p Hp.
  apply processFeatures_built in Hp as (k & row & _ & Hb).
  now apply built_flagged in Hb.
Qed.

(** ** Feature Engine: the records *)

Lemma counter_gt_exceeds (frequency : Js.Counter) (n : N) :
  Js.counter_gt (Some frequency) n = true <-> exceeds frequency n.
Proof.
  unfold exceeds. destruct frequency as [c | m j | m]; simpl.
  - rewrite N.ltb_lt. split; [intros H; now exists c |].
    intros (c' & [= <-] & H). exact H.
  - split; [discriminate | intros (c' & H & _); discriminate].
  - split; [discriminate | intros (c' & H & _); discriminate].
Qed.

(** C1. A record of the Feature Engine is flagged exactly when its ratio is
    above 3, or the frequency it carries is above 100 and its ratio is
    above 2. Both comparisons are strict: at the ratio 3 the record is
    flagged only through the second clause, and at the ratio 2 it is not
    flagged at all. The frequency is the field of the record, compared as
    [>] compares it: a number above 100. *)
Theorem suspicion_rule (data : list RawTransaction.t)
  (p : ProcessedTransaction.t) :
  In p (App.processFeatures data) ->
  let deviation := ProcessedTransaction.deviationFromAvg p in
  let frequency := ProcessedTransaction.baTransactionCount p in
  (ProcessedTransaction.isSuspiciousCandidate p = true <->
   Js.gt deviation 3 = true
   \/ (exceeds frequency 100 /\ Js.gt deviation 2 = true))
  /\ (deviation = 3%float ->
      (ProcessedTransaction.isSuspiciousCandidate p = true <->
       exceeds frequency 100))
  /\ (deviation = 2%float ->
      ProcessedTransaction.isSuspiciousCandidate p = false).
Proof.
  intros Hp deviation frequency.
  pose proof (processFeatures_flagged data) as H.
  rewrite List.Forall_forall in H. specialize (H p Hp).
  unfold flagged_by_rule in H. fold deviation frequency in H.
  rewrite H. split; [| split].
  - rewrite orb_true_iff, andb_true_iff, counter_gt_exceeds. tauto.
  - intros ->. change (Js.gt 3 3) with false. change (Js.gt 3 2) with true.
    rewrite orb_false_l, andb_true_r. apply counter_gt_exceeds.
  - intros ->. change (Js.gt 2 3) with false. change (Js.gt 2 2) with false.
    now rewrite andb_false_r.
Qed.

Lemma suspicion_rule_witness :
  let p :=
    ProcessedTransaction.mk 0 "A" (Some "2024-01") "X" 600 (Js.Count 5) 200 3
      false in
  In p (App.processFeatures rows_at_three)
  /\ (ProcessedTransaction.isSuspiciousCandidate p = true <->
      exceeds (Js.Count 5) 100).
Proof.
  intros p.
  assert (Hp : In p (App.processFeatures rows_at_three))
    by (vm_compute; left; reflexivity).
  split; [exact Hp |].
  destruct (suspicion_rule rows_at_three p Hp) as (_ & H3 & _).
  exact (H3 eq_refl).
Defined.

(** At the ratio 2 a record of a busy business area is not flagged; at the
    ratio 3 it is, through the second clause. *)
Example busy_at_two :
  List.map
    (fun p => (ProcessedTransaction.deviationFromAvg p,
               ProcessedTransaction.baTransactionCount p,
               ProcessedTransaction.isSuspiciousCandidate p))
    (firstn 1 (App.processFeatures rows_at_two))
  = [(2%float, Js.Count 102, false)].
Proof. vm_compute. reflexivity. Qed.

Example busy_at_three :
  List.map
    (fun p => (ProcessedTransaction.deviationFromAvg p,
               ProcessedTransaction.baTransactionCount p,
               ProcessedTransaction.isSuspiciousCandidate p))
    (firstn 1 (App.processFeatures rows_busy_at_three))
  = [(3%float, Js.Count 103, true)].
Proof. vm_compute. reflexivity. Qed.

(** A business area named [constructor], with 104 rows: the frequency the
    record carries is text, which is above nothing, and at the ratio 2.5 the
    record is not flagged. *)
Example busy_constructor :
  List.map
    (fun p => (ProcessedTransaction.deviationFromAvg p,
               ProcessedTransaction.baTransactionCount p,
               ProcessedTransaction.isSuspiciousCandidate p))
    (firstn 1 (App.processFeatures rows_constructor))
  = [(2.5%float, Js.Text "constructor" 104, false)].
Proof. vm_compute. reflexivity. Qed.

(** C2. The identifier of a processed record is the zero-based position of
    its row in the raw sequence: the row at that position is the one the
    record was built from; the position of every row that is kept is an
    identifier and the position of a row that is skipped is none; and the
    identifiers ascend, so they follow the raw order and none repeats. *)
Theorem id_is_raw_index (data : list RawTransaction.t) :
  let processed := App.processFeatures data in
  (forall p, In p processed ->
     exists row,
       0 <= ProcessedTransaction.id p
       /\ nth_error data (Z.to_nat (ProcessedTransaction.id p)) = Some row
       /\ App.keys row
          = Some (ProcessedTransaction.actCode p, ProcessedTransaction.BA p)
       /\ ProcessedTransaction.amount p = App.parseAmount row
       /\ ProcessedTransaction.monthly p = RawTransaction.monthly row)
  /\ (forall (k : nat) row, nth_error data k = Some row ->
        (App.keys row <> None <->
         In (Z.of_nat k) (List.map ProcessedTransaction.id processed)))
  /\ StronglySorted Z.lt (List.map ProcessedTransaction.id processed).
Proof.
  intros processed.
  assert (H1 : forall p, In p processed ->
     exists row,
       0 <= ProcessedTransaction.id p
       /\ nth_error data (Z.to_nat (ProcessedTransaction.id p)) = Some row
       /\ App.keys row
          = Some (ProcessedTransaction.actCode p, ProcessedTransaction.BA p)
       /\ ProcessedTransaction.amount p = App.parseAmount row
       /\ ProcessedTransaction.monthly p = RawTransaction.monthly row).
  { intros p Hp. apply processFeatures_built in Hp as (k & row & Hk & Hb).
    destruct Hb as (Hkeys & Hid & Hm & Ha & _). exists row.
    rewrite Hid, Nat2Z.id. repeat split; auto. lia. }
  split; [exact H1 |]. split.
  - intros k row Hk. split.
    + intros Hkeys. unfold processed. rewrite processFeatures_materialized.
      now apply (materialized_kept _ _ data 0 k row).
    + intros Hin Hnone. apply List.in_map_iff in Hin as (p & Hid & Hp).
      destruct (H1 p Hp) as (row' & _ & Hnth & Hkeys & _).
      rewrite Hid, Nat2Z.id, Hk in Hnth. congruence.
  - unfold processed. rewrite processFeatures_materialized.
    apply materialized_ids_ascend.
Qed.

(** The third of five rows is skipped: the identifiers keep the gap. *)
Example ids_keep_gaps :
  List.map ProcessedTransaction.id (App.processFeatures rows_example)
  = [0; 1; 3; 4].
Proof. vm_compute. reflexivity. Qed.

Lemma lookupAverage_Some (actCodeStats : ActCodeStats) (code : string)
  (s : ActCodeStat.t) :
  actCodeStats !! code = Some s ->
  App.lookupAverage actCodeStats code = Js.or_else (ActCodeStat.average s) 0.
Proof. intros H. unfold App.lookupAverage, Js.get. now rewrite H. Qed.

Lemma lookupAverage_None (actCodeStats : ActCodeStats) (code : string) :
  actCodeStats !! code = None -> App.lookupAverage actCodeStats code = 0%float.
Proof.
  intros H. unfold App.lookupAverage, Js.get. rewrite H.
  now destruct (Js.inherited code).
Qed.

(** C3. Amended: after the averages are set, every category in the
    dictionary has a positive count and [average = totalAmount / count]. In
    the second pass a category that is absent reads as the average 0, and
    one that is present as its average when that is a number other than
    zero, and as 0 when it is zero or [NaN]; the ratio of a record is 0 when
    the average read is 0 and [amount / average] otherwise, so that nothing
    is divided by zero. *)
Theorem averages_and_ratios (data : list RawTransaction.t) :
  let actCodeStats := (App.aggregates data).1 in
  (forall code s, actCodeStats !! code = Some s ->
     (0 < ActCodeStat.count s)%N
     /\ ActCodeStat.average s
        = (ActCodeStat.totalAmount s
           / Js.number_of_N (ActCodeStat.count s))%float
     /\ (Js.truthy (ActCodeStat.average s) = true ->
         App.lookupAverage actCodeStats code = ActCodeStat.average s)
     /\ (PrimFloat.is_nan (ActCodeStat.average s) = true
         \/ PrimFloat.is_zero (ActCodeStat.average s) = true ->
         App.lookupAverage actCodeStats code = 0%float))
  /\ (forall code, actCodeStats !! code = None ->
        App.lookupAverage actCodeStats code = 0%float)
  /\ Forall
       (fun p =>
          let avg :=
            App.lookupAverage actCodeStats (ProcessedTransaction.actCode p) in
          ProcessedTransaction.actCodeAvgAmount p = avg
          /\ (Js.is_zero avg = true ->
              ProcessedTransaction.deviationFromAvg p = 0%float)
          /\ (Js.is_zero avg = false ->
              ProcessedTransaction.deviationFromAvg p
              = (ProcessedTransaction.amount p / avg)%float))
       (App.processFeatures data).
Proof.
  intros actCodeStats. split; [| split].
  - intros code s Hs. rewrite (lookupAverage_Some _ _ _ Hs).
    unfold actCodeStats in Hs. rewrite category_aggregate in Hs.
    destruct (List.filter (in_category code) data) as [| r rows];
      [discriminate |].
    destruct (Js.inherited code); [discriminate |].
    injection Hs as <-. cbn [ActCodeStat.count ActCodeStat.average
                              ActCodeStat.totalAmount].
    split; [simpl length; lia |]. split; [reflexivity |].
    unfold Js.or_else, Js.truthy. split.
    + intros ->. reflexivity.
    + intros [-> | ->]; [now rewrite orb_true_r | reflexivity].
  - intros code. apply lookupAverage_None.
  - rewrite List.Forall_forall. intros p Hp.
    apply processFeatures_built in Hp as (k & row & _ & Hb).
    destruct Hb as (_ & _ & _ & _ & _ & Havg & Hdev & _).
    fold actCodeStats in Havg, Hdev. simpl. rewrite Hdev.
    split; [exact Havg |]. split; intros ->; reflexivity.
Qed.

(** The claim as it was stated: the ratio of a record is its amount divided
    by the average of its category when that average is not zero. With an
    amount of each infinity in one category the average is [NaN], which is
    not zero, and the ratio is 0, which is not [amount / NaN]. *)
Lemma ratio_of_a_nan_average :
  ~ ratio_by_entry [row "A" "X" "Infinity"; row "A" "X" "-Infinity"].
Proof.
  intros H.
  specialize
    (H (ProcessedTransaction.mk 0 "A" (Some "2024-01") "X" PrimFloat.infinity
          (Js.Count 2) 0 0 false)
       (ActCodeStat.mk PrimFloat.nan 2 PrimFloat.nan)).
  destruct H as [_ H].
  - vm_compute. left. reflexivity.
  - vm_compute. reflexivity.
  - specialize (H eq_refl). apply (f_equal PrimFloat.is_nan) in H.
    vm_compute in H. discriminate H.
Qed.

(** Two rows of 100 and 1000 in one category: the average is 550 and the
    second ratio is 1000 / 550, which flags nothing. *)
Example average_550 :
  List.map
    (fun p => (ProcessedTransaction.actCodeAvgAmount p,
               ProcessedTransaction.deviationFromAvg p,
               ProcessedTransaction.isSuspiciousCandidate p))
    (App.processFeatures [row "A" "X" "100"; row "A" "X" "1000"])
  = [(550, 100 / 550, false); (550, 1000 / 550, false)]%float.
Proof. vm_compute. reflexivity. Qed.

(** A category whose amounts are all 0 has the average 0: the ratio is 0. *)
Example average_zero :
  List.map
    (fun p => (ProcessedTransaction.actCodeAvgAmount p,
               ProcessedTransaction.deviationFromAvg p))
    (App.processFeatures [row "A" "X" "0"; row "A" "X" "abc"])
  = [(0, 0); (0, 0)]%float.
Proof. vm_compute. reflexivity. Qed.

(** Amounts of both infinities in one category: the sum and the average are
    not numbers, the average read is 0 and so are the ratios. *)
Example average_not_a_number :
  List.map
    (fun p => (ProcessedTransaction.amount p,
               ProcessedTransaction.actCodeAvgAmount p,
               ProcessedTransaction.deviationFromAvg p,
               ProcessedTransaction.isSuspiciousCandidate p))
    (App.processFeatures [row "A" "X" "Infinity"; row "A" "X" "-Infinity"])
  = [(PrimFloat.infinity, 0%float, 0%float, false);
     (PrimFloat.neg_infinity, 0%float, 0%float, false)].
Proof. vm_compute. reflexivity. Qed.

(** C10. A record survives the second pass though its category is not in
    the dictionary of categories, and though its business area has no count
    there: two rows of the category [constructor] and the business area
    [toString], with the amounts 100 and 300. The first pass finds the
    members of [Object.prototype] of these names where it looks for an
    entry: it makes no entry for the category, and it makes text of the
    count. The second pass then reads no average and falls back to 0, for
    an average that is 200, and the ratios are 0. *)
Theorem prototype_keys_are_not_aggregated :
  let data :=
    [row "toString" "constructor" "100"; row "toString" "constructor" "300"] in
  List.map
    (fun p => (ProcessedTransaction.id p, ProcessedTransaction.actCode p,
               ProcessedTransaction.BA p, ProcessedTransaction.amount p))
    (App.processFeatures data)
  = [(0, "constructor", "toString", 100%float);
     (1, "constructor", "toString", 300%float)]
  /\ (App.aggregates data).1 !! "constructor" = None
  /\ (App.aggregates data).2 !! "toString" = Some (Js.Text "toString" 2)
  /\ List.map
       (fun p => (ProcessedTransaction.actCodeAvgAmount p,
                  ProcessedTransaction.deviationFromAvg p,
                  ProcessedTransaction.baTransactionCount p))
       (App.processFeatures data)
     = [(0%float, 0%float, Js.Text "toString" 2);
        (0%float, 0%float, Js.Text "toString" 2)].
Proof. vm_compute. repeat split. Qed.

(** With keys that [Object.prototype] does not define the two rows are
    aggregated: the average is 200 and the count is 2. *)
Example plain_keys_are_aggregated :
  let data := [row "B" "C" "100"; row "B" "C" "300"] in
  (App.aggregates data).1 !! "C" = Some (ActCodeStat.mk 400 2 200)
  /\ (App.aggregates data).2 !! "B" = Some (Js.Count 2)
  /\ List.map
       (fun p => (ProcessedTransaction.actCodeAvgAmount p,
                  ProcessedTransaction.deviationFromAvg p,
                  ProcessedTransaction.baTransactionCount p))
       (App.processFeatures data)
     = [(200%float, 0.5%float, Js.Count 2);
        (200%float, 1.5%float, Js.Count 2)].
Proof. vm_compute. repeat split. Qed.

(** What every record carries: the aggregates of its keys, as the two
    dictionaries answer for them. *)
Lemma record_aggregates (data : list RawTransaction.t)
  (p : ProcessedTransaction.t) :
  In p (App.processFeatures data) ->
  let area := List.filter (in_area (ProcessedTransaction.BA p)) data in
  let category :=
    List.filter (in_category (ProcessedTransaction.actCode p)) data in
  area <> [] /\ category <> []
  /\ ProcessedTransaction.baTransactionCount p
     = frequency_of (ProcessedTransaction.BA p) (N.of_nat (length area))
  /\ ProcessedTransaction.actCodeAvgAmount p
     = if Js.inherited (ProcessedTransaction.actCode p) then 0%float
       else
         Js.or_else
           (add_amounts 0 category
            / Js.number_of_N (N.of_nat (length category))) 0.
Proof.
  intros Hp area category.
  apply processFeatures_built in Hp as (k & row & Hk & Hb).
  destruct Hb as (Hkeys & _ & _ & _ & Hcount & Havg & _).
  apply List.nth_error_In in Hk.
  assert (Ha : In row area).
  { apply List.filter_In. split; [exact Hk |].
    unfold in_area. rewrite Hkeys. apply String.eqb_refl. }
  assert (Hc : In row category).
  { apply List.filter_In. split; [exact Hk |].
    unfold in_category. rewrite Hkeys. apply String.eqb_refl. }
  assert (Hane : area <> []) by (intros E; rewrite E in Ha; contradiction).
  assert (Hcne : category <> []) by (intros E; rewrite E in Hc; contradiction).
  split; [exact Hane |]. split; [exact Hcne |]. split.
  - rewrite Hcount, (area_read data _ Hane). reflexivity.
  - rewrite Havg.
    destruct ((App.aggregates data).1 !! ProcessedTransaction.actCode p)
      as [s |] eqn:E.
    + rewrite (lookupAverage_Some _ _ _ E).
      rewrite category_aggregate in E. fold category in E.
      destruct category as [| c category']; [congruence |].
      destruct (Js.inherited (ProcessedTransaction.actCode p));
        [discriminate |].
      now injection E as <-.
    + rewrite (lookupAverage_None _ _ E).
      rewrite category_aggregate in E. fold category in E.
      destruct category as [| c category']; [congruence |].
      destruct (Js.inherited (ProcessedTransaction.actCode p));
        [reflexivity | discriminate].
Qed.

(** ** Candidate Selector *)

Lemma flagged_is_number (t : ProcessedTransaction.t) :
  flagged_by_rule t ->
  ProcessedTransaction.isSuspiciousCandidate t = true ->
  PrimFloat.is_nan (ProcessedTransaction.deviationFromAvg t) = false.
Proof.
  unfold flagged_by_rule, Js.gt. intros -> H.
  apply orb_true_iff in H as [H | H].
  - now apply ltb_not_nan in H.
  - apply andb_true_iff in H as [_ H]. now apply ltb_not_nan in H.
Qed.

Lemma filter_flagged_numbers (transactions : list ProcessedTransaction.t) :
  Forall flagged_by_rule transactions ->
  Forall
    (fun t => PrimFloat.is_nan (ProcessedTransaction.deviationFromAvg t) = false)
    (List.filter ProcessedTransaction.isSuspiciousCandidate transactions).
Proof.
  rewrite !List.Forall_forall. intros H t Ht.
  apply List.filter_In in Ht as [Hin Hf]. now apply flagged_is_number; [apply H |].
Qed.

Lemma candidates_nil (transactions : list ProcessedTransaction.t) :
  Forall (fun t => ProcessedTransaction.isSuspiciousCandidate t = false)
    transactions ->
  GeminiService.candidates transactions = [].
Proof.
  intros H. unfold GeminiService.candidates.
  replace (List.filter ProcessedTransaction.isSuspiciousCandidate transactions)
    with (@nil ProcessedTransaction.t); [reflexivity |].
  induction H as [| t r Ht _ IH]; simpl; [reflexivity |]. now rewrite Ht.
Qed.

Lemma candidates_first_30 (transactions : list ProcessedTransaction.t) :
  Forall (has_number ProcessedTransaction.deviationFromAvg)
    (List.filter ProcessedTransaction.isSuspiciousCandidate transactions) ->
  first_30_flagged transactions (GeminiService.candidates transactions).
Proof.
  intros Hnum. unfold first_30_flagged.
  set (flagged :=
         List.filter ProcessedTransaction.isSuspiciousCandidate transactions)
    in *.
  set (selected := GeminiService.candidates transactions).
  assert (Hsorted : StronglySorted
            (descending ProcessedTransaction.deviationFromAvg)
            (Js.sort GeminiService.byDeviation flagged)).
  { apply sort_sorted; [reflexivity | exact Hnum]. }
  assert (Hlen : length selected = Nat.min 30 (length flagged)).
  { unfold selected, GeminiService.candidates, Js.slice0.
    now rewrite List.length_firstn, sort_length. }
  split; [exact Hlen |]. split; [lia |]. split; [| split].
  - rewrite List.Forall_forall. intros t Ht.
    unfold selected, GeminiService.candidates in Ht.
    apply slice0_In, sort_In, List.filter_In in Ht. tauto.
  - now apply slice0_sorted.
  - exists (skipn 30 (Js.sort GeminiService.byDeviation flagged)).
    unfold selected, GeminiService.candidates, Js.slice0. fold flagged.
    rewrite List.firstn_skipn. split; [apply sort_Permutation | exact Hsorted].
Qed.

(** The candidates of what the Feature Engine builds, for any raw rows. *)
Lemma candidates_of_features (data : list RawTransaction.t) :
  first_30_flagged (App.processFeatures data)
    (GeminiService.candidates (App.processFeatures data)).
Proof.
  apply candidates_first_30, filter_flagged_numbers, processFeatures_flagged.
Qed.

(** C4. The Candidate Selector returns [min(30, number of flagged records)]
    records, never more than 30; each of them is a flagged record of the
    input; they descend by [deviationFromAvg]; and they are the first 30 of
    the flagged records in that order: with the flagged records left out
    behind them they are all the flagged records, still in descending
    order. *)
Theorem candidates_top_30 (transactions : list ProcessedTransaction.t) :
  Forall flagged_by_rule transactions ->
  let flagged :=
    List.filter ProcessedTransaction.isSuspiciousCandidate transactions in
  let selected := GeminiService.candidates transactions in
  length selected = Nat.min 30 (length flagged)
  /\ (length selected <= 30)%nat
  /\ Forall (fun t => ProcessedTransaction.isSuspiciousCandidate t = true
                      /\ In t transactions) selected
  /\ StronglySorted (descending ProcessedTransaction.deviationFromAvg) selected
  /\ exists rest,
       Permutation (selected ++ rest) flagged
       /\ StronglySorted (descending ProcessedTransaction.deviationFromAvg)
            (selected ++ rest).
Proof.
  intros Hwf. apply candidates_first_30, filter_flagged_numbers, Hwf.
Qed.

Lemma candidates_top_30_witness :
  let transactions := [sample 0 5; sample 1 1; sample 2 7] in
  Forall flagged_by_rule transactions
  /\ GeminiService.candidates transactions = [sample 2 7; sample 0 5]
  /\ length (GeminiService.candidates transactions) = 2%nat.
Proof.
  intros transactions.
  assert (H : Forall flagged_by_rule transactions)
    by (repeat constructor).
  split; [exact H |]. split; [reflexivity |].
  destruct (candidates_top_30 transactions H) as [Hlen _].
  exact Hlen.
Defined.

(** Forty flagged records with the ratios 4 to 43, in ascending order: the
    thirty with the highest ratios are selected, the highest first. *)
Example candidates_of_forty :
  List.map ProcessedTransaction.id
    (GeminiService.candidates
       (List.map (fun i => sample (Z.of_nat i) (Js.number_of_N (N.of_nat i)))
          (List.seq 4 40)))
  = List.map Z.of_nat (List.rev (List.seq 14 30)).
Proof. vm_compute. reflexivity. Qed.

(** Records with equal ratios keep the order they came in. *)
Example candidates_ties :
  List.map ProcessedTransaction.id
    (GeminiService.candidates
       [sample 0 5; sample 1 7; sample 2 5; sample 3 7; sample 4 1])
  = [1; 3; 0; 2].
Proof. vm_compute. reflexivity. Qed.

(** ** The scorer stage *)

Lemma candidates_not_nil (transactions : list ProcessedTransaction.t) :
  Exists (fun t => ProcessedTransaction.isSuspiciousCandidate t = true)
    transactions ->
  GeminiService.candidates transactions <> [].
Proof.
  intros H Hnil. apply (f_equal (@length _)) in Hnil.
  unfold GeminiService.candidates, Js.slice0 in Hnil.
  rewrite List.length_firstn, sort_length in Hnil.
  apply List.Exists_exists in H as (t & Hin & Ht).
  assert (Hf : In t (List.filter ProcessedTransaction.isSuspiciousCandidate
                       transactions)) by now apply List.filter_In.
  destruct (List.filter _ transactions); [contradiction | simpl in Hnil; lia].
Qed.

Section Scorer.

Variable API_KEY : option string.
Variable generateContent : list GeminiService.Payload -> GeminiService.Exn + option string.
Variable JSON_parse : string -> GeminiService.Exn + list AIAnalysisResult.t.

Abbreviation analyze :=
  (GeminiService.analyzeFraudWithGemini API_KEY generateContent JSON_parse).

(** C7. When no record is flagged, the scorer stage resolves with the empty
    array and does nothing else: no request to the model (the answer does not
    depend on [generateContent]), no message on the console, no rejection. *)
Theorem no_candidates_no_request (transactions : list ProcessedTransaction.t) :
  Forall (fun t => ProcessedTransaction.isSuspiciousCandidate t = false)
    transactions ->
  analyze transactions = ([], GeminiService.Resolved []).
Proof.
  intros H. unfold GeminiService.analyzeFraudWithGemini.
  now rewrite candidates_nil.
Qed.

(** C9. Without a credential the scorer stage still resolves with the empty
    array, silently, when no record is flagged: the test for candidates comes
    first. It rejects with the configuration error, after one console
    message and without a request, when some record is flagged. *)
Theorem empty_check_before_key_check (transactions : list ProcessedTransaction.t) :
  Js.truthy_str API_KEY = false ->
  (Forall (fun t => ProcessedTransaction.isSuspiciousCandidate t = false)
     transactions ->
   analyze transactions = ([], GeminiService.Resolved []))
  /\ (Exists (fun t => ProcessedTransaction.isSuspiciousCandidate t = true)
        transactions ->
      analyze transactions =
      ([GeminiService.ConsoleError
          "API_KEY is missing in environment variables."],
       GeminiService.Rejected
         (GeminiService.Error
            "API Key not found. Please configure environment variables."))).
Proof.
  intros Hkey. unfold GeminiService.analyzeFraudWithGemini. split.
  - intros H. now rewrite candidates_nil.
  - intros H. apply candidates_not_nil in H.
    destruct (GeminiService.candidates transactions); [congruence |].
    simpl. now rewrite Hkey.
Qed.

End Scorer.

Lemma no_candidates_no_request_witness :
  GeminiService.analyzeFraudWithGemini (Some "key") scorer_stub parse_stub
    [sample 0 1; sample 1 2]
  = ([], GeminiService.Resolved []).
Proof.
  apply (no_candidates_no_request (Some "key") scorer_stub parse_stub
           [sample 0 1; sample 1 2]).
  repeat constructor.
Defined.

Lemma empty_check_before_key_check_witness :
  GeminiService.analyzeFraudWithGemini None scorer_stub parse_stub
    [sample 0 1; sample 1 5]
  = ([GeminiService.ConsoleError
        "API_KEY is missing in environment variables."],
     GeminiService.Rejected
       (GeminiService.Error
          "API Key not found. Please configure environment variables.")).
Proof.
  apply (empty_check_before_key_check None scorer_stub parse_stub
           [sample 0 1; sample 1 5]).
  - reflexivity.
  - apply Exists_cons_tl, Exists_cons_hd. reflexivity.
Defined.

(** With a credential and a flagged record the request is made. *)
Example scorer_called :
  GeminiService.analyzeFraudWithGemini (Some "key") scorer_stub parse_stub
    [sample 0 1; sample 1 5]
  = ([GeminiService.GenerateContent "gemini-2.5-flash"
        [GeminiService.mkPayload 1 "A" "X" 0 1 5]],
     GeminiService.Resolved [AIAnalysisResult.mk 0 1 "outlier"]).
Proof. reflexivity. Qed.

(** ** Result Merger *)

Lemma filter_Permutation_list {A} (f : A -> bool) (l l' : list A) :
  Permutation l l' -> Permutation (List.filter f l) (List.filter f l').
Proof.
  induction 1 as [| x l l' _ IH | x y l | l l' l'' _ IH1 _ IH2]; simpl.
  - constructor.
  - destruct (f x); [now constructor | exact IH].
  - destruct (f x), (f y); try reflexivity. apply perm_swap.
  - now transitivity (List.filter f l').
Qed.

Lemma filter_length_bound {A} (f : A -> bool) (l : list A) :
  (length (List.filter f l) <= length l)%nat.
Proof. induction l as [| x r IH]; simpl; [lia |]. destruct (f x); simpl; lia. Qed.

Lemma joinOriginal_Some (processedData : list ProcessedTransaction.t)
  (res : AIAnalysisResult.t) (f : ScoredTransaction.t) :
  App.joinOriginal processedData res = Some f ->
  exists p, In p processedData
            /\ ProcessedTransaction.id p = AIAnalysisResult.id res
            /\ f = App.spread p res.
Proof.
  unfold App.joinOriginal.
  destruct (List.find _ processedData) as [p |] eqn:E; [| discriminate].
  intros [= <-]. apply List.find_some in E as [Hin Hid].
  exists p. split; [exact Hin |]. split; [lia | reflexivity].
Qed.

Lemma joinOriginal_is_Some (processedData : list ProcessedTransaction.t)
  (res : AIAnalysisResult.t) :
  match App.joinOriginal processedData res with
  | Some f =>
      processed_id processedData (AIAnalysisResult.id res) = true
      /\ ScoredTransaction.id f = AIAnalysisResult.id res
      /\ ScoredTransaction.fraudScore f = AIAnalysisResult.fraudScore res
  | None => processed_id processedData (AIAnalysisResult.id res) = false
  end.
Proof.
  unfold App.joinOriginal, processed_id.
  destruct (List.find _ processedData) as [p |] eqn:E.
  - apply List.find_some in E as [Hin Hid]. split; [| now split].
    apply List.existsb_exists. now exists p.
  - apply not_true_is_false. intros H.
    apply List.existsb_exists in H as (p & Hin & Hid).
    pose proof (List.find_none _ _ E p Hin) as Hn. simpl in Hn. congruence.
Qed.

Lemma joined_ids (processedData : list ProcessedTransaction.t)
  (l : list AIAnalysisResult.t) :
  List.map ScoredTransaction.id
    (Js.filter_non_null (List.map (App.joinOriginal processedData) l))
  = List.filter (processed_id processedData) (List.map AIAnalysisResult.id l).
Proof.
  induction l as [| r l IH]; simpl; [reflexivity |].
  pose proof (joinOriginal_is_Some processedData r) as H.
  destruct (App.joinOriginal processedData r) as [f |].
  - destruct H as (-> & Hid & _). simpl. now rewrite Hid, IH.
  - now rewrite H.
Qed.

Lemma joined_sorted (processedData : list ProcessedTransaction.t)
  (l : list AIAnalysisResult.t) :
  StronglySorted (descending AIAnalysisResult.fraudScore) l ->
  StronglySorted (descending ScoredTransaction.fraudScore)
    (Js.filter_non_null (List.map (App.joinOriginal processedData) l)).
Proof.
  induction 1 as [| r l _ IH Hr]; simpl; [constructor |].
  pose proof (joinOriginal_is_Some processedData r) as H.
  destruct (App.joinOriginal processedData r) as [f |]; [| exact IH].
  destruct H as (_ & _ & Hf). constructor; [exact IH |].
  clear IH. induction Hr as [| r' l Hr' _ IH]; simpl; [constructor |].
  pose proof (joinOriginal_is_Some processedData r') as H'.
  destruct (App.joinOriginal processedData r') as [f' |]; [| exact IH].
  destruct H' as (_ & _ & Hf'). constructor; [| exact IH].
  unfold descending in *. now rewrite Hf, Hf'.
Qed.

Lemma topRiskyTransactions_snd (st : App.State) :
  snd (App.topRiskyTransactions st)
  = Js.filter_non_null
      (List.map (App.joinOriginal (App.processedData st))
         (Js.sort App.byFraudScore (App.analysisResults st))).
Proof.
  unfold App.topRiskyTransactions.
  destruct (App.analysisResults st); reflexivity.
Qed.

Lemma topRiskyTransactions_fst (st : App.State) :
  fst (App.topRiskyTransactions st)
  = App.mkState (App.processedData st)
      (Js.sort App.byFraudScore (App.analysisResults st)).
Proof.
  unfold App.topRiskyTransactions.
  destruct st as [p [| r l]]; reflexivity.
Qed.

(** C5. Amended: the Result Merger builds each final record from a
    score result and a processed record with the same identifier; the
    identifiers it returns are those of the score results that match a
    processed record, each as often as it is among the results (once, when
    the results do not repeat an identifier), so results that match nothing
    are dropped and nothing else is; there are at most as many final records
    as results; and, when the scores are numbers, the final records descend
    by [fraudScore]. *)
Theorem merger_inner_join (st : App.State) :
  let processed := App.processedData st in
  let results := App.analysisResults st in
  let final := snd (App.topRiskyTransactions st) in
  Forall (fun f => exists p r,
            In p processed /\ In r results
            /\ ProcessedTransaction.id p = AIAnalysisResult.id r
            /\ f = App.spread p r) final
  /\ Permutation (List.map ScoredTransaction.id final)
       (List.filter (processed_id processed)
          (List.map AIAnalysisResult.id results))
  /\ (forall i, In i (List.map ScoredTransaction.id final) <->
                In i (List.map AIAnalysisResult.id results)
                /\ In i (List.map ProcessedTransaction.id processed))
  /\ (List.NoDup (List.map AIAnalysisResult.id results) ->
      List.NoDup (List.map ScoredTransaction.id final))
  /\ (length final <= length results)%nat
  /\ (Forall (has_number AIAnalysisResult.fraudScore) results ->
      StronglySorted (descending ScoredTransaction.fraudScore) final).
Proof.
  intros processed results final.
  assert (Hfinal : final = Js.filter_non_null
            (List.map (App.joinOriginal processed)
               (Js.sort App.byFraudScore results)))
    by apply topRiskyTransactions_snd.
  assert (Hperm : Permutation (List.map ScoredTransaction.id final)
            (List.filter (processed_id processed)
               (List.map AIAnalysisResult.id results))).
  { rewrite Hfinal, joined_ids.
    apply filter_Permutation_list, Permutation_map, sort_Permutation. }
  split; [| split; [exact Hperm | split; [| split; [| split]]]].
  - rewrite Hfinal. clear Hfinal Hperm.
    assert (Hsub : forall r, In r (Js.sort App.byFraudScore results) ->
                             In r results) by (intros r; apply sort_In).
    induction (Js.sort App.byFraudScore results) as [| r l IH]; simpl;
      [constructor |].
    destruct (App.joinOriginal processed r) as [f |] eqn:E.
    + constructor; [| apply IH; intros; apply Hsub; now right].
      apply joinOriginal_Some in E as (p & Hp & Hid & ->).
      exists p, r. repeat split; auto. apply Hsub. now left.
    + apply IH. intros; apply Hsub; now right.
  - intros i. split.
    + intros H. apply (Permutation_in _ Hperm) in H.
      apply List.filter_In in H as [H1 H2]. split; [exact H1 |].
      apply List.existsb_exists in H2 as (p & Hp & Hid).
      apply List.in_map_iff. exists p. split; [lia | exact Hp].
    + intros [H1 H2]. apply (Permutation_in _ (Permutation_sym Hperm)).
      apply List.filter_In. split; [exact H1 |].
      apply List.in_map_iff in H2 as (p & Hid & Hp).
      apply List.existsb_exists. exists p. split; [exact Hp | lia].
  - intros Hnd. apply (Permutation_NoDup (Permutation_sym Hperm)).
    now apply List.NoDup_filter.
  - rewrite <- (List.length_map ScoredTransaction.id).
    rewrite (Permutation_length Hperm).
    rewrite <- (List.length_map AIAnalysisResult.id results).
    apply filter_length_bound.
  - intros Hnum. rewrite Hfinal. apply joined_sorted.
    now apply sort_sorted.
Qed.

(** The claim as it was stated fails twice. A reply that scores the
    identifier 1 twice yields two final records for it, not one. And a score
    that is not a number (what the comparator makes of a score that is
    missing) leaves the final records in no descending order. *)
Lemma merger_claim_fails :
  ~ one_record_per_id
      (App.mkState [paid 0 10; paid 1 50] [scored 1 0.25; scored 1 0.75])
  /\ ~ one_record_per_id
        (App.mkState [paid 0 10; paid 1 50]
           [scored 0 PrimFloat.nan; scored 1 0.5]).
Proof.
  split.
  - intros (H & _). specialize (H 1). vm_compute in H.
    assert (E : 2%nat = 1%nat) by (apply H; [now left | now right; left]).
    discriminate E.
  - intros (_ & H & _). vm_compute in H.
    inversion H as [| a l _ Ha]; subst. inversion Ha as [| b l' Hb _]; subst.
    discriminate Hb.
Qed.

(** Results for the identifiers 3 and 7 only, out of ten processed records,
    and one for an identifier that no record has. *)
Example merger_two_of_ten :
  snd (App.topRiskyTransactions
         (App.mkState
            (List.map (fun i => paid i 10) [0; 1; 2; 3; 4; 5; 6; 7; 8; 9])
            [scored 3 0.25; scored 42 0.5; scored 7 0.75]))
  = [App.spread (paid 7 10) (scored 7 0.75);
     App.spread (paid 3 10) (scored 3 0.25)].
Proof. reflexivity. Qed.

(** A reply that scores one identifier twice yields two final records. *)
Example merger_repeated_id :
  List.map (fun f => (ScoredTransaction.id f, ScoredTransaction.fraudScore f))
    (snd (App.topRiskyTransactions
            (App.mkState [paid 0 10; paid 1 50]
               [scored 1 0.25; scored 1 0.75])))
  = [(1, 0.75%float); (1, 0.25%float)].
Proof. reflexivity. Qed.

(** No results: no final records, and nothing is sorted. *)
Example merger_no_results :
  App.topRiskyTransactions (App.mkState [paid 0 10] [])
  = (App.mkState [paid 0 10] [], []).
Proof. reflexivity. Qed.

(** ** What the stages leave behind *)

Lemma topRiskyTransactions_state (st : App.State) :
  App.processedData (fst (App.topRiskyTransactions st)) = App.processedData st
  /\ Permutation (App.analysisResults (fst (App.topRiskyTransactions st)))
       (App.analysisResults st).
Proof.
  rewrite topRiskyTransactions_fst. simpl. split; [reflexivity |].
  apply sort_Permutation.
Qed.

Lemma scatterData_state (st : App.State) :
  App.analysisResults (fst (App.scatterData st)) = App.analysisResults st
  /\ Permutation (App.processedData (fst (App.scatterData st)))
       (App.processedData st).
Proof. simpl. split; [reflexivity | apply sort_Permutation]. Qed.

(** C8. The stages after the Feature Engine do not all leave their input as
    it was: [topRiskyTransactions] sorts the array of score results itself,
    and [scatterData] sorts the array of processed records itself. Here
    both arrays come out in another order than they went in. *)
Theorem stages_reorder_their_input :
  let st :=
    App.mkState [paid 0 10; paid 1 50] [scored 0 0.25; scored 1 0.75] in
  App.analysisResults (fst (App.topRiskyTransactions st))
  = [scored 1 0.75; scored 0 0.25]
  /\ App.analysisResults (fst (App.topRiskyTransactions st))
     <> App.analysisResults st
  /\ App.processedData (fst (App.scatterData st)) = [paid 1 50; paid 0 10]
  /\ App.processedData (fst (App.scatterData st)) <> App.processedData st.
Proof.
  intros st. split; [reflexivity |]. split; [| split; [reflexivity |]].
  - intros H. vm_compute in H. discriminate H.
  - intros H. vm_compute in H. discriminate H.
Qed.

(** * Further properties *)

(** ** Feature Engine: rows and groups *)

Lemma filter_filter_implied {A} (f g : A -> bool) (l : list A) :
  (forall x, f x = true -> g x = true) ->
  List.filter f (List.filter g l) = List.filter f l.
Proof.
  intros H. induction l as [| x r IH]; simpl; [reflexivity |].
  destruct (g x) eqn:Eg; simpl.
  - now rewrite IH.
  - destruct (f x) eqn:Ef; [| exact IH]. apply H in Ef. congruence.
Qed.

Lemma in_category_kept (code : string) (row : RawTransaction.t) :
  in_category code row = true -> is_kept row = true.
Proof. unfold in_category, is_kept. now destruct (App.keys row). Qed.

Lemma in_area_kept (ba : string) (row : RawTransaction.t) :
  in_area ba row = true -> is_kept row = true.
Proof. unfold in_area, is_kept. now destruct (App.keys row). Qed.

Lemma aggregates_of_kept (data : list RawTransaction.t) :
  App.aggregates (List.filter is_kept data) = App.aggregates data.
Proof.
  apply injective_projections; apply map_eq; intros k.
  - rewrite !category_aggregate.
    now rewrite (filter_filter_implied _ _ data (in_category_kept k)).
  - rewrite !area_frequency.
    now rewrite (filter_filter_implied _ _ data (in_area_kept k)).
Qed.

Lemma materialized_of_kept (actCodeStats : ActCodeStats) (baStats : BAStats)
  (data : list RawTransaction.t) (i j : Z) :
  List.map without_id
    (materialized actCodeStats baStats i (List.filter is_kept data))
  = List.map without_id (materialized actCodeStats baStats j data).
Proof.
  revert i j. induction data as [| row rest IH]; intros i j; simpl;
    [reflexivity |].
  unfold is_kept at 1, App.materialize.
  destruct (App.keys row) as [[code ba] |] eqn:E; simpl.
  - unfold App.materialize. rewrite E. simpl. f_equal. apply IH.
  - apply IH.
Qed.

Lemma materialized_length (actCodeStats : ActCodeStats) (baStats : BAStats)
  (data : list RawTransaction.t) (index : Z) :
  length (materialized actCodeStats baStats index data)
  = length (List.filter is_kept data).
Proof.
  revert index. induction data as [| row rest IH]; intros index; simpl;
    [reflexivity |].
  unfold is_kept at 1, App.materialize.
  destruct (App.keys row) as [[code ba] |]; simpl; now rewrite IH.
Qed.

(** X1. Rows that are skipped leave no trace: without them the two
    dictionaries are the same and so are the records, but for their
    identifiers; and there is one record for each row that is kept. *)
Theorem skipped_rows_leave_no_trace (data : list RawTransaction.t) :
  let kept := List.filter is_kept data in
  App.aggregates kept = App.aggregates data
  /\ List.map without_id (App.processFeatures kept)
     = List.map without_id (App.processFeatures data)
  /\ length (App.processFeatures data) = length kept
  /\ (length (App.processFeatures data) <= length data)%nat.
Proof.
  intros kept. split; [apply aggregates_of_kept |].
  assert (Hlen : length (App.processFeatures data) = length kept)
    by (rewrite processFeatures_materialized; apply materialized_length).
  split; [| split; [exact Hlen |]].
  - rewrite !processFeatures_materialized. unfold kept.
    rewrite aggregates_of_kept. apply materialized_of_kept.
  - rewrite Hlen. apply filter_length_bound.
Qed.

(** The third of the five rows is skipped. *)
Example skipped_row_example :
  List.map without_id (App.processFeatures rows_example)
  = List.map without_id
      (App.processFeatures
         [row "A" "X" "100"; row "A" "X" "1,000"; row "B" "Y" "abc";
          row "B" "X" "10,000"]).
Proof. vm_compute. reflexivity. Qed.

(** X2. The two aggregates a record carries are those of all the kept rows
    of its group, rows after its own included, when the names of the group
    are none that [Object.prototype] defines: the count of its business area
    is the number of kept rows of that area, and the average of its category
    is the sum of their amounts, added in row order from 0, divided by their
    number, or 0 when that quotient is falsy. Under a category of such a
    name the average is 0; under a business area of such a name the count
    is not a number but text, or the member itself. *)
Theorem records_carry_group_aggregates (data : list RawTransaction.t)
  (p : ProcessedTransaction.t) :
  In p (App.processFeatures data) ->
  let area := List.filter (in_area (ProcessedTransaction.BA p)) data in
  let category :=
    List.filter (in_category (ProcessedTransaction.actCode p)) data in
  (1 <= length area)%nat /\ (1 <= length category)%nat
  /\ (Js.inherited (ProcessedTransaction.BA p) = false ->
      ProcessedTransaction.baTransactionCount p
      = Js.Count (N.of_nat (length area)))
  /\ (Js.inherited (ProcessedTransaction.BA p) = true ->
      ProcessedTransaction.baTransactionCount p
      = (if String.eqb (ProcessedTransaction.BA p) "__proto__"
         then Js.Member (ProcessedTransaction.BA p)
         else Js.Text (ProcessedTransaction.BA p) (N.of_nat (length area))))
  /\ (Js.inherited (ProcessedTransaction.actCode p) = false ->
      ProcessedTransaction.actCodeAvgAmount p
      = Js.or_else
          (add_amounts 0 category
           / Js.number_of_N (N.of_nat (length category))) 0)
  /\ (Js.inherited (ProcessedTransaction.actCode p) = true ->
      ProcessedTransaction.actCodeAvgAmount p = 0%float
      /\ ProcessedTransaction.deviationFromAvg p = 0%float
      /\ ProcessedTransaction.isSuspiciousCandidate p = false).
Proof.
  intros Hp area category.
  destruct (record_aggregates data p Hp) as (Ha & Hc & Hcount & Havg).
  fold area in Ha, Hcount. fold category in Hc, Havg.
  split; [destruct area; [congruence | simpl; lia] |].
  split; [destruct category; [congruence | simpl; lia] |].
  unfold frequency_of in Hcount.
  split; [| split; [| split]].
  - intros Hi. rewrite Hi in Hcount.
    destruct (String.eqb (ProcessedTransaction.BA p) "__proto__") eqn:Ep;
      [| exact Hcount].
    apply inherited_proto in Ep. congruence.
  - intros Hi. rewrite Hi in Hcount. exact Hcount.
  - intros Hi. now rewrite Hi in Havg.
  - intros Hi. rewrite Hi in Havg. split; [exact Havg |].
    apply processFeatures_built in Hp as (k & row & _ & Hb).
    destruct Hb as (_ & _ & _ & _ & _ & Havg' & Hdev & Hflag).
    rewrite Havg' in Havg. rewrite Havg in Hdev.
    change (Js.is_zero 0) with true in Hdev. cbv iota in Hdev.
    split; [exact Hdev |]. rewrite Hflag, Hdev.
    change (Js.gt 0 3) with false. change (Js.gt 0 2) with false.
    now rewrite andb_false_r.
Qed.

Lemma records_carry_group_aggregates_witness :
  let p :=
    ProcessedTransaction.mk 4 "B" (Some "2024-01") "X" 10000 (Js.Count 2)
      3700 (10000 / 3700) false in
  In p (App.processFeatures rows_example)
  /\ ProcessedTransaction.baTransactionCount p = Js.Count 2
  /\ ProcessedTransaction.actCodeAvgAmount p = 3700%float.
Proof.
  intros p.
  assert (Hp : In p (App.processFeatures rows_example))
    by (vm_compute; do 3 right; left; reflexivity).
  split; [exact Hp |].
  destruct (records_carry_group_aggregates rows_example p Hp)
    as (_ & _ & H1 & _ & H2 & _).
  split; [exact (H1 eq_refl) | exact (H2 eq_refl)].
Defined.

Lemma remove_commas_app (s r : string) :
  Js.remove_commas (s ++ r) = (Js.remove_commas s ++ Js.remove_commas r)%string.
Proof.
  induction s as [| c s IH]; [reflexivity |].
  rewrite append_cons. simpl. destruct (Ascii.eqb c ",").
  - exact IH.
  - now rewrite append_cons, IH.
Qed.

(** X3. A comma changes no amount, wherever it stands in the text: the
    amount of a text with a comma is the amount of the text without it. *)
Theorem commas_change_no_amount (ba monthly code : option string)
  (before after : string) :
  App.parseAmount
    (RawTransaction.mk ba monthly code (Some (before ++ "," ++ after)%string))
  = App.parseAmount
      (RawTransaction.mk ba monthly code (Some (before ++ after)%string)).
Proof.
  assert (E : Js.remove_commas (before ++ "," ++ after)
              = Js.remove_commas (before ++ after)).
  { rewrite !remove_commas_app.
    change (Js.remove_commas ("," ++ after)) with (Js.remove_commas after).
    reflexivity. }
  unfold App.parseAmount, App.amountStr.
  cbn [RawTransaction.amount].
  destruct (before ++ "," ++ after)%string as [| c r] eqn:E1.
  { destruct before; discriminate. }
  rewrite E. clear E E1.
  destruct (before ++ after)%string as [| c' r']; reflexivity.
Qed.

Example commas_anywhere :
  amount_of "1,2,3" = amount_of "123" /\ amount_of ",5" = amount_of "5"
  /\ amount_of "1,5" = 15%float.
Proof. repeat split; reflexivity. Qed.

(** ** Binary64: the order is transitive *)

Lemma SFltb_trans (x y z : spec_float) :
  SFltb x y = true -> SFltb y z = true -> SFltb x z = true.
Proof.
  unfold SFltb.
  destruct x as [sx | sx | | sx mx ex], y as [sy | sy | | sy my ey],
    z as [sz | sz | | sz mz ez]; simpl;
    try destruct sx; try destruct sy; try destruct sz; simpl; try congruence;
    change (Pos.compare_cont Eq mx my) with (Pos.compare mx my);
    change (Pos.compare_cont Eq my mz) with (Pos.compare my mz);
    change (Pos.compare_cont Eq mx mz) with (Pos.compare mx mz);
    destruct (Z.compare_spec ex ey); try congruence;
    destruct (Z.compare_spec ey ez); try congruence;
    destruct (Z.compare_spec ex ez); try congruence; try lia;
    destruct (Pos.compare_spec mx my); simpl; try congruence;
    destruct (Pos.compare_spec my mz); simpl; try congruence;
    destruct (Pos.compare_spec mx mz); simpl; try congruence; lia.
Qed.

Lemma ltb_trans (x y z : float) :
  PrimFloat.ltb x y = true -> PrimFloat.ltb y z = true ->
  PrimFloat.ltb x z = true.
Proof. rewrite !FloatAxioms.ltb_spec. apply SFltb_trans. Qed.

(** ** The scorer service: requests and rejections *)

Lemma flagged_above_two (t : ProcessedTransaction.t) :
  flagged_by_rule t ->
  ProcessedTransaction.isSuspiciousCandidate t = true ->
  Js.gt (ProcessedTransaction.deviationFromAvg t) 2 = true.
Proof.
  unfold flagged_by_rule, Js.gt. intros -> H.
  apply orb_true_iff in H as [H | H].
  - now apply (ltb_trans 2 3).
  - now apply andb_true_iff in H.
Qed.

Lemma payload_sorted (l : list ProcessedTransaction.t) :
  StronglySorted (descending ProcessedTransaction.deviationFromAvg) l ->
  StronglySorted (descending GeminiService.deviationRatio)
    (List.map GeminiService.toPayload l).
Proof.
  induction 1 as [| a l _ IH Ha]; simpl; constructor; [exact IH |].
  apply List.Forall_map. exact Ha.
Qed.

Section ScorerTrace.

Variable API_KEY : option string.
Variable generateContent
  : list GeminiService.Payload -> GeminiService.Exn + option string.
Variable JSON_parse : string -> GeminiService.Exn + list AIAnalysisResult.t.

Abbreviation analyze :=
  (GeminiService.analyzeFraudWithGemini API_KEY generateContent JSON_parse).

(** The shapes a run of the service can take. *)
Lemma analyze_cases (transactions : list ProcessedTransaction.t) :
  let input :=
    List.map GeminiService.toPayload (GeminiService.candidates transactions) in
  let call := GeminiService.GenerateContent "gemini-2.5-flash" input in
  let log := GeminiService.ConsoleError "Gemini API Error:" in
  (GeminiService.candidates transactions = []
   /\ analyze transactions = ([], GeminiService.Resolved []))
  \/ (GeminiService.candidates transactions <> []
      /\ Js.truthy_str API_KEY = false
      /\ analyze transactions
         = ([GeminiService.ConsoleError
               "API_KEY is missing in environment variables."],
            GeminiService.Rejected
              (GeminiService.Error
                 "API Key not found. Please configure environment variables.")))
  \/ (GeminiService.candidates transactions <> []
      /\ Js.truthy_str API_KEY = true
      /\ ((exists e, generateContent input = inl e
                     /\ analyze transactions
                        = ([call; log], GeminiService.Rejected e))
          \/ (exists text e, generateContent input = inr (Some text)
                             /\ JSON_parse text = inl e
                             /\ analyze transactions
                                = ([call; log], GeminiService.Rejected e))
          \/ (exists text results,
                generateContent input = inr (Some text)
                /\ JSON_parse text = inr results
                /\ analyze transactions
                   = ([call], GeminiService.Resolved results))
          \/ analyze transactions = ([call], GeminiService.Resolved []))).
Proof.
  intros input call log. unfold GeminiService.analyzeFraudWithGemini.
  fold input. fold call.
  destruct (GeminiService.candidates transactions) as [| c cs] eqn:Ec.
  { left. split; reflexivity. }
  right. simpl length. simpl Nat.eqb. cbv iota.
  destruct (Js.truthy_str API_KEY) eqn:Ek; simpl negb; cbv iota.
  2: { left. repeat split; congruence. }
  right. split; [congruence |]. split; [reflexivity |].
  destruct (generateContent input) as [e | text] eqn:Eg.
  { left. now exists e. }
  right. destruct text as [[| a text] |]; simpl Js.truthy_str; cbv iota.
  - right. right. reflexivity.
  - simpl default. destruct (JSON_parse (String a text)) as [e | results] eqn:Ej.
    + left. exists (String a text), e. now rewrite Ej.
    + right. left. exists (String a text), results. now rewrite Ej.
  - right. right. reflexivity.
Qed.

(** X4. A run of the scorer service makes at most one request; it rejects
    exactly when it has written to the console, which it then did once; and
    what it resolves with is the empty array or the parsed reply of the
    model as it came, unchecked. *)
Theorem one_request_and_no_silent_rejection
  (transactions : list ProcessedTransaction.t) :
  let trace := fst (analyze transactions) in
  let outcome := snd (analyze transactions) in
  (length (List.filter is_request trace) <= 1)%nat
  /\ ((exists e, outcome = GeminiService.Rejected e) <->
      length (List.filter (fun e => negb (is_request e)) trace) = 1%nat)
  /\ ((exists results, outcome = GeminiService.Resolved results) <->
      List.filter (fun e => negb (is_request e)) trace = [])
  /\ (forall results, outcome = GeminiService.Resolved results ->
        results = []
        \/ exists text,
             generateContent
               (List.map GeminiService.toPayload
                  (GeminiService.candidates transactions))
             = inr (Some text)
             /\ JSON_parse text = inr results).
Proof.
  intros trace outcome. unfold trace, outcome.
  destruct (analyze_cases transactions)
    as [[_ H] | [(_ & _ & H) | (_ & _ & [(e & _ & H) | [(t & e & _ & _ & H)
        | [(t & r & Hg & Hj & H) | H]]])]];
    rewrite H; simpl; (split; [lia |]); (split; [| split]);
    try (split; [intros [e' He']; try discriminate; reflexivity
                | intros He'; try discriminate; eauto]);
    try (intros results [= <-]; eauto).
Qed.

End ScorerTrace.

(** ** The memos: order, repetition and what the chart shows *)

Lemma find_by_id (l : list ProcessedTransaction.t)
  (p : ProcessedTransaction.t) :
  List.NoDup (List.map ProcessedTransaction.id l) -> In p l ->
  List.find (fun q => ProcessedTransaction.id q =? ProcessedTransaction.id p) l
  = Some p.
Proof.
  induction l as [| q l IH]; intros Hnd Hin; [contradiction |].
  simpl in *. inversion Hnd as [| ? ? Hq Hnd']; subst.
  destruct Hin as [-> | Hin].
  - now rewrite Z.eqb_refl.
  - destruct (Z.eqb_spec (ProcessedTransaction.id q) (ProcessedTransaction.id p))
      as [E | _]; [| now apply IH].
    exfalso. apply Hq. rewrite E. now apply List.in_map.
Qed.

Lemma joinOriginal_Permutation (l l' : list ProcessedTransaction.t)
  (res : AIAnalysisResult.t) :
  List.NoDup (List.map ProcessedTransaction.id l) -> Permutation l l' ->
  App.joinOriginal l' res = App.joinOriginal l res.
Proof.
  intros Hnd Hp.
  assert (Hnd' : List.NoDup (List.map ProcessedTransaction.id l'))
    by (eapply Permutation_NoDup; [apply Permutation_map, Hp | exact Hnd]).
  unfold App.joinOriginal.
  destruct (List.find _ l) as [p |] eqn:E.
  - apply List.find_some in E as [Hin Hid]. apply Z.eqb_eq in Hid.
    rewrite <- Hid. rewrite (find_by_id l' p Hnd'); [reflexivity |].
    now apply (Permutation_in _ Hp).
  - destruct (List.find _ l') as [p' |] eqn:E'; [| reflexivity].
    apply List.find_some in E' as [Hin Hid].
    apply (Permutation_in _ (Permutation_sym Hp)) in Hin.
    pose proof (List.find_none _ _ E p' Hin) as Hn. simpl in Hn. congruence.
Qed.

(** X6. When no two processed records share an identifier, what
    [topRiskyTransactions] returns does not depend on the order of the
    processed records: sorting them in place, as [scatterData] does, changes
    no row of the table. *)
Theorem merger_ignores_record_order
  (processedData processedData' : list ProcessedTransaction.t)
  (analysisResults : list AIAnalysisResult.t) :
  List.NoDup (List.map ProcessedTransaction.id processedData) ->
  Permutation processedData processedData' ->
  snd (App.topRiskyTransactions (App.mkState processedData' analysisResults))
  = snd (App.topRiskyTransactions (App.mkState processedData analysisResults))
  /\ snd (App.topRiskyTransactions
            (fst (App.scatterData
                    (App.mkState processedData analysisResults))))
     = snd (App.topRiskyTransactions
              (App.mkState processedData analysisResults)).
Proof.
  intros Hnd Hp.
  assert (H : forall l', Permutation processedData l' ->
            snd (App.topRiskyTransactions (App.mkState l' analysisResults))
            = snd (App.topRiskyTransactions
                     (App.mkState processedData analysisResults))).
  { intros l' Hl'. rewrite !topRiskyTransactions_snd. simpl. f_equal.
    apply List.map_ext. intros r. now apply joinOriginal_Permutation. }
  split; [now apply H |].
  simpl. apply H. symmetry. apply sort_Permutation.
Qed.

Lemma processFeatures_ids_NoDup (data : list RawTransaction.t) :
  List.NoDup (List.map ProcessedTransaction.id (App.processFeatures data)).
Proof.
  rewrite processFeatures_materialized.
  destruct (materialized_ids_ascend (App.aggregates data).1
              (App.aggregates data).2 data 0) as [Hs _].
  induction Hs as [| i l _ IH Hi]; constructor; [| exact IH].
  intros Hin. rewrite List.Forall_forall in Hi. specialize (Hi i Hin). lia.
Qed.

Lemma merger_ignores_record_order_witness :
  let processedData := App.processFeatures rows_example in
  let analysisResults := [scored 4 0.25; scored 0 0.75] in
  List.NoDup (List.map ProcessedTransaction.id processedData)
  /\ snd (App.topRiskyTransactions
            (fst (App.scatterData
                    (App.mkState processedData analysisResults))))
     = snd (App.topRiskyTransactions
              (App.mkState processedData analysisResults)).
Proof.
  intros processedData analysisResults.
  assert (Hnd : List.NoDup (List.map ProcessedTransaction.id processedData))
    by apply processFeatures_ids_NoDup.
  split; [exact Hnd |].
  exact (proj2 (merger_ignores_record_order processedData processedData
                  analysisResults Hnd (Permutation_refl _))).
Defined.

Lemma sort_twice {A} (comparefn : A -> A -> float) (key : A -> float)
  (l : list A) :
  (forall a b, comparefn a b = (key b - key a)%float) ->
  Forall (has_number key) l ->
  Js.sort comparefn (Js.sort comparefn l) = Js.sort comparefn l.
Proof.
  intros Hk Hn. apply (sort_descending_id comparefn key Hk).
  - now apply sort_Forall.
  - now apply sort_sorted.
Qed.

Lemma processFeatures_amounts (data : list RawTransaction.t) :
  Forall (has_number ProcessedTransaction.amount) (App.processFeatures data).
Proof.
  rewrite List.Forall_forall. intros p Hp.
  apply processFeatures_built in Hp as (k & row & _ & Hb).
  destruct Hb as (_ & _ & _ & Ha & _). unfold has_number. rewrite Ha.
  apply or_else_number.
Qed.

(** X7. [scatterData] shows [min(500, n)] points, in descending order of
    the amount, when the amounts are numbers (those of the Feature Engine
    always are): they are the points of the first 500 records of that order,
    so that no record left out has a higher amount than one shown. *)
Theorem scatter_top_500 (st : App.State) :
  Forall (has_number ProcessedTransaction.amount) (App.processedData st) ->
  let points := snd (App.scatterData st) in
  length points = Nat.min 500 (length (App.processedData st))
  /\ StronglySorted (descending App.y) points
  /\ exists shown rest,
       points = List.map App.toPoint shown
       /\ Permutation (shown ++ rest) (App.processedData st)
       /\ StronglySorted (descending ProcessedTransaction.amount)
            (shown ++ rest).
Proof.
  intros Hn points.
  assert (Hs : StronglySorted (descending ProcessedTransaction.amount)
            (Js.sort App.byAmount (App.processedData st)))
    by (apply sort_sorted; [reflexivity | exact Hn]).
  split; [| split].
  - unfold points, App.scatterData, Js.slice0. cbn [snd].
    now rewrite List.length_map, List.length_firstn, sort_length.
  - unfold points, App.scatterData. cbn [snd].
    apply (slice0_sorted _ 500) in Hs.
    induction Hs as [| a l _ IH Ha]; simpl; constructor; [exact IH |].
    apply List.Forall_map. exact Ha.
  - exists (Js.slice0 500 (Js.sort App.byAmount (App.processedData st))),
      (skipn 500 (Js.sort App.byAmount (App.processedData st))).
    split; [reflexivity |]. unfold Js.slice0. rewrite List.firstn_skipn.
    split; [apply sort_Permutation | exact Hs].
Qed.

Lemma scatter_top_500_witness :
  let st := App.mkState (App.processFeatures rows_example) [] in
  Forall (has_number ProcessedTransaction.amount) (App.processedData st)
  /\ List.map App.y (snd (App.scatterData st)) = [10000; 1000; 100; 0]%float.
Proof.
  intros st.
  assert (Hn : Forall (has_number ProcessedTransaction.amount)
                 (App.processedData st)) by apply processFeatures_amounts.
  split; [exact Hn |].
  destruct (scatter_top_500 st Hn) as (_ & _ & shown & rest & Hp & _).
  vm_compute. reflexivity.
Defined.

(** What one render does, written out. *)
Lemma render_unfold (ui : Component.t) :
  let sortedResults :=
    Js.sort App.byFraudScore (Component.analysisResults ui) in
  let sortedData := Js.sort App.byAmount (Component.processedData ui) in
  fst (Component.render ui)
  = Component.setProcessedData sortedData
      (Component.setAnalysisResults sortedResults ui)
  /\ Component.table (snd (Component.render ui))
     = (if (0 <? length sortedResults)%nat
        then Some (List.map
                     (fun item =>
                        (item,
                         Component.scoreColor (ScoredTransaction.fraudScore item)))
                     (Js.filter_non_null
                        (List.map
                           (App.joinOriginal (Component.processedData ui))
                           sortedResults)))
        else None)
  /\ Component.chart (snd (Component.render ui))
     = (if (0 <? length sortedData)%nat
        then Some (List.map App.toPoint (Js.slice0 500 sortedData))
        else None)
  /\ Component.highRisk (snd (Component.render ui))
     = Component.confirmedHighRisk sortedResults
  /\ Component.suspicious (snd (Component.render ui))
     = Component.suspiciousCandidates sortedData.
Proof.
  intros sortedResults sortedData. unfold Component.render.
  pose proof (topRiskyTransactions_fst
                (App.mkState (Component.processedData ui)
                   (Component.analysisResults ui))) as Hf.
  pose proof (topRiskyTransactions_snd
                (App.mkState (Component.processedData ui)
                   (Component.analysisResults ui))) as Hs.
  destruct (App.topRiskyTransactions _) as [st top]. simpl in Hf, Hs.
  subst st top. simpl. repeat split; reflexivity.
Qed.

(** X8. A second render changes nothing: when no two processed records
    share an identifier and the amounts and the scores are numbers, the
    state and the view after two renders are those after one. The two
    in-place sorts act once. *)
Theorem render_twice (ui : Component.t) :
  List.NoDup (List.map ProcessedTransaction.id (Component.processedData ui)) ->
  Forall (has_number ProcessedTransaction.amount)
    (Component.processedData ui) ->
  Forall (has_number AIAnalysisResult.fraudScore)
    (Component.analysisResults ui) ->
  Component.render (fst (Component.render ui)) = Component.render ui.
Proof.
  intros Hnd Ha Hs.
  assert (E1 : Js.sort App.byFraudScore
                 (Js.sort App.byFraudScore (Component.analysisResults ui))
               = Js.sort App.byFraudScore (Component.analysisResults ui))
    by (apply (sort_twice _ AIAnalysisResult.fraudScore); auto).
  assert (E2 : Js.sort App.byAmount
                 (Js.sort App.byAmount (Component.processedData ui))
               = Js.sort App.byAmount (Component.processedData ui))
    by (apply (sort_twice _ ProcessedTransaction.amount); auto).
  assert (E3 : forall l,
            List.map
              (App.joinOriginal
                 (Js.sort App.byAmount (Component.processedData ui))) l
            = List.map (App.joinOriginal (Component.processedData ui)) l).
  { intros l. apply List.map_ext. intros r.
    apply joinOriginal_Permutation; [exact Hnd |].
    symmetry. apply sort_Permutation. }
  unfold Component.render.
  pose proof (topRiskyTransactions_fst
                (App.mkState (Component.processedData ui)
                   (Component.analysisResults ui))) as Hf.
  pose proof (topRiskyTransactions_snd
                (App.mkState (Component.processedData ui)
                   (Component.analysisResults ui))) as Ht.
  destruct (App.topRiskyTransactions
              (App.mkState (Component.processedData ui)
                 (Component.analysisResults ui))) as [st top].
  simpl in Hf, Ht. subst st top. simpl.
  pose proof (topRiskyTransactions_fst
                (App.mkState
                   (Js.sort App.byAmount (Component.processedData ui))
                   (Js.sort App.byFraudScore (Component.analysisResults ui))))
    as Hf'.
  pose proof (topRiskyTransactions_snd
                (App.mkState
                   (Js.sort App.byAmount (Component.processedData ui))
                   (Js.sort App.byFraudScore (Component.analysisResults ui))))
    as Ht'.
  destruct (App.topRiskyTransactions
              (App.mkState
                 (Js.sort App.byAmount (Component.processedData ui))
                 (Js.sort App.byFraudScore (Component.analysisResults ui))))
    as [st' top'].
  simpl in Hf', Ht'. subst st' top'. simpl.
  rewrite E1, E2, E3. reflexivity.
Qed.

#[warnings="-inexact-float"]
Lemma red_is_high_risk (s : float) :
  is_red (Component.scoreColor s) = true -> Js.gt s 0.7 = true.
Proof.
  unfold Component.scoreColor, Js.or_else.
  destruct (Js.truthy s).
  - destruct (Js.gt s _) eqn:E.
    + intros _. unfold Js.gt in *.
      eapply ltb_trans; [| exact E]. reflexivity.
    + intros H.
      match type of H with
      | context [if ?c then _ else _] => destruct c
      end; discriminate.
  - discriminate.
Qed.

#[warnings="-inexact-float"]
Lemma red_joined_bound (processedData : list ProcessedTransaction.t)
  (l : list AIAnalysisResult.t) :
  (length
     (List.filter
        (fun f => is_red (Component.scoreColor (ScoredTransaction.fraudScore f)))
        (Js.filter_non_null (List.map (App.joinOriginal processedData) l)))
   <= length
        (List.filter (fun r => Js.gt (AIAnalysisResult.fraudScore r) 0.7) l))%nat.
Proof.
  induction l as [| r l IH]; simpl; [lia |].
  pose proof (joinOriginal_is_Some processedData r) as H.
  destruct (App.joinOriginal processedData r) as [f |].
  - destruct H as (_ & _ & Hf). simpl. rewrite Hf.
    destruct (is_red (Component.scoreColor (AIAnalysisResult.fraudScore r)))
      eqn:E.
    + rewrite (red_is_high_risk _ E). simpl. lia.
    + destruct (Js.gt (AIAnalysisResult.fraudScore r) _); simpl; lia.
  - destruct (Js.gt (AIAnalysisResult.fraudScore r) _); simpl; lia.
Qed.

(** X9. Every red row of the table is counted as confirmed high risk: in
    any view the number of red rows is at most the number shown under
    "Confirmed High Risk". *)
Theorem red_rows_are_counted (ui : Component.t) :
  (red_rows (snd (Component.render ui))
   <= Component.highRisk (snd (Component.render ui)))%nat.
Proof.
  destruct (render_unfold ui) as (_ & Ht & _ & Hh & _).
  unfold red_rows. rewrite Ht, Hh. unfold Component.confirmedHighRisk.
  destruct (0 <? length _)%nat; [| lia].
  set (top := Js.filter_non_null _).
  replace (length (List.filter (fun r => is_red (snd r)) (List.map _ top)))
    with (length
            (List.filter
               (fun f =>
                  is_red (Component.scoreColor (ScoredTransaction.fraudScore f)))
               top)).
  - apply red_joined_bound.
  - clear. induction top as [| f top IH]; simpl; [reflexivity |].
    destruct (is_red _); simpl; now rewrite IH.
Qed.

(** ** The persistence service *)

(** X10. The constant [supabase] is [null] exactly when no URL or no key is
    found, as a non-empty string, in [process.env] or else in
    [import.meta.env]. When both are found, the value of [process.env]
    where that one is set, and possibly each from another place,
    [createClient] is called with the two, once: [supabase] is the client it
    returns, and when it throws the module does not load. *)
Theorem client_needs_url_and_key
  (createClient
    : string -> string -> GeminiService.Exn + SupabaseService.Client)
  (process_env : SupabaseService.Vars)
  (import_meta_env : option SupabaseService.Vars) :
  let url1 := SupabaseService.VITE_SUPABASE_URL process_env in
  let url2 := meta_var SupabaseService.VITE_SUPABASE_URL import_meta_env in
  let key1 := SupabaseService.VITE_SUPABASE_ANON_KEY process_env in
  let key2 := meta_var SupabaseService.VITE_SUPABASE_ANON_KEY import_meta_env in
  let loaded :=
    SupabaseService.supabase createClient process_env import_meta_env in
  (loaded = inr None <->
   (Js.truthy_str url1 = false /\ Js.truthy_str url2 = false)
   \/ (Js.truthy_str key1 = false /\ Js.truthy_str key2 = false))
  /\ (forall url key,
        (if Js.truthy_str url1 then url1 else url2) = Some url ->
        (if Js.truthy_str key1 then key1 else key2) = Some key ->
        url <> EmptyString -> key <> EmptyString ->
        loaded
        = match createClient url key with
          | inl e => inl e
          | inr client => inr (Some client)
          end).
Proof.
  intros url1 url2 key1 key2 loaded. unfold loaded.
  unfold SupabaseService.supabase, SupabaseService.supabaseUrl,
    SupabaseService.supabaseKey, SupabaseService.or_str.
  fold url1 key1. fold (meta_var SupabaseService.VITE_SUPABASE_URL import_meta_env).
  fold (meta_var SupabaseService.VITE_SUPABASE_ANON_KEY import_meta_env).
  fold url2 key2. clearbody url1 url2 key1 key2.
  assert (Hc : forall u k,
            match createClient u k with
            | inl e => inl e
            | inr client => inr (Some client)
            end <> inr (@None SupabaseService.Client)).
  { intros u k. destruct (createClient u k); discriminate. }
  destruct url1 as [[| a u1] |], url2 as [[| b u2] |],
    key1 as [[| c k1] |], key2 as [[| d k2] |]; simpl;
    (split; [split; [intros H; try (now apply Hc in H); tauto
                    | intros [[H1 H2] | [H1 H2]]; try discriminate; reflexivity]
            | intros url key Hu Hk Hune Hkne; try discriminate;
              try (injection Hu as <-); try (injection Hk as <-);
              try congruence; reflexivity]).
Qed.

Section SaveTrace.

Variable supabase : option SupabaseService.Client.
Variable insert
  : SupabaseService.Client -> string -> list SupabaseService.Row ->
    SupabaseService.Reply.

Abbreviation save :=
  (SupabaseService.saveFraudAnalysisResults supabase insert).

Lemma toRow_row_of (transactions : list ScoredTransaction.t) :
  Forall2 row_of transactions (List.map SupabaseService.toRow transactions).
Proof.
  induction transactions as [| t l IH]; simpl; constructor; [| exact IH].
  repeat split.
Qed.

(** X11. Saving writes all the records or nothing: without a client there
    is no insertion and the call rejects; with one there is exactly one
    insertion, into [fraud_detections], of one row for each record, in the
    order of the records, each holding the fields of its record, the reason
    of the score and the mark [is_flagged]. The call rejects exactly when
    there is no client or the table answers with an error. *)
Theorem save_writes_all_or_nothing (transactions : list ScoredTransaction.t) :
  let trace := fst (save transactions) in
  let outcome := snd (save transactions) in
  length (List.filter is_insert trace)
  = match supabase with Some _ => 1%nat | None => 0%nat end
  /\ (forall client table rows,
        In (SupabaseService.Insert client table rows) trace ->
        supabase = Some client /\ table = "fraud_detections"
        /\ Forall2 row_of transactions rows)
  /\ ((exists e, outcome = GeminiService.Rejected e) <->
      supabase = None
      \/ exists client e,
           supabase = Some client
           /\ SupabaseService.error
                (insert client "fraud_detections"
                   (List.map SupabaseService.toRow transactions))
              = Some e)
  /\ (forall client,
        supabase = Some client ->
        SupabaseService.error
          (insert client "fraud_detections"
             (List.map SupabaseService.toRow transactions)) = None ->
        outcome
        = GeminiService.Resolved
            (SupabaseService.data
               (insert client "fraud_detections"
                  (List.map SupabaseService.toRow transactions)))).
Proof.
  intros trace outcome. unfold trace, outcome,
    SupabaseService.saveFraudAnalysisResults.
  destruct supabase as [client |].
  - cbv zeta.
    destruct (SupabaseService.error
                (insert client "fraud_detections"
                   (List.map SupabaseService.toRow transactions)))
      as [e |] eqn:E; simpl.
    + split; [reflexivity |]. split; [| split].
      * intros c t r [H | [H | []]]; [| discriminate].
        inversion H; subst. repeat split. apply toRow_row_of.
      * split; [intros _; right; now exists client, e | intros _; now exists e].
      * intros c [= <-] H. congruence.
    + split; [reflexivity |]. split; [| split].
      * intros c t r [H | []].
        inversion H; subst. repeat split. apply toRow_row_of.
      * split; [intros [e H]; discriminate |].
        intros [H | (c & e & H & He)]; [discriminate |]. congruence.
      * intros c [= <-] _. reflexivity.
  - simpl. split; [reflexivity |]. split; [| split].
    + intros c t r [].
    + split; [intros _; now left | intros _; eexists; reflexivity].
    + intros c H. discriminate.
Qed.

End SaveTrace.

(** ** The handlers *)

Lemma processFeatures_nil_iff (data : list RawTransaction.t) :
  App.processFeatures data = [] <-> Forall (fun r => is_kept r = false) data.
Proof.
  rewrite <- List.length_zero_iff_nil, processFeatures_materialized,
    materialized_length.
  rewrite List.length_zero_iff_nil. induction data as [| r l IH]; simpl.
  - split; [constructor | reflexivity].
  - destruct (is_kept r) eqn:E.
    + split; [discriminate | intros H; inversion H; congruence].
    + rewrite IH. split; [now constructor | intros H; now inversion H].
Qed.

(** X12. Choosing a file discards what the last file gave, whatever the
    parser reports: afterwards there are no results, the save status is
    idle and nothing is processing. The error cell is empty exactly when
    the parser reported one row or more; then the records are those of the
    Feature Engine for these rows, and they are none, with no message, when
    every row lacks a key. Without a file nothing changes. *)
Theorem upload_replaces_everything {File : Type}
  (parse : File -> Component.ParseResult) (ui : Component.t) :
  Component.handleFileUpload parse None ui = ui
  /\ forall file,
       let ui' := Component.handleFileUpload parse (Some file) ui in
       Component.analysisResults ui' = []
       /\ Component.saveStatus ui' = SaveStatus.idle
       /\ Component.isProcessing ui' = false
       /\ Component.isAnalyzing ui' = Component.isAnalyzing ui
       /\ Component.isSaving ui' = Component.isSaving ui
       /\ (Component.error ui' = None <->
           exists row rest,
             parse file = Component.Complete (Some (row :: rest)))
       /\ (forall data,
             parse file = Component.Complete (Some data) -> data <> [] ->
             Component.rawData ui' = data
             /\ Component.processedData ui' = App.processFeatures data
             /\ (Component.processedData ui' = [] <->
                 Forall (fun r => is_kept r = false) data))
       /\ (Component.error ui' <> None ->
           Component.processedData ui' = []
           /\ Component.rawData ui' = Component.rawData ui).
Proof.
  split; [reflexivity |]. intros file ui'. unfold ui'.
  unfold Component.handleFileUpload, Component.uploadDone.
  destruct (parse file) as [[[| row rest] |] | message]; simpl.
  all: repeat (split; [reflexivity |]).
  - split; [split; [discriminate | intros (r & l & H); discriminate] |].
    split; [intros data [= <-] H; congruence | intros _; split; reflexivity].
  - split; [split; [intros _; eauto | reflexivity] |].
    split; [| intros H; congruence].
    intros data [= <-] _. repeat split.
    + apply processFeatures_nil_iff.
    + apply processFeatures_nil_iff.
  - split; [split; [discriminate | intros (r & l & H); discriminate] |].
    split; [intros data H; discriminate | intros _; split; reflexivity].
  - split; [split; [discriminate | intros (r & l & H); discriminate] |].
    split; [intros data H; discriminate | intros _; split; reflexivity].
Qed.

Section Handlers.

Variable API_KEY : option string.
Variable generateContent
  : list GeminiService.Payload -> GeminiService.Exn + option string.
Variable JSON_parse
  : string -> GeminiService.Exn + list AIAnalysisResult.t.
Variable supabase : option SupabaseService.Client.
Variable insert
  : SupabaseService.Client -> string -> list SupabaseService.Row ->
    SupabaseService.Reply.

Abbreviation run :=
  (Component.runAIAnalysis API_KEY generateContent JSON_parse).
Abbreviation analyzed :=
  (GeminiService.analyzeFraudWithGemini API_KEY generateContent JSON_parse).
Abbreviation saveHandler := (Component.handleSaveToDatabase supabase insert).


(** X14. Saving never touches the rows, the records or the results. With no
    row in the table (no result matches a record) it does nothing, though
    the button may be shown. Otherwise it leaves the component not saving;
    the save status is success exactly when the service resolved, and then
    the error cell is as it was; when the service rejects, the status is
    error, the error is logged and a message is shown. *)
Theorem save_handler_outcome (ui : Component.t) :
  let top := Component.topRiskyTransactions ui in
  let ui' := snd (saveHandler ui) in
  let effects := fst (saveHandler ui) in
  let saved := SupabaseService.saveFraudAnalysisResults supabase insert top in
  Component.rawData ui' = Component.rawData ui
  /\ Component.processedData ui' = Component.processedData ui
  /\ Component.analysisResults ui' = Component.analysisResults ui
  /\ Component.isAnalyzing ui' = Component.isAnalyzing ui
  /\ (Forall
        (fun r => processed_id (Component.processedData ui)
                    (AIAnalysisResult.id r) = false)
        (Component.analysisResults ui) -> top = [])
  /\ (top = [] -> effects = [] /\ ui' = ui)
  /\ (top <> [] ->
      Component.isSaving ui' = false
      /\ effects
         = List.map Component.Supabase (fst saved)
           ++ match snd saved with
              | GeminiService.Rejected e => [Component.ConsoleError e]
              | GeminiService.Resolved _ => []
              end
      /\ match snd saved with
         | GeminiService.Resolved _ =>
             Component.saveStatus ui' = SaveStatus.success
             /\ Component.error ui' = Component.error ui
         | GeminiService.Rejected _ =>
             Component.saveStatus ui' = SaveStatus.error
             /\ Component.error ui' = Some Component.supabaseMessage
         end).
Proof.
  intros top ui' effects saved.
  assert (Hnone : Forall
            (fun r => processed_id (Component.processedData ui)
                        (AIAnalysisResult.id r) = false)
            (Component.analysisResults ui) -> top = []).
  { intros H. unfold top, Component.topRiskyTransactions.
    rewrite topRiskyTransactions_snd. simpl.
    apply (sort_Forall App.byFraudScore) in H.
    induction H as [| r l Hr _ IH]; simpl; [reflexivity |].
    pose proof (joinOriginal_is_Some (Component.processedData ui) r) as Hj.
    destruct (App.joinOriginal (Component.processedData ui) r);
      [destruct Hj; congruence | exact IH]. }
  unfold ui', effects, Component.handleSaveToDatabase. fold top. fold saved.
  destruct top as [| t l] eqn:Et.
  { simpl. repeat split; auto; congruence. }
  simpl length. simpl Nat.eqb. cbv iota.
  destruct saved as [events [d | e]]; simpl.
  all: repeat (split; [reflexivity |]).
  all: split; [exact Hnone |].
  all: split; [discriminate |].
  all: intros _; repeat split.
  symmetry. apply List.app_nil_r.
Qed.

End Handlers.

Lemma render_twice_witness :
  let ui :=
    Component.mk rows_example (App.processFeatures rows_example) false false
      false SaveStatus.idle None [scored 4 0.25; scored 0 0.75] in
  Forall (has_number AIAnalysisResult.fraudScore)
    (Component.analysisResults ui)
  /\ Component.render (fst (Component.render ui)) = Component.render ui.
Proof.
  intros ui.
  assert (Hs : Forall (has_number AIAnalysisResult.fraudScore)
                 (Component.analysisResults ui))
    by (repeat constructor).
  split; [exact Hs |].
  apply (render_twice ui); [| | exact Hs].
  - apply processFeatures_ids_NoDup.
  - apply processFeatures_amounts.
Defined.

(** ** The handlers together *)

Lemma filter_non_null_length {A B} (f : A -> option B) (l : list A) :
  (length (Js.filter_non_null (List.map f l)) <= length l)%nat.
Proof.
  induction l as [| x r IH]; simpl; [lia |]. destruct (f x); simpl; lia.
Qed.

Lemma toRow_sorted (l : list ScoredTransaction.t) :
  StronglySorted (descending ScoredTransaction.fraudScore) l ->
  StronglySorted (descending SupabaseService.fraud_score)
    (List.map SupabaseService.toRow l).
Proof.
  induction 1 as [| t l _ IH Ht]; simpl; constructor; [exact IH |].
  clear IH. induction Ht as [| t' l Ht' _ IH]; simpl; constructor; auto.
Qed.

Lemma save_trace_rows (supabase : option SupabaseService.Client)
  (insert : SupabaseService.Client -> string -> list SupabaseService.Row ->
            SupabaseService.Reply)
  (transactions : list ScoredTransaction.t)
  (client : SupabaseService.Client) (table : string)
  (rows : list SupabaseService.Row) :
  In (SupabaseService.Insert client table rows)
    (fst (SupabaseService.saveFraudAnalysisResults supabase insert
            transactions)) ->
  rows = List.map SupabaseService.toRow transactions.
Proof.
  unfold SupabaseService.saveFraudAnalysisResults.
  destruct supabase as [c |]; [| intros []]. cbv zeta.
  destruct (SupabaseService.error _); simpl.
  - intros [H | [H | []]]; [| discriminate]. now inversion H.
  - intros [H | []]. now inversion H.
Qed.

Lemma save_handler_rows (supabase : option SupabaseService.Client)
  (insert : SupabaseService.Client -> string -> list SupabaseService.Row ->
            SupabaseService.Reply)
  (ui : Component.t) (client : SupabaseService.Client) (table : string)
  (rows : list SupabaseService.Row) :
  In (Component.Supabase (SupabaseService.Insert client table rows))
    (fst (Component.handleSaveToDatabase supabase insert ui)) ->
  rows = List.map SupabaseService.toRow (Component.topRiskyTransactions ui)
  /\ Component.topRiskyTransactions ui <> [].
Proof.
  unfold Component.handleSaveToDatabase.
  destruct (Component.topRiskyTransactions ui) as [| t l] eqn:Et;
    [intros [] |].
  simpl length. simpl Nat.eqb. cbv iota. intros H.
  split; [| discriminate].
  apply (save_trace_rows supabase insert (t :: l) client table).
  destruct (SupabaseService.saveFraudAnalysisResults supabase insert (t :: l))
    as [events [d | e]]; simpl in *.
  - apply List.in_map_iff in H as (ev & [= ->] & Hin). exact Hin.
  - apply List.in_app_or in H as [H | [H | []]]; [| discriminate].
    apply List.in_map_iff in H as (ev & [= ->] & Hin). exact Hin.
Qed.

(** X15. What the save button writes: when the scores are numbers, the rows
    inserted are at least one and at most as many as the results, all marked
    [is_flagged], in descending order of [fraud_score], and their scores are
    those of the table shown. *)
Theorem saved_rows_descend (supabase : option SupabaseService.Client)
  (insert : SupabaseService.Client -> string -> list SupabaseService.Row ->
            SupabaseService.Reply)
  (ui : Component.t) (client : SupabaseService.Client) (table : string)
  (rows : list SupabaseService.Row) :
  Forall (has_number AIAnalysisResult.fraudScore)
    (Component.analysisResults ui) ->
  In (Component.Supabase (SupabaseService.Insert client table rows))
    (fst (Component.handleSaveToDatabase supabase insert ui)) ->
  (0 < length rows <= length (Component.analysisResults ui))%nat
  /\ StronglySorted (descending SupabaseService.fraud_score) rows
  /\ Forall (fun r => SupabaseService.is_flagged r = true) rows
  /\ List.map SupabaseService.fraud_score rows
     = List.map ScoredTransaction.fraudScore
         (Component.topRiskyTransactions ui)
  /\ Forall (fun r => processed_id (Component.processedData ui) r = true)
       (List.map ScoredTransaction.id (Component.topRiskyTransactions ui)).
Proof.
  intros Hs Hin. apply save_handler_rows in Hin as [-> Hne].
  assert (Et : Component.topRiskyTransactions ui
               = Js.filter_non_null
                   (List.map (App.joinOriginal (Component.processedData ui))
                      (Js.sort App.byFraudScore
                         (Component.analysisResults ui))))
    by apply topRiskyTransactions_snd.
  repeat split.
  - rewrite List.length_map.
    destruct (Component.topRiskyTransactions ui); [congruence | simpl; lia].
  - rewrite List.length_map, Et.
    etransitivity; [apply filter_non_null_length |].
    now rewrite sort_length.
  - apply toRow_sorted. rewrite Et. apply joined_sorted.
    apply (sort_sorted _ AIAnalysisResult.fraudScore); [reflexivity | exact Hs].
  - apply List.Forall_forall. intros r Hr.
    apply List.in_map_iff in Hr as (t & <- & _). reflexivity.
  - rewrite List.map_map. reflexivity.
  - rewrite Et, joined_ids. apply List.Forall_forall. intros i Hi.
    now apply List.filter_In in Hi.
Qed.

Lemma saved_rows_descend_witness :
  let ui :=
    Component.mk rows_example (App.processFeatures rows_example) false false
      false SaveStatus.idle None [scored 4 0.25; scored 9 0.5; scored 0 0.75] in
  exists rows,
    List.map SupabaseService.fraud_score rows = [0.75; 0.25]%float
    /\ StronglySorted (descending SupabaseService.fraud_score) rows.
Proof.
  intros ui.
  exists (List.map SupabaseService.toRow (Component.topRiskyTransactions ui)).
  split; [vm_compute; reflexivity |].
  apply (saved_rows_descend (Some client_stub) table_stub ui client_stub
           "fraud_detections").
  - repeat constructor.
  - left. reflexivity.
Defined.

(** The requests of a run of the analysis are those of the service on the
    records the component holds. *)
Lemma run_requests (API_KEY : option string)
  (generateContent
    : list GeminiService.Payload -> GeminiService.Exn + option string)
  (JSON_parse : string -> GeminiService.Exn + list AIAnalysisResult.t)
  (ui : Component.t) (ev : GeminiService.Event) :
  In (Component.Gemini ev)
    (fst (Component.runAIAnalysis API_KEY generateContent JSON_parse ui))
  <-> In ev
        (fst (GeminiService.analyzeFraudWithGemini API_KEY generateContent
                JSON_parse (Component.processedData ui))).
Proof.
  unfold Component.runAIAnalysis.
  destruct (Component.processedData ui) as [| p l] eqn:Ep.
  { simpl. tauto. }
  simpl length. simpl Nat.eqb. cbv iota.
  destruct (GeminiService.analyzeFraudWithGemini API_KEY generateContent
              JSON_parse (p :: l)) as [events outcome].
  destruct (Component.analysisDone outcome (Component.analysisStart ui))
    as [logged done] eqn:Ed.
  assert (Hl : ~ In (Component.Gemini ev) logged).
  { unfold Component.analysisDone in Ed.
    destruct outcome; injection Ed as <- _; simpl; [tauto |].
    intros [H | []]. discriminate. }
  cbn [fst]. rewrite List.in_app_iff, List.in_map_iff. split.
  - intros [(ev' & [= ->] & H) | H]; [exact H | contradiction].
  - intros H. left. now exists ev.
Qed.

(** X5. From the rows of a file to the request. The file is loaded and
    shown, so that the records the component holds are those of the Feature
    Engine in the order the chart has left them in; then the analysis is
    run. Whatever the model and the key are, a request carries at most 30
    entries, in descending order of the ratio; each one is built from a
    flagged record of the Feature Engine, its ratio is above 2, and its
    identifier is the position of a kept row of the file with the same
    category and business area. A request is made exactly when some record
    is flagged and there is a key. *)
Theorem request_of_a_file {File : Type}
  (parse : File -> Component.ParseResult) (file : File)
  (ui : Component.t) (API_KEY : option string)
  (generateContent
    : list GeminiService.Payload -> GeminiService.Exn + option string)
  (JSON_parse : string -> GeminiService.Exn + list AIAnalysisResult.t)
  (data : list RawTransaction.t) :
  parse file = Component.Complete (Some data) ->
  let processed := App.processFeatures data in
  let loaded := Component.handleFileUpload parse (Some file) ui in
  let shown := fst (Component.render loaded) in
  let trace :=
    fst (Component.runAIAnalysis API_KEY generateContent JSON_parse shown) in
  Component.processedData shown = Js.sort App.byAmount processed
  /\ (forall model input,
        In (Component.Gemini (GeminiService.GenerateContent model input))
          trace ->
        (length input <= 30)%nat
        /\ StronglySorted (descending GeminiService.deviationRatio) input
        /\ Forall
             (fun e =>
                Js.gt (GeminiService.deviationRatio e) 2 = true
                /\ (exists p,
                      In p processed
                      /\ ProcessedTransaction.isSuspiciousCandidate p = true
                      /\ e = GeminiService.toPayload p)
                /\ exists row,
                     nth_error data (Z.to_nat (GeminiService.id e)) = Some row
                     /\ App.keys row
                        = Some (GeminiService.actCode e, GeminiService.BA e))
             input)
  /\ ((exists model input,
         In (Component.Gemini (GeminiService.GenerateContent model input))
           trace) <->
      Js.truthy_str API_KEY = true
      /\ Exists (fun p => ProcessedTransaction.isSuspiciousCandidate p = true)
           processed).
Proof.
  intros Hparse processed loaded shown trace.
  set (held := Js.sort App.byAmount processed).
  assert (Hheld : Component.processedData shown = held).
  { unfold shown. destruct (render_unfold loaded) as [-> _].
    cbn [Component.setProcessedData Component.processedData]. unfold held.
    f_equal. unfold loaded, Component.handleFileUpload, Component.uploadDone.
    rewrite Hparse. destruct data as [| row rest]; reflexivity. }
  split; [exact Hheld |].
  assert (Hflag : Forall flagged_by_rule held)
    by apply sort_Forall, processFeatures_flagged.
  pose proof (candidates_first_30 held
                (filter_flagged_numbers held Hflag)) as Hc.
  destruct Hc as (_ & Hle & Hall & Hsorted & _).
  assert (Hnil : GeminiService.candidates held <> [] <->
                 Exists (fun p => ProcessedTransaction.isSuspiciousCandidate p
                                  = true) processed).
  { split.
    - intros Hne. destruct (GeminiService.candidates held) as [| c cs];
        [congruence |].
      inversion Hall as [| ? ? [Hc Hin] _]; subst.
      apply List.Exists_exists. exists c. split; [| exact Hc].
      exact (proj1 (sort_In App.byAmount processed c) Hin).
    - intros Hex. apply candidates_not_nil.
      apply List.Exists_exists in Hex as (q & Hq & Hf).
      apply List.Exists_exists. exists q. split; [| exact Hf].
      exact (proj2 (sort_In App.byAmount processed q) Hq). }
  assert (Hreq : forall model input,
            In (Component.Gemini (GeminiService.GenerateContent model input))
              trace ->
            input = List.map GeminiService.toPayload
                      (GeminiService.candidates held)
            /\ GeminiService.candidates held <> []
            /\ Js.truthy_str API_KEY = true).
  { intros model input Hin. unfold trace in Hin.
    apply run_requests in Hin. rewrite Hheld in Hin. revert Hin.
    destruct (analyze_cases API_KEY generateContent JSON_parse held)
      as [[_ H] | [(_ & _ & H) | (Hne & Hk & [(e & _ & H) | [(t & e & _ & _ & H)
          | [(t & r & _ & _ & H) | H]]])]];
      rewrite H; simpl; intros Hin;
      repeat (destruct Hin as [Hin | Hin]; [try discriminate |]);
      try contradiction; injection Hin as _ <-; auto. }
  split.
  - intros model input Hin. destruct (Hreq model input Hin) as (-> & _ & _).
    split; [now rewrite List.length_map |].
    split; [now apply payload_sorted |].
    apply List.Forall_map. eapply List.Forall_impl; [| exact Hall].
    intros q [Hq Hin']. rewrite List.Forall_forall in Hflag.
    split; [apply flagged_above_two; auto |].
    apply (proj1 (sort_In App.byAmount processed q)) in Hin'.
    split; [now exists q |].
    apply processFeatures_built in Hin' as (k & row & Hk & Hb).
    destruct Hb as (Hkeys & Hid & _). exists row. simpl.
    rewrite Hid, Nat2Z.id. now split.
  - split.
    + intros (model & input & Hin).
      destruct (Hreq model input Hin) as (_ & Hne & Hk).
      split; [exact Hk | now apply Hnil].
    + intros [Hk Hex]. apply Hnil in Hex.
      assert (Hev : exists model input,
                In (GeminiService.GenerateContent model input)
                  (fst (GeminiService.analyzeFraudWithGemini API_KEY
                          generateContent JSON_parse held))).
      { destruct (analyze_cases API_KEY generateContent JSON_parse held)
          as [[Hn _] | [(_ & Hk' & _) | (_ & _ & [(e & _ & H)
              | [(t & e & _ & _ & H) | [(t & r & _ & _ & H) | H]]])]];
          try congruence; rewrite H; do 2 eexists; left; reflexivity. }
      destruct Hev as (model & input & Hev). exists model, input.
      unfold trace. apply run_requests. now rewrite Hheld.
Qed.

Lemma request_of_a_file_witness :
  let shown :=
    fst (Component.render
           (Component.handleFileUpload parse_stub_outlier (Some "may.csv")
              Component.initial)) in
  List.map ProcessedTransaction.id (Component.processedData shown)
  = [4; 0; 1; 2; 3]
  /\ exists model input,
       In (Component.Gemini (GeminiService.GenerateContent model input))
         (fst (Component.runAIAnalysis (Some "key") scorer_stub parse_stub
                 shown)).
Proof.
  intros shown. split; [vm_compute; reflexivity |].
  apply (request_of_a_file parse_stub_outlier "may.csv" Component.initial
           (Some "key") scorer_stub parse_stub rows_outlier eq_refl).
  split; [reflexivity |].
  apply List.Exists_exists.
  exists (ProcessedTransaction.mk 4 "A" (Some "2024-01") "X" 1000
            (Js.Count 5) (1004 / 5) (1000 / (1004 / 5)) true).
  split; [| reflexivity]. vm_compute. do 4 right. left. reflexivity.
Defined.

Section Session.

Variable API_KEY : option string.
Variable generateContent
  : list GeminiService.Payload -> GeminiService.Exn + option string.
Variable JSON_parse
  : string -> GeminiService.Exn + list AIAnalysisResult.t.
Variable supabase : option SupabaseService.Client.
Variable insert
  : SupabaseService.Client -> string -> list SupabaseService.Row ->
    SupabaseService.Reply.

(** X16. A file in which no record is flagged ends in a message, not in a
    table: after the upload and a run of the analysis, whatever the
    credential and the model, nothing was sent, there is no result, the
    error cell holds the message that nothing was found, the save button is
    not shown and saving does nothing. *)
Theorem nothing_flagged_ends_in_a_message {File : Type}
  (parse : File -> Component.ParseResult) (file : File)
  (data : list RawTransaction.t) (ui : Component.t) :
  parse file = Component.Complete (Some data) ->
  Exists (fun r => is_kept r = true) data ->
  Forall (fun p => ProcessedTransaction.isSuspiciousCandidate p = false)
    (App.processFeatures data) ->
  let loaded := Component.handleFileUpload parse (Some file) ui in
  let analysed :=
    Component.runAIAnalysis API_KEY generateContent JSON_parse loaded in
  Component.error loaded = None
  /\ fst analysed = []
  /\ Component.analysisResults (snd analysed) = []
  /\ Component.error (snd analysed) = Some Component.nothingFoundMessage
  /\ Component.isAnalyzing (snd analysed) = false
  /\ Component.saveShown (snd (Component.render (snd analysed))) = false
  /\ Component.handleSaveToDatabase supabase insert (snd analysed)
     = ([], snd analysed).
Proof.
  intros Hp Hk Hf loaded analysed.
  assert (Hne : App.processFeatures data <> []).
  { intros Hnil. apply processFeatures_nil_iff in Hnil.
    apply List.Exists_exists in Hk as (r & Hin & Hr).
    rewrite List.Forall_forall in Hnil. specialize (Hnil r Hin). congruence. }
  assert (El : loaded
               = Component.mk data (App.processFeatures data) false
                   (Component.isAnalyzing ui) (Component.isSaving ui)
                   SaveStatus.idle None []).
  { unfold loaded, Component.handleFileUpload, Component.uploadDone.
    rewrite Hp. destruct data as [| row rest]; [inversion Hk | reflexivity]. }
  assert (Ea : analysed
               = ([], Component.mk data (App.processFeatures data) false
                        false (Component.isSaving ui) SaveStatus.idle
                        (Some Component.nothingFoundMessage) [])).
  { unfold analysed, Component.runAIAnalysis. rewrite El.
    cbn [Component.processedData].
    destruct (App.processFeatures data) as [| p l] eqn:Epd; [congruence |].
    simpl length. simpl Nat.eqb. cbv iota.
    unfold GeminiService.analyzeFraudWithGemini.
    rewrite candidates_nil by exact Hf. reflexivity. }
  rewrite Ea, El. cbn [fst snd]. repeat split.
Qed.


End Session.

Lemma nothing_flagged_ends_in_a_message_witness :
  let loaded :=
    Component.handleFileUpload parse_stub_rows (Some "may.csv")
      Component.initial in
  let analysed :=
    Component.runAIAnalysis (Some "key") scorer_stub parse_stub loaded in
  length (Component.processedData loaded) = 4%nat
  /\ fst analysed = []
  /\ Component.error (snd analysed) = Some Component.nothingFoundMessage.
Proof.
  intros loaded analysed.
  split; [vm_compute; reflexivity |].
  assert (Hk : Exists (fun r => is_kept r = true) rows_example)
    by (apply List.Exists_cons_hd; reflexivity).
  assert (Hf : Forall
                 (fun p => ProcessedTransaction.isSuspiciousCandidate p = false)
                 (App.processFeatures rows_example))
    by (vm_compute; repeat constructor).
  destruct (nothing_flagged_ends_in_a_message (Some "key") scorer_stub
              parse_stub (Some client_stub) table_stub parse_stub_rows
              "may.csv" rows_example Component.initial eq_refl Hk Hf)
    as (_ & H1 & _ & H2 & _).
  split; [exact H1 | exact H2].
Defined.
